(** * Networking-App: the client-side data layer

    A shallow embedding of the REST client ([frontend/scripts/database.ts])
    and of the view-state logic of the home and people screens
    ([frontend/app/(tabs)/index.tsx], [people.tsx] and the earliest home
    screen), together with the properties the specification states about
    them.

    JavaScript values of static type [unknown] are embedded as [JsValue];
    values whose TypeScript type is a record ([EventRecord], [TaskRecord],
    response envelopes seen by the screens) are Rocq records with optional
    fields.  A call that may throw, and equally a promise that may reject,
    is an [Outcome]. *)

From Stdlib Require Import String Ascii List Bool Arith ZArith Lia DecimalString DecimalNat.
Import ListNotations.
Local Open Scope string_scope.
Set Warnings "-register-all".

(* ================================================================== *)
(** * JavaScript values and the operators the program uses             *)
(* ================================================================== *)

Module JS.

(** A value as produced by [JSON.parse], plus [undefined].  Numbers enter
    the program only through truthiness tests and template literals, both
    on integers; they are kept as [Z].  An object is its list of own
    properties, the first binding of a key being the one that is read. *)
Inductive JsValue : Type :=
| JUndefined
| JNull
| JBool (b : bool)
| JNum (n : Z)
| JStr (s : string)
| JArr (items : list JsValue)
| JObj (fields : list (string * JsValue)).

(** What a [catch] clause can receive.  [TypeError] is the error the
    runtime raises itself; it is an instance of [Error] like any other,
    only its message text is the engine's. *)
Inductive JsError : Type :=
| Error (message : string)
| TypeError (message : string)
| Thrown (v : JsValue).

Inductive Outcome (A : Type) : Type :=
| Returns (a : A)
| Throws (e : JsError).

Arguments Returns {A} a.
Arguments Throws {A} e.

Definition bind {A B : Type} (c : Outcome A) (k : A -> Outcome B) : Outcome B :=
  match c with
  | Returns a => k a
  | Throws e => Throws e
  end.

Notation "x <- c ;; k" := (bind c (fun x => k))
  (at level 61, c at next level, right associativity).

(** [err instanceof Error ? err.message : fallback] *)
Definition messageOr (fallback : string) (err : JsError) : string :=
  match err with
  | Error m | TypeError m => m
  | Thrown _ => fallback
  end.

(** [!!v] *)
Definition truthy (v : JsValue) : bool :=
  match v with
  | JUndefined | JNull => false
  | JBool b => b
  | JNum n => negb (n =? 0)%Z
  | JStr s => negb (s =? "")
  | JArr _ | JObj _ => true
  end.

(** [typeof v] *)
Definition typeof (v : JsValue) : string :=
  match v with
  | JUndefined => "undefined"
  | JNull | JArr _ | JObj _ => "object"
  | JBool _ => "boolean"
  | JNum _ => "number"
  | JStr _ => "string"
  end.

(** [a || b] and [a ?? b] *)
Definition or (a b : JsValue) : JsValue := if truthy a then a else b.

Definition isNullish (v : JsValue) : bool :=
  match v with
  | JUndefined | JNull => true
  | _ => false
  end.

Definition coalesce (a b : JsValue) : JsValue := if isNullish a then b else a.

Fixpoint assoc {V : Type} (k : string) (l : list (string * V)) : option V :=
  match l with
  | [] => None
  | (k', v) :: rest => if k =? k' then Some v else assoc k rest
  end.

(** [v.k] for a value already known not to be [null] or [undefined].  The
    keys this program reads ([error], [tasks], [status], [events], [_id],
    [id], [name], [date], [username]) are not defined on any prototype of a
    JSON value, so only an object's own properties can answer. *)
Definition member (v : JsValue) (k : string) : JsValue :=
  match v with
  | JObj fields =>
      match assoc k fields with
      | Some x => x
      | None => JUndefined
      end
  | _ => JUndefined
  end.

Definition cannotRead (k base : string) : string :=
  "Cannot read property '" ++ k ++ "' of " ++ base.

(** [v.k] in general: reading a property of [null] or [undefined] throws. *)
Definition prop (v : JsValue) (k : string) : Outcome JsValue :=
  match v with
  | JUndefined => Throws (TypeError (cannotRead k "undefined"))
  | JNull => Throws (TypeError (cannotRead k "null"))
  | _ => Returns (member v k)
  end.

(** [Array.prototype.filter] with a callback that may throw. *)
Fixpoint filterM {A : Type} (f : A -> Outcome bool) (l : list A) : Outcome (list A) :=
  match l with
  | [] => Returns []
  | x :: rest =>
      keep <- f x ;;
      kept <- filterM f rest ;;
      Returns (if keep then x :: kept else kept)
  end.

(** [v.filter(f)] on a JSON value: only arrays have the method. *)
Definition arrayFilter (f : JsValue -> Outcome bool) (v : JsValue) : Outcome JsValue :=
  match v with
  | JArr items => kept <- filterM f items ;; Returns (JArr kept)
  | _ => Throws (TypeError "filter is not a function")
  end.

(** [v === s] for a string literal [s] *)
Definition strictEqStr (v : JsValue) (s : string) : bool :=
  match v with
  | JStr t => t =? s
  | _ => false
  end.

(** An optional string field of a typed record, read as a JS value. *)
Definition ofOpt (o : option string) : JsValue :=
  match o with
  | Some s => JStr s
  | None => JUndefined
  end.

(** [`${n}`] for a non-negative integer *)
Definition showNat (n : nat) : string := NilEmpty.string_of_uint (Nat.to_uint n).

(** White space and line terminators of ECMAScript among the code units
    below 256: TAB, LF, VT, FF, CR, SP and NBSP. *)
Definition isWhiteSpace (c : ascii) : bool :=
  let n := nat_of_ascii c in
  ((9 <=? n) && (n <=? 13) || (n =? 32) || (n =? 160))%nat.

Fixpoint trimStart (s : string) : string :=
  match s with
  | String c rest => if isWhiteSpace c then trimStart rest else s
  | EmptyString => EmptyString
  end.

Fixpoint trimEnd (s : string) : string :=
  match s with
  | String c rest =>
      match trimEnd rest with
      | EmptyString => if isWhiteSpace c then EmptyString else String c EmptyString
      | kept => String c kept
      end
  | EmptyString => EmptyString
  end.

(** [String.prototype.trim] *)
Definition trim (s : string) : string := trimEnd (trimStart s).

(** [!s] for a string *)
Definition isEmpty (s : string) : bool := s =? "".

End JS.

(* ================================================================== *)
(** * scripts/database.ts                                              *)
(* ================================================================== *)

Module Database.
Import JS.

(** What [fetch] resolves to, as far as [request] looks at it: the status
    and the settled promise of [response.json()]. *)
Record Response : Type := {
  status : nat;
  json : Outcome JsValue
}.

(** [response.ok], which the Fetch standard defines as a status in
    200..299. *)
Definition ok (response : Response) : bool :=
  ((200 <=? status response) && (status response <=? 299))%nat.

Definition serializeError (response : Response) (body : JsValue) : string :=
  let defaultMessage := "Request failed with status " ++ showNat (status response) in
  if truthy body && (typeof body =? "object") && negb (isNullish body) then
    match member body "error" with
    | JStr message =>
        if (0 <? String.length message)%nat then message else defaultMessage
    | _ => defaultMessage
    end
  else defaultMessage.

(** [type QueryValue = string | number | boolean | undefined | null].  A
    number is held as the text that [String(value)] gives for it: how the
    platform prints a number (exponents from [1e21] on, fractions, [NaN])
    is not modelled. *)
Inductive QueryValue : Type :=
| QStr (s : string)
| QNum (printed : string)
| QBool (b : bool)
| QUndefined
| QNull.

(** [String(value)] on a query value *)
Definition queryString (v : QueryValue) : string :=
  match v with
  | QStr s => s
  | QNum printed => printed
  | QBool true => "true"
  | QBool false => "false"
  | QUndefined => "undefined"
  | QNull => "null"
  end.

(** [{ ...a, ...b }] on string-valued objects *)
Definition spread (a b : list (string * string)) : list (string * string) :=
  map (fun kv => match assoc (fst kv) b with
                 | Some v => (fst kv, v)
                 | None => kv
                 end) a
  ++ filter (fun kv => match assoc (fst kv) a with
                       | Some _ => false
                       | None => true
                       end) b.

Definition defaultHeaders : list (string * string) :=
  [("Content-Type", "application/json")].

(** The options [request] receives: [method], [headers] and [body], an
    absent field being [None]. *)
Record JsonRequestOptions : Type := {
  method : option string;
  headers : option (list (string * string));
  body : option JsValue
}.

(** One call of the platform's [fetch]. *)
Record FetchCall : Type := {
  fetchUrl : string;
  fetchMethod : option string;
  fetchHeaders : list (string * string);
  fetchBody : option string;
  fetchCredentials : string
}.

(** The network: what each [fetch] settles to. *)
Definition Network : Type := FetchCall -> Outcome Response.

(** An asynchronous computation over the network: it is given the network
    and the calls made so far, and yields how its promise settles and the
    calls made by then. *)
Definition Net (A : Type) : Type :=
  Network -> list FetchCall -> Outcome A * list FetchCall.

(** [promise.then(f)] with a callback that may throw *)
Definition andThen {A B : Type} (p : Net A) (f : A -> Outcome B) : Net B :=
  fun net calls =>
    let '(settled, calls') := p net calls in
    (bind settled f, calls').

Section Gateway.

(** Resolved once when the module is loaded. *)
Variable API_BASE_URL : string.
(** Platform serialisers. *)
Variable JSON_stringify : JsValue -> string.
Variable URLSearchParams_toString : list (string * string) -> string.

Definition buildQueryString (params : option (list (string * QueryValue))) : string :=
  match params with
  | None => ""
  | Some entries =>
      let query :=
        flat_map (fun kv =>
                    match snd kv with
                    | QUndefined | QNull => []
                    | value => [(fst kv, queryString value)]
                    end) entries in
      let queryString := URLSearchParams_toString query in
      if isEmpty queryString then "" else "?" ++ queryString
  end.

Definition fetchCallOf (path : string) (options : JsonRequestOptions) : FetchCall :=
  {| fetchUrl := API_BASE_URL ++ path;
     fetchMethod := method options;
     fetchHeaders := spread defaultHeaders
                       (match headers options with Some h => h | None => [] end);
     fetchBody := option_map JSON_stringify (body options);
     fetchCredentials := "include" |}.

Definition request (path : string) (options : JsonRequestOptions) : Net JsValue :=
  fun net calls =>
    let call := fetchCallOf path options in
    let calls' := (calls ++ [call])%list in
    match net call with
    | Throws e => (Throws e, calls')
    | Returns response =>
        let responseBody :=
          match json response with
          | Returns parsed => parsed
          | Throws _ => JNull
          end in
        if negb (ok response)
        then (Throws (Error (serializeError response responseBody)), calls')
        else (Returns responseBody, calls')
    end.

Definition get (path : string) (params : option (list (string * QueryValue))) : Net JsValue :=
  request (path ++ buildQueryString params)
    {| method := Some "GET"; headers := None; body := None |}.

Definition post (path : string) (payload : JsValue) : Net JsValue :=
  request path {| method := Some "POST"; headers := None; body := Some payload |}.

Definition getUserTasks (username : string) : Net JsValue :=
  get "/get-user-tasks" (Some [("username", QStr username)]).

(** The callback of [getFinishedTasks]: [({ tasks }) => ...] *)
Definition completedOf (response : JsValue) : Outcome JsValue :=
  tasks <- prop response "tasks" ;;
  let filteredTasks := coalesce tasks (JArr []) in
  completedTasks <-
    arrayFilter (fun task =>
                   taskStatus <- prop task "status" ;;
                   Returns (strictEqStr taskStatus "completed"))
                filteredTasks ;;
  Returns (JObj [("success", JBool true); ("tasks", completedTasks)]).

Definition getFinishedTasks (username : string) : Net JsValue :=
  andThen (getUserTasks username) completedOf.

End Gateway.

End Database.

(* ================================================================== *)
(** * Records shared by the screens                                    *)
(* ================================================================== *)

(** [type EventRecord] of database.ts *)
Module EventRecord.
Record t : Type := {
  _id : option string;
  id : option string;
  name : option string;
  coverImage : option string;
  date : option string;
  tasks : option (list string)
}.
End EventRecord.

(** [type TaskRecord] of database.ts *)
Module TaskRecord.
Record t : Type := {
  _id : option string;
  id : option string;
  info : option string;
  type : option string;
  status : option string;
  dateTime : option string;
  eventId : option string
}.
End TaskRecord.

(** An entry of the displayed event list, [{ id, name, date }].  The
    fields hold whatever the expressions of the screen evaluate to; an
    omitted [date] reads as [undefined]. *)
Module DisplayEvent.
Record t : Type := {
  id : JS.JsValue;
  name : JS.JsValue;
  date : JS.JsValue
}.
End DisplayEvent.

Module React.
Import JS.

(** [type User = Record<string, unknown>]; the context holds [User | null]. *)
Definition User : Type := list (string * JsValue).

(** [user?.key] *)
Definition userField (user : option User) (key : string) : JsValue :=
  match user with
  | Some fields => member (JObj fields) key
  | None => JUndefined
  end.

(** [typeof user?.username === 'string' ? user.username : undefined] *)
Definition usernameOf (user : option User) : option string :=
  match userField user "username" with
  | JStr s => Some s
  | _ => None
  end.

(** [Array.isArray(user?.key) ? user.key : []] *)
Definition arrayField (user : option User) (key : string) : list JsValue :=
  match userField user key with
  | JArr items => items
  | _ => []
  end.

(** [!username] for [string | undefined] *)
Definition noUsername (username : option string) : bool :=
  match username with
  | Some s => isEmpty s
  | None => true
  end.

(** Whether a dependency of an effect changed between two renders. *)
Definition sameUsername (a b : option string) : bool :=
  match a, b with
  | Some x, Some y => x =? y
  | None, None => true
  | _, _ => false
  end.

(** [array.map((value, index) => ...)] *)
Fixpoint mapiFrom {A B : Type} (start : nat) (f : A -> nat -> B) (l : list A) : list B :=
  match l with
  | [] => []
  | x :: rest => f x start :: mapiFrom (S start) f rest
  end.

Definition mapi {A B : Type} (f : A -> nat -> B) (l : list A) : list B :=
  mapiFrom 0 f l.

(** The same with a callback that may throw: the first throw ends the
    traversal. *)
Fixpoint mapiFromM {A B : Type} (start : nat) (f : A -> nat -> Outcome B) (l : list A)
  : Outcome (list B) :=
  match l with
  | [] => Returns []
  | x :: rest =>
      y <- f x start ;;
      ys <- mapiFromM (S start) f rest ;;
      Returns (y :: ys)
  end.

Definition mapiM {A B : Type} (f : A -> nat -> Outcome B) (l : list A) : Outcome (list B) :=
  mapiFromM 0 f l.

(** Replace the element at a position, if there is one. *)
Fixpoint setNth {A : Type} (n : nat) (x : A) (l : list A) : list A :=
  match l, n with
  | [], _ => []
  | _ :: rest, O => x :: rest
  | y :: rest, S n' => y :: setNth n' x rest
  end.

(** The user-profile branch of the displayed event list, the same in both
    revisions of index.tsx:
    [userEvents.map((e, i) => typeof e === 'string' ? ... : ...)] *)
Definition embeddedEvent (e : JsValue) (i : nat) : Outcome DisplayEvent.t :=
  if typeof e =? "string" then
    Returns {| DisplayEvent.id := e;
               DisplayEvent.name := JStr ("Event " ++ showNat (i + 1));
               DisplayEvent.date := JUndefined |}
  else
    objId <- prop e "_id" ;;
    Returns {| DisplayEvent.id :=
                 or (or objId (member e "id")) (JStr ("event-" ++ showNat i));
               DisplayEvent.name :=
                 or (member e "name") (JStr ("Event " ++ showNat (i + 1)));
               DisplayEvent.date := member e "date" |}.

End React.

(* ================================================================== *)
(** * The earliest home screen: [eventEntries]                         *)
(* ================================================================== *)

Module HomeV0.
Import JS React.

Record Entry : Type := {
  id : string;
  label : string
}.

Section Screen.

(** [JSON.stringify], which answers [undefined] on some values. *)
Variable JSON_stringify : JsValue -> option string.

Definition eventEntries (user : option User) : list Entry :=
  let values := arrayField user "events" in
  mapi (fun value index =>
          let stringValue :=
            match value with
            | JStr s => s
            | _ =>
                match JSON_stringify (coalesce value (JStr "")) with
                | Some text => text
                | None => "Event " ++ showNat (index + 1)
                end
            end in
          {| id := match value with
                   | JStr s => s
                   | _ => "event-" ++ showNat index
                   end;
             label := stringValue |}) values.

End Screen.

End HomeV0.

(* ================================================================== *)
(** * What the gateway answers to a screen                             *)
(* ================================================================== *)

(** The uniform envelope [{ success, error?, ...payload }] at the type a
    screen sees it; [payload] stands for the one domain field of the
    operation ([events], [tasks], [task], [connection], [connections]). *)
Module Envelope.
Record t (P : Type) : Type := {
  success : bool;
  payload : option P;
  error : option string
}.
Arguments success {P} _.
Arguments payload {P} _.
Arguments error {P} _.

(** [response.error || fallback] *)
Definition errorOr {P : Type} (fallback : string) (response : t P) : string :=
  match error response with
  | Some message => if JS.isEmpty message then fallback else message
  | None => fallback
  end.

(** [response.error ?? fallback] *)
Definition errorElse {P : Type} (fallback : string) (response : t P) : string :=
  match error response with
  | Some message => message
  | None => fallback
  end.
End Envelope.

(* ================================================================== *)
(** * app/(tabs)/index.tsx, first revision                             *)
(* ================================================================== *)

Module HomeV1.
Import JS React.

Inductive TaskType : Type := Connect | Meeting | Application | Other.

Definition TASK_TYPES : list TaskType := [Connect; Meeting; Application; Other].

Definition taskTypeName (t : TaskType) : string :=
  match t with
  | Connect => "Connect"
  | Meeting => "Meeting"
  | Application => "Application"
  | Other => "Other"
  end.

Record TaskEntry : Type := {
  id : JsValue;
  label : string;
  type : option string;
  eventName : JsValue
}.

(** The [useState] cells of the component. *)
Record State : Type := {
  fetchedEvents : list EventRecord.t;
  loadingEvents : bool;
  createdTasks : list TaskEntry;
  modalVisible : bool;
  taskInfo : string;
  taskType : TaskType;
  selectedEventId : option string;
  isDropdownOpen : bool;
  formError : option string;
  isSubmitting : bool
}.

Definition initial : State :=
  {| fetchedEvents := []; loadingEvents := false; createdTasks := [];
     modalVisible := false; taskInfo := ""; taskType := Connect;
     selectedEventId := None; isDropdownOpen := false; formError := None;
     isSubmitting := false |}.

Definition setFetchedEvents (v : list EventRecord.t) (s : State) : State :=
  {| fetchedEvents := v; loadingEvents := loadingEvents s; createdTasks := createdTasks s;
     modalVisible := modalVisible s; taskInfo := taskInfo s; taskType := taskType s;
     selectedEventId := selectedEventId s; isDropdownOpen := isDropdownOpen s;
     formError := formError s; isSubmitting := isSubmitting s |}.

Definition setLoadingEvents (v : bool) (s : State) : State :=
  {| fetchedEvents := fetchedEvents s; loadingEvents := v; createdTasks := createdTasks s;
     modalVisible := modalVisible s; taskInfo := taskInfo s; taskType := taskType s;
     selectedEventId := selectedEventId s; isDropdownOpen := isDropdownOpen s;
     formError := formError s; isSubmitting := isSubmitting s |}.

Definition setCreatedTasks (f : list TaskEntry -> list TaskEntry) (s : State) : State :=
  {| fetchedEvents := fetchedEvents s; loadingEvents := loadingEvents s;
     createdTasks := f (createdTasks s);
     modalVisible := modalVisible s; taskInfo := taskInfo s; taskType := taskType s;
     selectedEventId := selectedEventId s; isDropdownOpen := isDropdownOpen s;
     formError := formError s; isSubmitting := isSubmitting s |}.

Definition setModalVisible (v : bool) (s : State) : State :=
  {| fetchedEvents := fetchedEvents s; loadingEvents := loadingEvents s;
     createdTasks := createdTasks s;
     modalVisible := v; taskInfo := taskInfo s; taskType := taskType s;
     selectedEventId := selectedEventId s; isDropdownOpen := isDropdownOpen s;
     formError := formError s; isSubmitting := isSubmitting s |}.

Definition setTaskInfo (v : string) (s : State) : State :=
  {| fetchedEvents := fetchedEvents s; loadingEvents := loadingEvents s;
     createdTasks := createdTasks s;
     modalVisible := modalVisible s; taskInfo := v; taskType := taskType s;
     selectedEventId := selectedEventId s; isDropdownOpen := isDropdownOpen s;
     formError := formError s; isSubmitting := isSubmitting s |}.

Definition setTaskType (v : TaskType) (s : State) : State :=
  {| fetchedEvents := fetchedEvents s; loadingEvents := loadingEvents s;
     createdTasks := createdTasks s;
     modalVisible := modalVisible s; taskInfo := taskInfo s; taskType := v;
     selectedEventId := selectedEventId s; isDropdownOpen := isDropdownOpen s;
     formError := formError s; isSubmitting := isSubmitting s |}.

Definition setSelectedEventId (v : option string) (s : State) : State :=
  {| fetchedEvents := fetchedEvents s; loadingEvents := loadingEvents s;
     createdTasks := createdTasks s;
     modalVisible := modalVisible s; taskInfo := taskInfo s; taskType := taskType s;
     selectedEventId := v; isDropdownOpen := isDropdownOpen s;
     formError := formError s; isSubmitting := isSubmitting s |}.

Definition setIsDropdownOpen (v : bool) (s : State) : State :=
  {| fetchedEvents := fetchedEvents s; loadingEvents := loadingEvents s;
     createdTasks := createdTasks s;
     modalVisible := modalVisible s; taskInfo := taskInfo s; taskType := taskType s;
     selectedEventId := selectedEventId s; isDropdownOpen := v;
     formError := formError s; isSubmitting := isSubmitting s |}.

Definition setFormError (v : option string) (s : State) : State :=
  {| fetchedEvents := fetchedEvents s; loadingEvents := loadingEvents s;
     createdTasks := createdTasks s;
     modalVisible := modalVisible s; taskInfo := taskInfo s; taskType := taskType s;
     selectedEventId := selectedEventId s; isDropdownOpen := isDropdownOpen s;
     formError := v; isSubmitting := isSubmitting s |}.

Definition setIsSubmitting (v : bool) (s : State) : State :=
  {| fetchedEvents := fetchedEvents s; loadingEvents := loadingEvents s;
     createdTasks := createdTasks s;
     modalVisible := modalVisible s; taskInfo := taskInfo s; taskType := taskType s;
     selectedEventId := selectedEventId s; isDropdownOpen := isDropdownOpen s;
     formError := formError s; isSubmitting := v |}.

(** [const userEvents = Array.isArray(user?.events) ? user.events : []] *)
Definition userEvents (user : option User) : list JsValue := arrayField user "events".

(** [const events = fetchedEvents.length > 0 ? fetchedEvents.map(...)
                                              : userEvents.map(...)] *)
(** The callback of [fetchedEvents.map((e, i) => ...)] *)
Definition fetchedEvent (e : EventRecord.t) (i : nat) : DisplayEvent.t :=
  {| DisplayEvent.id := or (ofOpt (EventRecord._id e)) (ofOpt (EventRecord.id e));
     DisplayEvent.name := ofOpt (EventRecord.name e);
     DisplayEvent.date := ofOpt (EventRecord.date e) |}.

Definition events (fetched : list EventRecord.t) (embedded : list JsValue)
  : Outcome (list DisplayEvent.t) :=
  if (0 <? length fetched)%nat then Returns (mapi fetchedEvent fetched)
  else mapiM embeddedEvent embedded.

(** [events.find((e) => e.id === eventId)] then [event?.name || 'Unknown Event'] *)
Definition getEventName (shown : list DisplayEvent.t) (eventId : string) : JsValue :=
  match find (fun e => strictEqStr (DisplayEvent.id e) eventId) shown with
  | Some event => or (DisplayEvent.name event) (JStr "Unknown Event")
  | None => JStr "Unknown Event"
  end.

Definition handleOpenModal (s : State) : State :=
  setModalVisible true
    (setIsDropdownOpen false
       (setFormError None
          (setSelectedEventId None (setTaskType Connect (setTaskInfo "" s))))).

Definition handleCloseModal (s : State) : State :=
  setIsDropdownOpen false (setModalVisible false s).

(** ** The component with its pending promises *)

(** One [getEvents] promise with the [cancelled] variable of the effect
    run that started it. *)
Record EventsFetch : Type := {
  forUser : string;
  cancelled : bool;
  settled : bool
}.

(** What the handler of one submission holds across its [await]. *)
Record Submission : Type := {
  trimmedInfo : string;
  submittedType : TaskType;
  submittedEventId : option string;
  shownEvents : list DisplayEvent.t;
  answered : bool
}.

(** A call of a gateway operation. *)
Inductive Call : Type :=
| GetEvents (username : string)
| CreateTask (username info type : string) (eventId : option string).

Record Screen : Type := {
  user : option User;
  state : State;
  fetches : list EventsFetch;
  current : option nat;
  submissions : list Submission;
  calls : list Call
}.

Definition withState (f : State -> State) (sc : Screen) : Screen :=
  {| user := user sc; state := f (state sc); fetches := fetches sc;
     current := current sc; submissions := submissions sc; calls := calls sc |}.

Definition withUser (u : option User) (sc : Screen) : Screen :=
  {| user := u; state := state sc; fetches := fetches sc;
     current := current sc; submissions := submissions sc; calls := calls sc |}.

Definition withFetches (l : list EventsFetch) (k : option nat) (sc : Screen) : Screen :=
  {| user := user sc; state := state sc; fetches := l;
     current := k; submissions := submissions sc; calls := calls sc |}.

Definition withSubmissions (l : list Submission) (sc : Screen) : Screen :=
  {| user := user sc; state := state sc; fetches := fetches sc;
     current := current sc; submissions := l; calls := calls sc |}.

Definition logCall (c : Call) (sc : Screen) : Screen :=
  {| user := user sc; state := state sc; fetches := fetches sc;
     current := current sc; submissions := submissions sc;
     calls := (calls sc ++ [c])%list |}.

(** The body of [useEffect(() => { ... }, [username])]. *)
Definition runEventsEffect (sc : Screen) : Screen :=
  match usernameOf (user sc) with
  | Some username =>
      if isEmpty username then
        withFetches (fetches sc) None (withState (setFetchedEvents []) sc)
      else
        logCall (GetEvents username)
          (withFetches
             (fetches sc ++ [{| forUser := username; cancelled := false; settled := false |}])%list
             (Some (length (fetches sc)))
             (withState (setLoadingEvents true) sc))
  | None => withFetches (fetches sc) None (withState (setFetchedEvents []) sc)
  end.

(** The function the effect returned: [() => { cancelled = true; }]. *)
Definition cleanupEventsEffect (sc : Screen) : Screen :=
  match current sc with
  | Some k =>
      match nth_error (fetches sc) k with
      | Some f =>
          withFetches
            (setNth k {| forUser := forUser f; cancelled := true; settled := settled f |}
                    (fetches sc))
            (current sc) sc
      | None => sc
      end
  | None => sc
  end.

Definition mount (u : option User) : Screen :=
  runEventsEffect
    {| user := u; state := initial; fetches := []; current := None;
       submissions := []; calls := [] |}.

(** The context provides a new user value: the component renders again and
    the effect runs again when its dependency [username] changed. *)
Definition provide (u : option User) (sc : Screen) : Screen :=
  if sameUsername (usernameOf u) (usernameOf (user sc)) then withUser u sc
  else runEventsEffect (withUser u (cleanupEventsEffect sc)).

(** The [then] / [catch] / [finally] chain on the promise of fetch [k]. *)
Definition eventsSettled (k : nat) (outcome : Outcome (Envelope.t (list EventRecord.t)))
    (sc : Screen) : Screen :=
  match nth_error (fetches sc) k with
  | Some f =>
      if settled f then sc
      else
        let sc1 :=
          withFetches
            (setNth k {| forUser := forUser f; cancelled := cancelled f; settled := true |}
                    (fetches sc))
            (current sc) sc in
        let sc2 :=
          match outcome with
          | Returns response =>
              if cancelled f then sc1
              else
                match Envelope.success response, Envelope.payload response with
                | true, Some fetched => withState (setFetchedEvents fetched) sc1
                | _, _ => sc1
                end
          | Throws _ => sc1
          end in
        if negb (cancelled f) then withState (setLoadingEvents false) sc2 else sc2
  | None => sc
  end.

(** [handleCreateTask] up to its [await]; [shown] is the value of [events]
    in the render whose button was pressed, which the handler closes
    over. *)
Definition handleCreateTask (shown : list DisplayEvent.t) (sc : Screen) : Screen :=
  if noUsername (usernameOf (user sc)) then
    withState (setFormError (Some "User not available")) sc
  else
    let username := match usernameOf (user sc) with Some u => u | None => "" end in
    let trimmed := trim (taskInfo (state sc)) in
    if isEmpty trimmed then
      withState (setFormError (Some "Task info is required")) sc
    else
      logCall (CreateTask username trimmed (taskTypeName (taskType (state sc)))
                          (selectedEventId (state sc)))
        (withSubmissions
           (submissions sc ++
            [{| trimmedInfo := trimmed;
                submittedType := taskType (state sc);
                submittedEventId := selectedEventId (state sc);
                shownEvents := shown;
                answered := false |}])%list
           (withState (fun s => setFormError None (setIsSubmitting true s)) sc)).

(** [handleCreateTask] from its [await] on: [createTask] settled for
    submission [k]; [now] is what [Date.now()] answers. *)
Definition createTaskSettled (k : nat)
    (outcome : Outcome (Envelope.t (list (string * JsValue)))) (now : nat)
    (sc : Screen) : Screen :=
  match nth_error (submissions sc) k with
  | Some sub =>
      if answered sub then sc
      else
        let sc1 :=
          withSubmissions
            (setNth k {| trimmedInfo := trimmedInfo sub;
                         submittedType := submittedType sub;
                         submittedEventId := submittedEventId sub;
                         shownEvents := shownEvents sub;
                         answered := true |} (submissions sc)) sc in
        let sc2 :=
          match outcome with
          | Returns response =>
              match Envelope.success response, Envelope.payload response with
              | true, Some task =>
                  let newTask :=
                    {| id := or (or (member (JObj task) "_id") (member (JObj task) "id"))
                                (JStr ("task-" ++ showNat now));
                       label := trimmedInfo sub;
                       type := Some (taskTypeName (submittedType sub));
                       eventName :=
                         match submittedEventId sub with
                         | Some eventId =>
                             if isEmpty eventId then JUndefined
                             else getEventName (shownEvents sub) eventId
                         | None => JUndefined
                         end |} in
                  withState
                    (fun s => handleCloseModal (setCreatedTasks (fun prev => newTask :: prev) s))
                    sc1
              | _, _ =>
                  withState
                    (setFormError (Some (Envelope.errorOr "Failed to create task" response)))
                    sc1
              end
          | Throws err =>
              withState (setFormError (Some (messageOr "Failed to create task" err))) sc1
          end in
        withState (setIsSubmitting false) sc2
  | None => sc
  end.

(** ** Everything that can happen to the mounted component *)

Inductive Input : Type :=
| Provide (u : option User)
| EventsSettled (k : nat) (outcome : Outcome (Envelope.t (list EventRecord.t)))
| OpenModal
| CloseModal
| TypeInfo (text : string)
| PickType (t : TaskType)
| PickEvent (eventId : option string)
| ToggleDropdown
| PressCreate (shown : list DisplayEvent.t)
| CreateTaskSettled (k : nat) (outcome : Outcome (Envelope.t (list (string * JsValue))))
                    (now : nat).

Definition step (sc : Screen) (i : Input) : Screen :=
  match i with
  | Provide u => provide u sc
  | EventsSettled k outcome => eventsSettled k outcome sc
  | OpenModal => withState handleOpenModal sc
  | CloseModal => withState handleCloseModal sc
  | TypeInfo text => withState (setTaskInfo text) sc
  | PickType t => withState (setTaskType t) sc
  | PickEvent eventId =>
      withState (fun s => setIsDropdownOpen false (setSelectedEventId eventId s)) sc
  | ToggleDropdown =>
      withState (fun s => setIsDropdownOpen (negb (isDropdownOpen s)) s) sc
  | PressCreate shown => handleCreateTask shown sc
  | CreateTaskSettled k outcome now => createTaskSettled k outcome now sc
  end.

Definition run (sc : Screen) (inputs : list Input) : Screen := fold_left step inputs sc.

(** ** What the cancellation flags are meant to guarantee *)

(** Every fetch but the one started by the latest run of the effect has
    its [cancelled] variable set, and that latest one exists. *)
Definition othersCancelled (sc : Screen) : Prop :=
  forall k f, nth_error (fetches sc) k = Some f -> current sc <> Some k -> cancelled f = true.

Definition currentExists (sc : Screen) : Prop :=
  forall k, current sc = Some k -> k < length (fetches sc).

(** Fetch [k] was started by a run of the effect that has been cleaned up
    since. *)
Definition abandoned (k : nat) (sc : Screen) : Prop :=
  k < length (fetches sc) /\ current sc <> Some k.

Definition onlyState (sc sc' : Screen) : Prop :=
  fetches sc' = fetches sc /\ current sc' = current sc.

End HomeV1.

(* ================================================================== *)
(** * app/(tabs)/index.tsx, second revision                            *)
(* ================================================================== *)

(** The task-details dialog of this revision ([handleCompleteSelectedTask]
    and its four state cells) is left out; nothing below reads it. *)
Module HomeV2.
Import JS React.

Inductive TaskType : Type := Connect | Meeting | Application | Other.

Definition taskTypeName (t : TaskType) : string :=
  match t with
  | Connect => "Connect"
  | Meeting => "Meeting"
  | Application => "Application"
  | Other => "Other"
  end.

Record State : Type := {
  fetchedEvents : list EventRecord.t;
  loadingEvents : bool;
  tasks : list TaskRecord.t;
  loadingTasks : bool;
  finishedCount : nat;
  modalVisible : bool;
  taskInfo : string;
  taskType : TaskType;
  formError : option string;
  isSubmitting : bool
}.

Definition initial : State :=
  {| fetchedEvents := []; loadingEvents := false; tasks := []; loadingTasks := false;
     finishedCount := 0; modalVisible := false; taskInfo := ""; taskType := Connect;
     formError := None; isSubmitting := false |}.

Definition setFetchedEvents (v : list EventRecord.t) (s : State) : State :=
  {| fetchedEvents := v; loadingEvents := loadingEvents s; tasks := tasks s;
     loadingTasks := loadingTasks s; finishedCount := finishedCount s;
     modalVisible := modalVisible s; taskInfo := taskInfo s; taskType := taskType s;
     formError := formError s; isSubmitting := isSubmitting s |}.

Definition setLoadingEvents (v : bool) (s : State) : State :=
  {| fetchedEvents := fetchedEvents s; loadingEvents := v; tasks := tasks s;
     loadingTasks := loadingTasks s; finishedCount := finishedCount s;
     modalVisible := modalVisible s; taskInfo := taskInfo s; taskType := taskType s;
     formError := formError s; isSubmitting := isSubmitting s |}.

Definition setTasks (v : list TaskRecord.t) (s : State) : State :=
  {| fetchedEvents := fetchedEvents s; loadingEvents := loadingEvents s; tasks := v;
     loadingTasks := loadingTasks s; finishedCount := finishedCount s;
     modalVisible := modalVisible s; taskInfo := taskInfo s; taskType := taskType s;
     formError := formError s; isSubmitting := isSubmitting s |}.

Definition setLoadingTasks (v : bool) (s : State) : State :=
  {| fetchedEvents := fetchedEvents s; loadingEvents := loadingEvents s; tasks := tasks s;
     loadingTasks := v; finishedCount := finishedCount s;
     modalVisible := modalVisible s; taskInfo := taskInfo s; taskType := taskType s;
     formError := formError s; isSubmitting := isSubmitting s |}.

Definition setFinishedCount (v : nat) (s : State) : State :=
  {| fetchedEvents := fetchedEvents s; loadingEvents := loadingEvents s; tasks := tasks s;
     loadingTasks := loadingTasks s; finishedCount := v;
     modalVisible := modalVisible s; taskInfo := taskInfo s; taskType := taskType s;
     formError := formError s; isSubmitting := isSubmitting s |}.

Definition setModalVisible (v : bool) (s : State) : State :=
  {| fetchedEvents := fetchedEvents s; loadingEvents := loadingEvents s; tasks := tasks s;
     loadingTasks := loadingTasks s; finishedCount := finishedCount s;
     modalVisible := v; taskInfo := taskInfo s; taskType := taskType s;
     formError := formError s; isSubmitting := isSubmitting s |}.

Definition setTaskInfo (v : string) (s : State) : State :=
  {| fetchedEvents := fetchedEvents s; loadingEvents := loadingEvents s; tasks := tasks s;
     loadingTasks := loadingTasks s; finishedCount := finishedCount s;
     modalVisible := modalVisible s; taskInfo := v; taskType := taskType s;
     formError := formError s; isSubmitting := isSubmitting s |}.

Definition setTaskType (v : TaskType) (s : State) : State :=
  {| fetchedEvents := fetchedEvents s; loadingEvents := loadingEvents s; tasks := tasks s;
     loadingTasks := loadingTasks s; finishedCount := finishedCount s;
     modalVisible := modalVisible s; taskInfo := taskInfo s; taskType := v;
     formError := formError s; isSubmitting := isSubmitting s |}.

Definition setFormError (v : option string) (s : State) : State :=
  {| fetchedEvents := fetchedEvents s; loadingEvents := loadingEvents s; tasks := tasks s;
     loadingTasks := loadingTasks s; finishedCount := finishedCount s;
     modalVisible := modalVisible s; taskInfo := taskInfo s; taskType := taskType s;
     formError := v; isSubmitting := isSubmitting s |}.

Definition setIsSubmitting (v : bool) (s : State) : State :=
  {| fetchedEvents := fetchedEvents s; loadingEvents := loadingEvents s; tasks := tasks s;
     loadingTasks := loadingTasks s; finishedCount := finishedCount s;
     modalVisible := modalVisible s; taskInfo := taskInfo s; taskType := taskType s;
     formError := formError s; isSubmitting := v |}.

Definition userEvents (user : option User) : list JsValue := arrayField user "events".

(** [const events = fetchedEvents.length > 0 ? fetchedEvents.map(...)
                                              : userEvents.map(...)] *)
(** The callback of [fetchedEvents.map((e, i) => ...)] *)
Definition fetchedEvent (e : EventRecord.t) (i : nat) : DisplayEvent.t :=
  {| DisplayEvent.id :=
       or (or (ofOpt (EventRecord._id e)) (ofOpt (EventRecord.id e)))
          (JStr ("event-" ++ showNat i));
     DisplayEvent.name :=
       or (ofOpt (EventRecord.name e)) (JStr ("Event " ++ showNat (i + 1)));
     DisplayEvent.date := ofOpt (EventRecord.date e) |}.

Definition events (fetched : list EventRecord.t) (embedded : list JsValue)
  : Outcome (list DisplayEvent.t) :=
  if (0 <? length fetched)%nat then Returns (mapi fetchedEvent fetched)
  else mapiM embeddedEvent embedded.

Definition handleOpenModal (s : State) : State :=
  setModalVisible true (setFormError None (setTaskType Connect (setTaskInfo "" s))).

Definition handleCloseModal (s : State) : State := setModalVisible false s.

(** ** The component with its pending promises *)

Record EventsFetch : Type := {
  forUser : string;
  cancelled : bool;
  settled : bool
}.

(** One run of [loadTasks]: the user it was started for, whether its
    [Promise.all] has settled, and whether a [handleCreateTask] is awaiting
    it. *)
Record TaskLoad : Type := {
  loadFor : string;
  loadSettled : bool;
  awaitedBySubmit : bool
}.

Record Submission : Type := {
  submittedBy : string;
  answered : bool
}.

Inductive Call : Type :=
| GetEvents (username : string)
| GetUserTasks (username : string)
| GetFinishedTasks (username : string)
| CreateTask (username info type : string).

Record Screen : Type := {
  user : option User;
  state : State;
  fetches : list EventsFetch;
  current : option nat;
  loads : list TaskLoad;
  submissions : list Submission;
  calls : list Call
}.

Definition withState (f : State -> State) (sc : Screen) : Screen :=
  {| user := user sc; state := f (state sc); fetches := fetches sc; current := current sc;
     loads := loads sc; submissions := submissions sc; calls := calls sc |}.

Definition withUser (u : option User) (sc : Screen) : Screen :=
  {| user := u; state := state sc; fetches := fetches sc; current := current sc;
     loads := loads sc; submissions := submissions sc; calls := calls sc |}.

Definition withFetches (l : list EventsFetch) (k : option nat) (sc : Screen) : Screen :=
  {| user := user sc; state := state sc; fetches := l; current := k;
     loads := loads sc; submissions := submissions sc; calls := calls sc |}.

Definition withLoads (l : list TaskLoad) (sc : Screen) : Screen :=
  {| user := user sc; state := state sc; fetches := fetches sc; current := current sc;
     loads := l; submissions := submissions sc; calls := calls sc |}.

Definition withSubmissions (l : list Submission) (sc : Screen) : Screen :=
  {| user := user sc; state := state sc; fetches := fetches sc; current := current sc;
     loads := loads sc; submissions := l; calls := calls sc |}.

Definition logCall (c : Call) (sc : Screen) : Screen :=
  {| user := user sc; state := state sc; fetches := fetches sc; current := current sc;
     loads := loads sc; submissions := submissions sc; calls := (calls sc ++ [c])%list |}.

(** The body of the first effect, on [getEvents]. *)
Definition runEventsEffect (sc : Screen) : Screen :=
  match usernameOf (user sc) with
  | Some username =>
      if isEmpty username then
        withFetches (fetches sc) None (withState (setFetchedEvents []) sc)
      else
        logCall (GetEvents username)
          (withFetches
             (fetches sc ++ [{| forUser := username; cancelled := false; settled := false |}])%list
             (Some (length (fetches sc)))
             (withState (setLoadingEvents true) sc))
  | None => withFetches (fetches sc) None (withState (setFetchedEvents []) sc)
  end.

Definition cleanupEventsEffect (sc : Screen) : Screen :=
  match current sc with
  | Some k =>
      match nth_error (fetches sc) k with
      | Some f =>
          withFetches
            (setNth k {| forUser := forUser f; cancelled := true; settled := settled f |}
                    (fetches sc))
            (current sc) sc
      | None => sc
      end
  | None => sc
  end.

(** [loadTasks(activeUsername)] up to its [await Promise.all([...])]. *)
Definition loadTasks (activeUsername : string) (awaited : bool) (sc : Screen) : Screen :=
  logCall (GetFinishedTasks activeUsername)
    (logCall (GetUserTasks activeUsername)
       (withLoads
          (loads sc ++ [{| loadFor := activeUsername; loadSettled := false;
                           awaitedBySubmit := awaited |}])%list
          (withState (setLoadingTasks true) sc))).

(** The body of the second effect; it returns no clean-up function. *)
Definition runTasksEffect (sc : Screen) : Screen :=
  match usernameOf (user sc) with
  | Some username =>
      if isEmpty username then
        withState (fun s => setFinishedCount 0 (setTasks [] s)) sc
      else loadTasks username false sc
  | None => withState (fun s => setFinishedCount 0 (setTasks [] s)) sc
  end.

Definition mount (u : option User) : Screen :=
  runTasksEffect
    (runEventsEffect
       {| user := u; state := initial; fetches := []; current := None;
          loads := []; submissions := []; calls := [] |}).

Definition provide (u : option User) (sc : Screen) : Screen :=
  if sameUsername (usernameOf u) (usernameOf (user sc)) then withUser u sc
  else runTasksEffect (runEventsEffect (withUser u (cleanupEventsEffect sc))).

Definition eventsSettled (k : nat) (outcome : Outcome (Envelope.t (list EventRecord.t)))
    (sc : Screen) : Screen :=
  match nth_error (fetches sc) k with
  | Some f =>
      if settled f then sc
      else
        let sc1 :=
          withFetches
            (setNth k {| forUser := forUser f; cancelled := cancelled f; settled := true |}
                    (fetches sc))
            (current sc) sc in
        let sc2 :=
          match outcome with
          | Returns response =>
              if cancelled f then sc1
              else
                match Envelope.success response, Envelope.payload response with
                | true, Some fetched => withState (setFetchedEvents fetched) sc1
                | _, _ => sc1
                end
          | Throws _ => sc1
          end in
        if negb (cancelled f) then withState (setLoadingEvents false) sc2 else sc2
  | None => sc
  end.

(** [loadTasks] from its [await] on: the [Promise.all] of run [k] settled,
    to the pair of answers or to the first rejection. *)
Definition tasksSettled (k : nat)
    (outcome : Outcome (Envelope.t (list TaskRecord.t) * Envelope.t (list TaskRecord.t)))
    (sc : Screen) : Screen :=
  match nth_error (loads sc) k with
  | Some load =>
      if loadSettled load then sc
      else
        let sc1 :=
          withLoads
            (setNth k {| loadFor := loadFor load; loadSettled := true;
                         awaitedBySubmit := awaitedBySubmit load |} (loads sc)) sc in
        let sc2 :=
          match outcome with
          | Returns (tasksResponse, finishedResponse) =>
              let sc' :=
                match Envelope.success tasksResponse, Envelope.payload tasksResponse with
                | true, Some fetched => withState (setTasks fetched) sc1
                | _, _ => sc1
                end in
              match Envelope.success finishedResponse, Envelope.payload finishedResponse with
              | true, Some finished => withState (setFinishedCount (length finished)) sc'
              | _, _ => sc'
              end
          | Throws _ => sc1
          end in
        let sc3 := withState (setLoadingTasks false) sc2 in
        if awaitedBySubmit load then withState (setIsSubmitting false) sc3 else sc3
  | None => sc
  end.

(** [handleCreateTask] up to its first [await]. *)
Definition handleCreateTask (sc : Screen) : Screen :=
  if noUsername (usernameOf (user sc)) then
    withState (setFormError (Some "User not available")) sc
  else
    let username := match usernameOf (user sc) with Some u => u | None => "" end in
    let trimmedInfo := trim (taskInfo (state sc)) in
    if isEmpty trimmedInfo then
      withState (setFormError (Some "Task info is required")) sc
    else
      logCall (CreateTask username trimmedInfo (taskTypeName (taskType (state sc))))
        (withSubmissions
           (submissions sc ++ [{| submittedBy := username; answered := false |}])%list
           (withState (fun s => setFormError None (setIsSubmitting true s)) sc)).

(** [handleCreateTask] from [await createTask(...)] on; after a success it
    suspends once more on [await loadTasks(username)]. *)
Definition createTaskSettled (k : nat)
    (outcome : Outcome (Envelope.t (list (string * JsValue)))) (sc : Screen) : Screen :=
  match nth_error (submissions sc) k with
  | Some sub =>
      if answered sub then sc
      else
        let sc1 :=
          withSubmissions
            (setNth k {| submittedBy := submittedBy sub; answered := true |}
                    (submissions sc)) sc in
        match outcome with
        | Returns response =>
            if Envelope.success response then
              loadTasks (submittedBy sub) true (withState handleCloseModal sc1)
            else
              withState (setIsSubmitting false)
                (withState
                   (setFormError (Some (Envelope.errorOr "Failed to create task" response)))
                   sc1)
        | Throws err =>
            withState (setIsSubmitting false)
              (withState (setFormError (Some (messageOr "Failed to create task" err))) sc1)
        end
  | None => sc
  end.

(** ** Everything that can happen to the mounted component *)

Inductive Input : Type :=
| Provide (u : option User)
| EventsSettled (k : nat) (outcome : Outcome (Envelope.t (list EventRecord.t)))
| TasksSettled (k : nat)
    (outcome : Outcome (Envelope.t (list TaskRecord.t) * Envelope.t (list TaskRecord.t)))
| OpenModal
| CloseModal
| TypeInfo (text : string)
| PickType (t : TaskType)
| PressCreate
| CreateTaskSettled (k : nat) (outcome : Outcome (Envelope.t (list (string * JsValue)))).

Definition step (sc : Screen) (i : Input) : Screen :=
  match i with
  | Provide u => provide u sc
  | EventsSettled k outcome => eventsSettled k outcome sc
  | TasksSettled k outcome => tasksSettled k outcome sc
  | OpenModal => withState handleOpenModal sc
  | CloseModal => withState handleCloseModal sc
  | TypeInfo text => withState (setTaskInfo text) sc
  | PickType t => withState (setTaskType t) sc
  | PressCreate => handleCreateTask sc
  | CreateTaskSettled k outcome => createTaskSettled k outcome sc
  end.

Definition run (sc : Screen) (inputs : list Input) : Screen := fold_left step inputs sc.

(** ** What the cancellation flags are meant to guarantee *)

(** Every fetch but the one started by the latest run of the effect has
    its [cancelled] variable set, and that latest one exists. *)
Definition othersCancelled (sc : Screen) : Prop :=
  forall k f, nth_error (fetches sc) k = Some f -> current sc <> Some k -> cancelled f = true.

Definition currentExists (sc : Screen) : Prop :=
  forall k, current sc = Some k -> k < length (fetches sc).

(** Fetch [k] was started by a run of the effect that has been cleaned up
    since. *)
Definition abandoned (k : nat) (sc : Screen) : Prop :=
  k < length (fetches sc) /\ current sc <> Some k.

Definition onlyState (sc sc' : Screen) : Prop :=
  fetches sc' = fetches sc /\ current sc' = current sc.

End HomeV2.

(* ================================================================== *)
(** * app/(tabs)/people.tsx, first revision                               *)
(* ================================================================== *)

Module PeopleV1.
Import JS React.

Record State : Type := {
  connections : list JsValue;
  loading : bool;
  error : option string;
  modalVisible : bool;
  connectionName : string;
  connectionNote : string;
  connectionEmail : string;
  connectionPhone : string;
  formError : option string;
  isSubmittingConnection : bool
}.

Definition initial : State :=
  {| connections := []; loading := false; error := None; modalVisible := false;
     connectionName := ""; connectionNote := ""; connectionEmail := "";
     connectionPhone := ""; formError := None; isSubmittingConnection := false |}.

Definition setConnections (v : list JsValue) (s : State) : State :=
  {| connections := v; loading := loading s; error := error s;
     modalVisible := modalVisible s; connectionName := connectionName s;
     connectionNote := connectionNote s; connectionEmail := connectionEmail s;
     connectionPhone := connectionPhone s; formError := formError s;
     isSubmittingConnection := isSubmittingConnection s |}.

Definition setLoading (v : bool) (s : State) : State :=
  {| connections := connections s; loading := v; error := error s;
     modalVisible := modalVisible s; connectionName := connectionName s;
     connectionNote := connectionNote s; connectionEmail := connectionEmail s;
     connectionPhone := connectionPhone s; formError := formError s;
     isSubmittingConnection := isSubmittingConnection s |}.

Definition setError (v : option string) (s : State) : State :=
  {| connections := connections s; loading := loading s; error := v;
     modalVisible := modalVisible s; connectionName := connectionName s;
     connectionNote := connectionNote s; connectionEmail := connectionEmail s;
     connectionPhone := connectionPhone s; formError := formError s;
     isSubmittingConnection := isSubmittingConnection s |}.

Definition setModalVisible (v : bool) (s : State) : State :=
  {| connections := connections s; loading := loading s; error := error s;
     modalVisible := v; connectionName := connectionName s;
     connectionNote := connectionNote s; connectionEmail := connectionEmail s;
     connectionPhone := connectionPhone s; formError := formError s;
     isSubmittingConnection := isSubmittingConnection s |}.

Definition setConnectionName (v : string) (s : State) : State :=
  {| connections := connections s; loading := loading s; error := error s;
     modalVisible := modalVisible s; connectionName := v;
     connectionNote := connectionNote s; connectionEmail := connectionEmail s;
     connectionPhone := connectionPhone s; formError := formError s;
     isSubmittingConnection := isSubmittingConnection s |}.

Definition setConnectionNote (v : string) (s : State) : State :=
  {| connections := connections s; loading := loading s; error := error s;
     modalVisible := modalVisible s; connectionName := connectionName s;
     connectionNote := v; connectionEmail := connectionEmail s;
     connectionPhone := connectionPhone s; formError := formError s;
     isSubmittingConnection := isSubmittingConnection s |}.

Definition setConnectionEmail (v : string) (s : State) : State :=
  {| connections := connections s; loading := loading s; error := error s;
     modalVisible := modalVisible s; connectionName := connectionName s;
     connectionNote := connectionNote s; connectionEmail := v;
     connectionPhone := connectionPhone s; formError := formError s;
     isSubmittingConnection := isSubmittingConnection s |}.

Definition setConnectionPhone (v : string) (s : State) : State :=
  {| connections := connections s; loading := loading s; error := error s;
     modalVisible := modalVisible s; connectionName := connectionName s;
     connectionNote := connectionNote s; connectionEmail := connectionEmail s;
     connectionPhone := v; formError := formError s;
     isSubmittingConnection := isSubmittingConnection s |}.

Definition setFormError (v : option string) (s : State) : State :=
  {| connections := connections s; loading := loading s; error := error s;
     modalVisible := modalVisible s; connectionName := connectionName s;
     connectionNote := connectionNote s; connectionEmail := connectionEmail s;
     connectionPhone := connectionPhone s; formError := v;
     isSubmittingConnection := isSubmittingConnection s |}.

Definition setIsSubmittingConnection (v : bool) (s : State) : State :=
  {| connections := connections s; loading := loading s; error := error s;
     modalVisible := modalVisible s; connectionName := connectionName s;
     connectionNote := connectionNote s; connectionEmail := connectionEmail s;
     connectionPhone := connectionPhone s; formError := formError s;
     isSubmittingConnection := v |}.

(** [typeof user?.username === 'string' ? user.username : ''] *)
Definition username (user : option User) : string :=
  match usernameOf user with
  | Some s => s
  | None => ""
  end.

Definition resetConnectionForm (s : State) : State :=
  setConnectionPhone "" (setConnectionEmail "" (setConnectionNote "" (setConnectionName "" s))).

Definition handleDismissModal (s : State) : State :=
  setIsSubmittingConnection false
    (resetConnectionForm (setFormError None (setModalVisible false s))).

(** ** The component with its pending promises *)

Record Load : Type := {
  loadFor : string;
  loadSettled : bool
}.

Record Addition : Type := {
  addedBy : string;
  answered : bool
}.

Inductive Call : Type :=
| GetConnections (username : string)
| AddConnection (username connectionName note : string) (email phoneNumber : option string).

Record Screen : Type := {
  user : option User;
  state : State;
  loads : list Load;
  additions : list Addition;
  calls : list Call
}.

Definition withState (f : State -> State) (sc : Screen) : Screen :=
  {| user := user sc; state := f (state sc); loads := loads sc;
     additions := additions sc; calls := calls sc |}.

Definition withUser (u : option User) (sc : Screen) : Screen :=
  {| user := u; state := state sc; loads := loads sc;
     additions := additions sc; calls := calls sc |}.

Definition withLoads (l : list Load) (sc : Screen) : Screen :=
  {| user := user sc; state := state sc; loads := l;
     additions := additions sc; calls := calls sc |}.

Definition withAdditions (l : list Addition) (sc : Screen) : Screen :=
  {| user := user sc; state := state sc; loads := loads sc;
     additions := l; calls := calls sc |}.

Definition logCall (c : Call) (sc : Screen) : Screen :=
  {| user := user sc; state := state sc; loads := loads sc;
     additions := additions sc; calls := (calls sc ++ [c])%list |}.

(** [loadConnections] of the render in which [username] was [name], up to
    its [await]. *)
Definition loadConnections (name : string) (sc : Screen) : Screen :=
  logCall (GetConnections name)
    (withLoads (loads sc ++ [{| loadFor := name; loadSettled := false |}])%list
       (withState (fun s => setError None (setLoading true s)) sc)).

(** [loadConnections] from its [await] on. *)
Definition connectionsSettled (k : nat) (outcome : Outcome (Envelope.t (list JsValue)))
    (sc : Screen) : Screen :=
  match nth_error (loads sc) k with
  | Some load =>
      if loadSettled load then sc
      else
        let sc1 :=
          withLoads (setNth k {| loadFor := loadFor load; loadSettled := true |} (loads sc))
                    sc in
        let sc2 :=
          match outcome with
          | Returns response =>
              if Envelope.success response then
                withState
                  (setConnections
                     (match Envelope.payload response with Some l => l | None => [] end))
                  sc1
              else
                withState
                  (setError (Some (Envelope.errorElse "Unable to load connections" response)))
                  sc1
          | Throws err =>
              withState (setError (Some (messageOr "Unable to load connections" err))) sc1
          end in
        withState (setLoading false) sc2
  | None => sc
  end.

(** [useEffect(() => { if (!username) return; loadConnections(); }, ...)] *)
Definition runEffect (sc : Screen) : Screen :=
  if isEmpty (username (user sc)) then sc else loadConnections (username (user sc)) sc.

Definition mount (u : option User) : Screen :=
  runEffect {| user := u; state := initial; loads := []; additions := []; calls := [] |}.

Definition provide (u : option User) (sc : Screen) : Screen :=
  if username u =? username (user sc) then withUser u sc else runEffect (withUser u sc).

(** [value ? value.trim() : undefined] *)
Definition trimmedOrUndefined (value : string) : option string :=
  if isEmpty value then None else Some (trim value).

(** [handleCreateConnection] up to its [await]. *)
Definition handleCreateConnection (sc : Screen) : Screen :=
  if isEmpty (username (user sc)) then
    withState (setFormError (Some "Current user is unavailable")) sc
  else
    let trimmedName := trim (connectionName (state sc)) in
    let trimmedNote := trim (connectionNote (state sc)) in
    if isEmpty trimmedName || isEmpty trimmedNote then
      withState (setFormError (Some "Name and note are required")) sc
    else
      logCall (AddConnection (username (user sc)) trimmedName trimmedNote
                 (trimmedOrUndefined (connectionEmail (state sc)))
                 (trimmedOrUndefined (connectionPhone (state sc))))
        (withAdditions
           (additions sc ++ [{| addedBy := username (user sc); answered := false |}])%list
           (withState (fun s => setFormError None (setIsSubmittingConnection true s)) sc)).

(** [handleCreateConnection] from [await addConnection(...)] on.  The
    answer itself is not looked at: only whether the promise rejected. *)
Definition addConnectionSettled (k : nat)
    (outcome : Outcome (Envelope.t (list (string * JsValue)))) (sc : Screen) : Screen :=
  match nth_error (additions sc) k with
  | Some add =>
      if answered add then sc
      else
        let sc1 :=
          withAdditions (setNth k {| addedBy := addedBy add; answered := true |} (additions sc))
                        sc in
        let sc2 :=
          match outcome with
          | Returns _ => loadConnections (addedBy add) (withState handleDismissModal sc1)
          | Throws err =>
              withState (setFormError (Some (messageOr "Unable to add connection" err))) sc1
          end in
        withState (setIsSubmittingConnection false) sc2
  | None => sc
  end.

End PeopleV1.

(* ================================================================== *)
(** * app/(tabs)/people.tsx, second revision                              *)
(* ================================================================== *)

Module PeopleV2.
Import JS React.

Record State : Type := {
  connections : list JsValue;
  loading : bool;
  error : option string;
  modalVisible : bool;
  connectionName : string;
  connectionNote : string;
  formError : option string;
  isSubmittingConnection : bool
}.

Definition initial : State :=
  {| connections := []; loading := false; error := None; modalVisible := false;
     connectionName := ""; connectionNote := ""; formError := None;
     isSubmittingConnection := false |}.

Definition setConnections (v : list JsValue) (s : State) : State :=
  {| connections := v; loading := loading s; error := error s;
     modalVisible := modalVisible s; connectionName := connectionName s;
     connectionNote := connectionNote s; formError := formError s;
     isSubmittingConnection := isSubmittingConnection s |}.

Definition setLoading (v : bool) (s : State) : State :=
  {| connections := connections s; loading := v; error := error s;
     modalVisible := modalVisible s; connectionName := connectionName s;
     connectionNote := connectionNote s; formError := formError s;
     isSubmittingConnection := isSubmittingConnection s |}.

Definition setError (v : option string) (s : State) : State :=
  {| connections := connections s; loading := loading s; error := v;
     modalVisible := modalVisible s; connectionName := connectionName s;
     connectionNote := connectionNote s; formError := formError s;
     isSubmittingConnection := isSubmittingConnection s |}.

Definition setModalVisible (v : bool) (s : State) : State :=
  {| connections := connections s; loading := loading s; error := error s;
     modalVisible := v; connectionName := connectionName s;
     connectionNote := connectionNote s; formError := formError s;
     isSubmittingConnection := isSubmittingConnection s |}.

Definition setConnectionName (v : string) (s : State) : State :=
  {| connections := connections s; loading := loading s; error := error s;
     modalVisible := modalVisible s; connectionName := v;
     connectionNote := connectionNote s; formError := formError s;
     isSubmittingConnection := isSubmittingConnection s |}.

Definition setConnectionNote (v : string) (s : State) : State :=
  {| connections := connections s; loading := loading s; error := error s;
     modalVisible := modalVisible s; connectionName := connectionName s;
     connectionNote := v; formError := formError s;
     isSubmittingConnection := isSubmittingConnection s |}.

Definition setFormError (v : option string) (s : State) : State :=
  {| connections := connections s; loading := loading s; error := error s;
     modalVisible := modalVisible s; connectionName := connectionName s;
     connectionNote := connectionNote s; formError := v;
     isSubmittingConnection := isSubmittingConnection s |}.

Definition setIsSubmittingConnection (v : bool) (s : State) : State :=
  {| connections := connections s; loading := loading s; error := error s;
     modalVisible := modalVisible s; connectionName := connectionName s;
     connectionNote := connectionNote s; formError := formError s;
     isSubmittingConnection := v |}.

(** [typeof user?.username === 'string' ? user.username : ''] *)
Definition username (user : option User) : string :=
  match usernameOf user with
  | Some s => s
  | None => ""
  end.

Definition resetConnectionForm (s : State) : State :=
  setConnectionNote "" (setConnectionName "" s).

Definition handleDismissModal (s : State) : State :=
  setIsSubmittingConnection false
    (resetConnectionForm (setFormError None (setModalVisible false s))).

(** ** The component with its pending promises *)

Record Load : Type := {
  loadFor : string;
  loadSettled : bool
}.

Record Addition : Type := {
  addedBy : string;
  answered : bool
}.

Inductive Call : Type :=
| GetConnections (username : string)
| AddConnection (username connectionName note : string).

Record Screen : Type := {
  user : option User;
  state : State;
  loads : list Load;
  additions : list Addition;
  calls : list Call
}.

Definition withState (f : State -> State) (sc : Screen) : Screen :=
  {| user := user sc; state := f (state sc); loads := loads sc;
     additions := additions sc; calls := calls sc |}.

Definition withUser (u : option User) (sc : Screen) : Screen :=
  {| user := u; state := state sc; loads := loads sc;
     additions := additions sc; calls := calls sc |}.

Definition withLoads (l : list Load) (sc : Screen) : Screen :=
  {| user := user sc; state := state sc; loads := l;
     additions := additions sc; calls := calls sc |}.

Definition withAdditions (l : list Addition) (sc : Screen) : Screen :=
  {| user := user sc; state := state sc; loads := loads sc;
     additions := l; calls := calls sc |}.

Definition logCall (c : Call) (sc : Screen) : Screen :=
  {| user := user sc; state := state sc; loads := loads sc;
     additions := additions sc; calls := (calls sc ++ [c])%list |}.

(** [loadConnections] of the render in which [username] was [name], up to
    its [await]. *)
Definition loadConnections (name : string) (sc : Screen) : Screen :=
  logCall (GetConnections name)
    (withLoads (loads sc ++ [{| loadFor := name; loadSettled := false |}])%list
       (withState (fun s => setError None (setLoading true s)) sc)).

(** [loadConnections] from its [await] on. *)
Definition connectionsSettled (k : nat) (outcome : Outcome (Envelope.t (list JsValue)))
    (sc : Screen) : Screen :=
  match nth_error (loads sc) k with
  | Some load =>
      if loadSettled load then sc
      else
        let sc1 :=
          withLoads (setNth k {| loadFor := loadFor load; loadSettled := true |} (loads sc))
                    sc in
        let sc2 :=
          match outcome with
          | Returns response =>
              if Envelope.success response then
                withState
                  (setConnections
                     (match Envelope.payload response with Some l => l | None => [] end))
                  sc1
              else
                withState
                  (setError (Some (Envelope.errorElse "Unable to load connections" response)))
                  sc1
          | Throws err =>
              withState (setError (Some (messageOr "Unable to load connections" err))) sc1
          end in
        withState (setLoading false) sc2
  | None => sc
  end.

(** [useEffect(() => { if (!username) return; loadConnections(); }, ...)] *)
Definition runEffect (sc : Screen) : Screen :=
  if isEmpty (username (user sc)) then sc else loadConnections (username (user sc)) sc.

Definition mount (u : option User) : Screen :=
  runEffect {| user := u; state := initial; loads := []; additions := []; calls := [] |}.

Definition provide (u : option User) (sc : Screen) : Screen :=
  if username u =? username (user sc) then withUser u sc else runEffect (withUser u sc).

(** [handleCreateConnection] up to its [await]. *)
Definition handleCreateConnection (sc : Screen) : Screen :=
  if isEmpty (username (user sc)) then
    withState (setFormError (Some "Current user is unavailable")) sc
  else
    let trimmedName := trim (connectionName (state sc)) in
    let trimmedNote := trim (connectionNote (state sc)) in
    if isEmpty trimmedName || isEmpty trimmedNote then
      withState (setFormError (Some "Name and note are required")) sc
    else
      logCall (AddConnection (username (user sc)) trimmedName trimmedNote)
        (withAdditions
           (additions sc ++ [{| addedBy := username (user sc); answered := false |}])%list
           (withState (fun s => setFormError None (setIsSubmittingConnection true s)) sc)).

(** [handleCreateConnection] from [await addConnection(...)] on.  The
    answer itself is not looked at: only whether the promise rejected. *)
Definition addConnectionSettled (k : nat)
    (outcome : Outcome (Envelope.t (list (string * JsValue)))) (sc : Screen) : Screen :=
  match nth_error (additions sc) k with
  | Some add =>
      if answered add then sc
      else
        let sc1 :=
          withAdditions (setNth k {| addedBy := addedBy add; answered := true |} (additions sc))
                        sc in
        let sc2 :=
          match outcome with
          | Returns _ => loadConnections (addedBy add) (withState handleDismissModal sc1)
          | Throws err =>
              withState (setFormError (Some (messageOr "Unable to add connection" err))) sc1
          end in
        withState (setIsSubmittingConnection false) sc2
  | None => sc
  end.

End PeopleV2.

(* ================================================================== *)
(** * Vocabulary of the statements                                     *)
(* ================================================================== *)

Module Answers.
Import JS.

(** The tasks carried by an answer of [getUserTasks] that the callback of
    [getFinishedTasks] can read: the answer is not [null], and its [tasks]
    is missing, [null] or an array without [null] entries.  Every answer of
    the declared type [{ success: boolean; tasks?: TaskRecord[]; error?:
    string }] is of this kind. *)
Definition tasksOfAnswer (answer : JsValue) : option (list JsValue) :=
  if isNullish answer then None
  else
    match member answer "tasks" with
    | JUndefined | JNull => Some []
    | JArr items => if forallb (fun task => negb (isNullish task)) items
                    then Some items else None
    | _ => None
    end.

(** [task.status === 'completed'] *)
Definition isCompleted (task : JsValue) : bool :=
  strictEqStr (member task "status") "completed".

(** The generic message of [serializeError]. *)
Definition statusMessage (code : nat) : string :=
  "Request failed with status " ++ showNat code.

(** The body is a JSON object whose [error] is the non-empty string [m]. *)
Definition carriesError (parsed : Outcome JsValue) (m : string) : Prop :=
  exists fields,
    parsed = Returns (JObj fields) /\ assoc "error" fields = Some (JStr m) /\ m <> "".

(** A field of an event record counts when it is there and not the empty
    string. *)
Definition nonEmpty (field : option string) : option string :=
  match field with
  | Some s => if isEmpty s then None else Some s
  | None => None
  end.

(** The identifier precedence in the words of the specification: [_id],
    else [id], else the placeholder [event-<index>]. *)
Definition idByPrecedence (_id id : option string) (index : nat) : string :=
  match nonEmpty _id, nonEmpty id with
  | Some s, _ => s
  | None, Some s => s
  | None, None => "event-" ++ showNat index
  end.

(** The message a local rejection puts in the form. *)
Definition rejection (username : option string) : string :=
  if React.noUsername username then "User not available" else "Task info is required".

(** What a failed [createTask] puts in the form. *)
Definition failureMessage {P : Type} (fallback : string) (outcome : Outcome (Envelope.t P))
  : string :=
  match outcome with
  | Returns response => Envelope.errorOr fallback response
  | Throws err => messageOr fallback err
  end.

Definition failed {P : Type} (outcome : Outcome (Envelope.t P)) : Prop :=
  match outcome with
  | Returns response => Envelope.success response = false
  | Throws _ => True
  end.

(** A network that answers every call with one response. *)
Definition always (response : Database.Response) : Database.Network :=
  fun _ => Returns response.

End Answers.

(* ================================================================== *)
(** * scripts/database.ts: the base URL and the remaining operations   *)
(* ================================================================== *)

Module ApiBase.
Import JS.

Definition DEFAULT_API_HOST : string := "localhost".
Definition DEFAULT_API_PORT : nat := 3000.
Definition LOCALHOST_ALIASES : list string := ["localhost"; "127.0.0.1"; "::1"].

(** [LOCALHOST_ALIASES.has(host)] *)
Definition isLocalAlias (host : string) : bool :=
  existsb (fun a => a =? host) LOCALHOST_ALIASES.

(** [s] starts with [p] *)
Fixpoint startsWith (p s : string) : bool :=
  match p, s with
  | EmptyString, _ => true
  | String a p', String b s' => Ascii.eqb a b && startsWith p' s'
  | String _ _, EmptyString => false
  end.

(** [s.includes(needle)] *)
Fixpoint includes (needle s : string) : bool :=
  startsWith needle s ||
  match s with
  | String _ rest => includes needle rest
  | EmptyString => false
  end.

(** [s.split(':')[0]]: what stands before the first colon *)
Fixpoint beforeColon (s : string) : string :=
  match s with
  | String c rest => if Ascii.eqb c ":" then EmptyString else String c (beforeColon rest)
  | EmptyString => EmptyString
  end.

(** The ten values [getDevelopmentHostFromConstants] reads from
    [expo-constants], in the order of its [candidates] array; a chain such
    as [manifest?.packagerOpts?.serverHost] is [None] as soon as one of
    its links is missing. *)
Record HostHints : Type := {
  manifest_debuggerHost : option string;
  manifest_hostUri : option string;
  manifest_packagerOpts_serverHost : option string;
  expoGoConfig_debuggerHost : option string;
  expoConfig_hostUri : option string;
  platform_hostUri : option string;
  manifest2Extra_expoGo_debuggerHost : option string;
  manifest2Extra_expoClient_hostUri : option string;
  expoConfigExtra_expoGo_debuggerHost : option string;
  expoConfigExtra_expoClient_hostUri : option string
}.

Definition candidates (hints : HostHints) : list (option string) :=
  [manifest_debuggerHost hints;
   manifest_hostUri hints;
   manifest_packagerOpts_serverHost hints;
   expoGoConfig_debuggerHost hints;
   expoConfig_hostUri hints;
   platform_hostUri hints;
   manifest2Extra_expoGo_debuggerHost hints;
   manifest2Extra_expoClient_hostUri hints;
   expoConfigExtra_expoGo_debuggerHost hints;
   expoConfigExtra_expoClient_hostUri hints].

Section Resolve.

(** [new URL(text).hostname], which throws on text that is no URL. *)
Variable URL_hostname : string -> Outcome string.

Definition parseHostFromValue (value : option string) : option string :=
  match value with
  | None => None
  | Some text =>
      if isEmpty text then None
      else
        let normalized := if includes "://" text then text else "http://" ++ text in
        match URL_hostname normalized with
        | Returns host =>
            if negb (isEmpty host) && negb (isLocalAlias host) then Some host else None
        | Throws _ =>
            let host := beforeColon text in
            if negb (isEmpty host) && negb (isLocalAlias host) then Some host else None
        end
  end.

(** [for (const candidate of candidates) { ... if (host) return host; }] *)
Fixpoint firstHost (values : list (option string)) : option string :=
  match values with
  | [] => None
  | candidate :: rest =>
      match parseHostFromValue candidate with
      | Some host => if isEmpty host then firstHost rest else Some host
      | None => firstHost rest
      end
  end.

Definition getDevelopmentHostFromConstants (hints : HostHints) : option string :=
  firstHost (candidates hints).

(** [configuredUrl] is [process.env.EXPO_PUBLIC_API_BASE_URL]. *)
Definition resolveApiBaseUrl (configuredUrl : option string) (hints : HostHints) : string :=
  let derived :=
    let developmentHost := getDevelopmentHostFromConstants hints in
    let baseHost :=
      match developmentHost with
      | Some host => host
      | None => DEFAULT_API_HOST
      end in
    "http://" ++ baseHost ++ ":" ++ showNat DEFAULT_API_PORT in
  match configuredUrl with
  | Some url => if isEmpty url then derived else url
  | None => derived
  end.

End Resolve.

End ApiBase.

(** Every exported operation of database.ts, with the payload or the
    parameters it is called with. *)
Module Gateway.
Import JS Database.

Inductive Operation : Type :=
| Login (payload : JsValue)
| Register (payload : JsValue)
| UpdateUser (payload : JsValue)
| CreateEvent (payload : JsValue)
| UpdateEvent (payload : JsValue)
| CreateTask (payload : JsValue)
| UpdateTask (payload : JsValue)
| DeleteTask (payload : JsValue)
| AddConnection (payload : JsValue)
| RemoveConnection (payload : JsValue)
| Logout
| GetEvents (username : string)
| GetEvent (username eventId : string)
| GetUserTasks (username : string)
| GetFinishedTasks (username : string)
| GetTask (taskId : string)
| GetEventTasks (username eventId : string)
| GetConnections (username : string).

Section Operations.

Variable API_BASE_URL : string.
Variable JSON_stringify : JsValue -> string.
Variable URLSearchParams_toString : list (string * string) -> string.

Local Abbreviation get := (Database.get API_BASE_URL JSON_stringify URLSearchParams_toString).
Local Abbreviation post := (Database.post API_BASE_URL JSON_stringify).

Definition login (payload : JsValue) : Net JsValue := post "/login" payload.
Definition register (payload : JsValue) : Net JsValue := post "/register" payload.
Definition updateUser (payload : JsValue) : Net JsValue := post "/update-user" payload.
Definition createEvent (payload : JsValue) : Net JsValue := post "/create-event" payload.
Definition updateEvent (payload : JsValue) : Net JsValue := post "/update-event" payload.
Definition createTask (payload : JsValue) : Net JsValue := post "/create-task" payload.
Definition updateTask (payload : JsValue) : Net JsValue := post "/update-task" payload.
Definition deleteTask (payload : JsValue) : Net JsValue := post "/delete-task" payload.
Definition addConnection (payload : JsValue) : Net JsValue := post "/add-connection" payload.
Definition removeConnection (payload : JsValue) : Net JsValue :=
  post "/remove-connection" payload.
Definition logout : Net JsValue := get "/logout" None.
Definition getEvents (username : string) : Net JsValue :=
  get "/get-events" (Some [("username", QStr username)]).
Definition getEvent (username eventId : string) : Net JsValue :=
  get "/get-event" (Some [("username", QStr username); ("eventId", QStr eventId)]).
Definition getTask (taskId : string) : Net JsValue :=
  get "/get-task" (Some [("taskId", QStr taskId)]).
Definition getEventTasks (username eventId : string) : Net JsValue :=
  get "/get-event-tasks" (Some [("username", QStr username); ("eventId", QStr eventId)]).
Definition getConnections (username : string) : Net JsValue :=
  get "/get-connections" (Some [("username", QStr username)]).

Definition perform (op : Operation) : Net JsValue :=
  match op with
  | Login payload => login payload
  | Register payload => register payload
  | UpdateUser payload => updateUser payload
  | CreateEvent payload => createEvent payload
  | UpdateEvent payload => updateEvent payload
  | CreateTask payload => createTask payload
  | UpdateTask payload => updateTask payload
  | DeleteTask payload => deleteTask payload
  | AddConnection payload => addConnection payload
  | RemoveConnection payload => removeConnection payload
  | Logout => logout
  | GetEvents username => getEvents username
  | GetEvent username eventId => getEvent username eventId
  | GetUserTasks username =>
      Database.getUserTasks API_BASE_URL JSON_stringify URLSearchParams_toString username
  | GetFinishedTasks username =>
      Database.getFinishedTasks API_BASE_URL JSON_stringify URLSearchParams_toString username
  | GetTask taskId => getTask taskId
  | GetEventTasks username eventId => getEventTasks username eventId
  | GetConnections username => getConnections username
  end.

End Operations.

(** The path an operation addresses and, for a POST, what it sends. *)
Definition pathOf (op : Operation) : string :=
  match op with
  | Login _ => "/login"
  | Register _ => "/register"
  | UpdateUser _ => "/update-user"
  | CreateEvent _ => "/create-event"
  | UpdateEvent _ => "/update-event"
  | CreateTask _ => "/create-task"
  | UpdateTask _ => "/update-task"
  | DeleteTask _ => "/delete-task"
  | AddConnection _ => "/add-connection"
  | RemoveConnection _ => "/remove-connection"
  | Logout => "/logout"
  | GetEvents _ => "/get-events"
  | GetEvent _ _ => "/get-event"
  | GetUserTasks _ | GetFinishedTasks _ => "/get-user-tasks"
  | GetTask _ => "/get-task"
  | GetEventTasks _ _ => "/get-event-tasks"
  | GetConnections _ => "/get-connections"
  end.

Definition payloadOf (op : Operation) : option JsValue :=
  match op with
  | Login p | Register p | UpdateUser p | CreateEvent p | UpdateEvent p
  | CreateTask p | UpdateTask p | DeleteTask p | AddConnection p | RemoveConnection p => Some p
  | _ => None
  end.

End Gateway.

(* ================================================================== *)
(** * app/(tabs)/camera.tsx                                            *)
(* ================================================================== *)

(** Both revisions of the camera screen have the code below; the later one
    only adds logging. *)
Module Camera.
Import JS React.

(** What is left of [s] after the literal [p], if [s] starts with it. *)
Fixpoint stripPrefix (p s : string) : option string :=
  match p, s with
  | EmptyString, _ => Some s
  | String a p', String b s' => if Ascii.eqb a b then stripPrefix p' s' else None
  | String _ _, EmptyString => None
  end.

(** A character of the class [[^/?]] *)
Definition isNameChar (c : ascii) : bool :=
  negb (Ascii.eqb c "/") && negb (Ascii.eqb c "?").

(** The group [([^/?]+)]: the longest run of such characters, which must
    not be empty.  Nothing follows the group in the expression, so the
    longest run is the match. *)
Fixpoint nameRun (s : string) : string :=
  match s with
  | String c rest => if isNameChar c then String c (nameRun rest) else EmptyString
  | EmptyString => EmptyString
  end.

Definition matchName (s : string) : option string :=
  if isEmpty (nameRun s) then None else Some (nameRun s).

(** [linkedin\.com\/in\/([^/?]+)] *)
Definition matchProfile (s : string) : option string :=
  match stripPrefix "linkedin.com/in/" s with
  | Some rest => matchName rest
  | None => None
  end.

(** An optional literal [(?:p)?] before the rest [k] of the expression: the
    literal is tried first, and given up when the rest fails after it. *)
Definition optionally (p : string) (k : string -> option string) (s : string)
  : option string :=
  match stripPrefix p s with
  | Some rest =>
      match k rest with
      | Some found => Some found
      | None => k s
      end
  | None => k s
  end.

(** [:\/\/(?:www\.)?linkedin\.com\/in\/([^/?]+)] *)
Definition matchAuthority (s : string) : option string :=
  match stripPrefix "://" s with
  | Some rest => optionally "www." matchProfile rest
  | None => None
  end.

(** [LINKEDIN_PROFILE_REGEX], anchored at the start of the text:
    [^https?:\/\/(?:www\.)?linkedin\.com\/in\/([^/?]+)];
    [url.match(...)] then [match ? match[1] : null]. *)
Definition extractLinkedInUsername (url : string) : option string :=
  match stripPrefix "http" url with
  | Some rest => optionally "s" matchAuthority rest
  | None => None
  end.

Record State : Type := {
  scanned : bool;
  statusMessage : option string
}.

Definition initial : State := {| scanned := false; statusMessage := None |}.

Definition setScanned (v : bool) (s : State) : State :=
  {| scanned := v; statusMessage := statusMessage s |}.

Definition setStatusMessage (v : option string) (s : State) : State :=
  {| scanned := scanned s; statusMessage := v |}.

Inductive Call : Type :=
| AddConnection (username connectionName note : string)
| CreateTask (username info type : string).

(** Where the handler of one scan stands. *)
Inductive Stage : Type :=
| AwaitingConnection
| AwaitingTask
| Finished.

Record Scan : Type := {
  scannedBy : string;
  linkedInUrl : string;
  linkedInUsername : string;
  stage : Stage
}.

(** What the handlers of one render close over: the [const]s [scanned]
    and [username] as that render saw them.  [onBarcodeScanned] keeps the
    handler of the latest render until the component renders again. *)
Record Render : Type := {
  scannedThen : bool;
  usernameThen : string
}.

Record Screen : Type := {
  user : option User;
  state : State;
  rendered : Render;
  scans : list Scan;
  timers : nat;
  calls : list Call
}.

Definition withState (f : State -> State) (sc : Screen) : Screen :=
  {| user := user sc; state := f (state sc); rendered := rendered sc; scans := scans sc;
     timers := timers sc; calls := calls sc |}.

Definition withUser (u : option User) (sc : Screen) : Screen :=
  {| user := u; state := state sc; rendered := rendered sc; scans := scans sc;
     timers := timers sc; calls := calls sc |}.

Definition withScans (l : list Scan) (sc : Screen) : Screen :=
  {| user := user sc; state := state sc; rendered := rendered sc; scans := l;
     timers := timers sc; calls := calls sc |}.

Definition logCall (c : Call) (sc : Screen) : Screen :=
  {| user := user sc; state := state sc; rendered := rendered sc; scans := scans sc;
     timers := timers sc; calls := (calls sc ++ [c])%list |}.

(** [setTimeout(() => { ... }, 3000)] at the end of [handleBarcodeScanned] *)
Definition startTimer (sc : Screen) : Screen :=
  {| user := user sc; state := state sc; rendered := rendered sc; scans := scans sc;
     timers := S (timers sc); calls := calls sc |}.

(** [typeof user?.username === 'string' ? user.username : ''] *)
Definition username (u : option User) : string :=
  match usernameOf u with
  | Some s => s
  | None => ""
  end.

(** The component renders: the handlers are created anew over the state
    and the context value of this moment. *)
Definition render (sc : Screen) : Screen :=
  {| user := user sc; state := state sc;
     rendered := {| scannedThen := scanned (state sc); usernameThen := username (user sc) |};
     scans := scans sc; timers := timers sc; calls := calls sc |}.

Definition mount (u : option User) : Screen :=
  render
    {| user := u; state := initial;
       rendered := {| scannedThen := false; usernameThen := "" |};
       scans := []; timers := 0; calls := [] |}.

(** [handleBarcodeScanned], with [handleLinkedInQR] inside it, up to the
    first [await] or to the end.  [scanned] and [username] are those of
    the render that made the handler; [setScanned] and [setStatusMessage]
    write the state cells. *)
Definition handleBarcodeScanned (url : string) (sc : Screen) : Screen :=
  if scannedThen (rendered sc) then sc
  else
    let sc1 := withState (setScanned true) sc in
    match extractLinkedInUsername url with
    | Some name =>
        if isEmpty name then
          startTimer
            (withState
               (setStatusMessage (Some "QR Code scanned (not a LinkedIn profile)")) sc1)
        else if isEmpty (usernameThen (rendered sc)) then
          startTimer
            (withState (setStatusMessage (Some "Please log in to add connections")) sc1)
        else
          logCall
            (AddConnection (usernameThen (rendered sc)) name
               ("LinkedIn connection" ++ String (ascii_of_nat 10) "LinkedIn URL: " ++ url))
            (withScans
               (scans sc1 ++ [{| scannedBy := usernameThen (rendered sc); linkedInUrl := url;
                                 linkedInUsername := name;
                                 stage := AwaitingConnection |}])%list sc1)
    | None =>
        startTimer
          (withState
             (setStatusMessage (Some "QR Code scanned (not a LinkedIn profile)")) sc1)
    end.

Definition setStage (k : nat) (scan : Scan) (st : Stage) (sc : Screen) : Screen :=
  withScans
    (setNth k {| scannedBy := scannedBy scan; linkedInUrl := linkedInUrl scan;
                 linkedInUsername := linkedInUsername scan; stage := st |} (scans sc)) sc.

(** The [catch] clause of [handleLinkedInQR], then the end of
    [handleBarcodeScanned]. *)
Definition failWith (k : nat) (scan : Scan) (err : JsError) (sc : Screen) : Screen :=
  startTimer
    (withState
       (setStatusMessage (Some ("Error: " ++ messageOr "Failed to add connection" err)))
       (setStage k scan Finished sc)).

(** [handleLinkedInQR] from [await addConnection(...)] on. *)
Definition connectionSettled (k : nat)
    (outcome : Outcome (Envelope.t (list (string * JsValue)))) (sc : Screen) : Screen :=
  match nth_error (scans sc) k with
  | Some scan =>
      match stage scan with
      | AwaitingConnection =>
          match outcome with
          | Returns connectionResponse =>
              if negb (Envelope.success connectionResponse) then
                failWith k scan
                  (Error (Envelope.errorOr "Failed to add connection" connectionResponse)) sc
              else
                logCall
                  (CreateTask (scannedBy scan)
                     ("Connect with " ++ linkedInUsername scan ++ " on LinkedIn: " ++
                      linkedInUrl scan)
                     "Connect")
                  (setStage k scan AwaitingTask sc)
          | Throws err => failWith k scan err sc
          end
      | _ => sc
      end
  | None => sc
  end.

(** [handleLinkedInQR] from [await createTask(...)] on. *)
Definition taskSettled (k : nat)
    (outcome : Outcome (Envelope.t (list (string * JsValue)))) (sc : Screen) : Screen :=
  match nth_error (scans sc) k with
  | Some scan =>
      match stage scan with
      | AwaitingTask =>
          match outcome with
          | Returns taskResponse =>
              if negb (Envelope.success taskResponse) then
                failWith k scan
                  (Error (Envelope.errorOr "Failed to create task" taskResponse)) sc
              else
                startTimer
                  (withState
                     (setStatusMessage
                        (Some ("Added " ++ linkedInUsername scan ++ " as a connection!")))
                     (setStage k scan Finished sc))
          | Throws err => failWith k scan err sc
          end
      | _ => sc
      end
  | None => sc
  end.

(** The callback of the timer. *)
Definition timerFired (sc : Screen) : Screen :=
  match timers sc with
  | O => sc
  | S n =>
      {| user := user sc;
         state := setStatusMessage None (setScanned false (state sc));
         rendered := rendered sc;
         scans := scans sc; timers := n; calls := calls sc |}
  end.

(** What can happen to the mounted screen.  A change of a state cell or of
    the context value asks for a render, which comes as an event of its
    own: a bar code that arrives before it is handled by the handler of
    the render before. *)
Inductive Input : Type :=
| Provide (u : option User)
| Rendered
| Scanned (url : string)
| ConnectionSettled (k : nat) (outcome : Outcome (Envelope.t (list (string * JsValue))))
| TaskSettled (k : nat) (outcome : Outcome (Envelope.t (list (string * JsValue))))
| TimerFired.

Definition step (sc : Screen) (i : Input) : Screen :=
  match i with
  | Provide u => withUser u sc
  | Rendered => render sc
  | Scanned url => handleBarcodeScanned url sc
  | ConnectionSettled k outcome => connectionSettled k outcome sc
  | TaskSettled k outcome => taskSettled k outcome sc
  | TimerFired => timerFired sc
  end.

Definition run (sc : Screen) (inputs : list Input) : Screen := fold_left step inputs sc.

(** A scan whose handler has not reached its end. *)
Definition unfinished (scan : Scan) : bool :=
  match stage scan with
  | Finished => false
  | _ => true
  end.

Definition inProgress (sc : Screen) : nat :=
  length (filter unfinished (scans sc)) + timers sc.

(** Every bar code of [inputs] reaches a handler whose [scanned] is the
    state cell of that moment: the component has rendered since the cell
    last changed. *)
Fixpoint handlersCurrent (sc : Screen) (inputs : list Input) : bool :=
  match inputs with
  | [] => true
  | i :: rest =>
      match i with
      | Scanned _ => Bool.eqb (scannedThen (rendered sc)) (scanned (state sc))
      | _ => true
      end && handlersCurrent (step sc i) rest
  end.

End Camera.

(* ================================================================== *)
(** * app/(tabs)/people.tsx, second revision: the rows of the list     *)
(* ================================================================== *)

Module PeopleView.
Import JS React.

(** [type Connection = Record<string, unknown>] *)
Definition Connection : Type := list (string * JsValue).

(** [typeof v === 'string' && v.trim().length > 0] *)
Definition isNamed (v : JsValue) : bool :=
  match v with
  | JStr s => (0 <? String.length (trim s))%nat
  | _ => false
  end.

Definition getConnectionName (connection : Connection) : string :=
  let candidates :=
    [member (JObj connection) "connectionName";
     member (JObj connection) "name";
     member (JObj connection) "username";
     member (JObj connection) "id";
     member (JObj connection) "_id"] in
  match find isNamed candidates with
  | Some (JStr first) => first
  | _ => "Connection"
  end.

(** [raw.replace(/\s+/g, ' ')]: every run of white space becomes one
    blank; [inRun] tells that the character before was white space. *)
Fixpoint collapseFrom (inRun : bool) (s : string) : string :=
  match s with
  | String c rest =>
      if isWhiteSpace c then
        if inRun then collapseFrom true rest else String " " (collapseFrom true rest)
      else String c (collapseFrom false rest)
  | EmptyString => EmptyString
  end.

Definition collapse (s : string) : string := collapseFrom false s.

(** [typeof v === 'string' ? v : undefined] *)
Definition stringOrUndefined (v : JsValue) : JsValue :=
  match v with
  | JStr _ => v
  | _ => JUndefined
  end.

Definition getConnectionSubtitle (connection : Connection) : string :=
  let raw :=
    coalesce
      (coalesce (stringOrUndefined (member (JObj connection) "note"))
                (stringOrUndefined (member (JObj connection) "description")))
      (JStr "") in
  let cleaned :=
    match raw with
    | JStr text => trim (collapse text)
    | _ => ""
    end in
  if (0 <? String.length cleaned)%nat then cleaned else "Tap + to add notes".

End PeopleView.

(* ================================================================== *)
(** * app/(tabs)/index.tsx, second revision: what the render derives   *)
(* ================================================================== *)

Module HomeV2View.
Import JS React.

(** [(tasks ?? []).filter((t) => t.status !== 'completed')] *)
Definition isPending (t : TaskRecord.t) : bool :=
  negb (strictEqStr (ofOpt (TaskRecord.status t)) "completed").

Definition pendingTasks (tasks : list TaskRecord.t) : list TaskRecord.t :=
  filter isPending tasks.

(** [pendingTasks.slice(0, 6)], the rows of the task list *)
Definition taskRows (tasks : list TaskRecord.t) : list TaskRecord.t :=
  firstn 6 (pendingTasks tasks).

(** [(task._id || task.id || task.info || '') as string], the key of a row *)
Definition taskKey (task : TaskRecord.t) : JsValue :=
  or (or (or (ofOpt (TaskRecord._id task)) (ofOpt (TaskRecord.id task)))
         (ofOpt (TaskRecord.info task)))
     (JStr "").

(** [task.info || 'Task'] *)
Definition taskTitle (task : TaskRecord.t) : JsValue :=
  or (ofOpt (TaskRecord.info task)) (JStr "Task").

(** [useMemo] on [user?.integrations]: [Array.isArray(raw) ? raw : []]
    with [raw = user?.integrations ?? []] *)
Definition integrations (user : option User) : list JsValue :=
  match coalesce (userField user "integrations") (JArr []) with
  | JArr items => items
  | _ => []
  end.

(** [Array.isArray(raw) ? raw.length : 0] with [raw = user?.connections ?? []] *)
Definition connectionCount (user : option User) : nat :=
  match coalesce (userField user "connections") (JArr []) with
  | JArr items => length items
  | _ => 0
  end.

(** [integrations.length > 0 ? integrations.slice(0, 5)
                             : new Array(5).fill(null)], one dot each *)
Definition dots (user : option User) : list JsValue :=
  if (0 <? length (integrations user))%nat then firstn 5 (integrations user)
  else repeat JNull 5.

(** The title of the profile card. *)
Definition profileTitle (user : option User) : string :=
  match userField user "username" with
  | JStr name =>
      if (0 <? String.length (trim name))%nat then "Hey, " ++ name ++ "!"
      else "Your Profile"
  | _ => "Your Profile"
  end.

(** [const activeEvent = events[0]] *)
Definition activeEvent (shown : list DisplayEvent.t) : option DisplayEvent.t :=
  nth_error shown 0.

End HomeV2View.

(* ================================================================== *)
(** * app/(tabs)/index.tsx, second revision: the task-details dialog   *)
(* ================================================================== *)

(** The dialog with its four state cells, on top of the screen of
    [HomeV2]. *)
Module TaskDetails.
Import JS React.

Record Details : Type := {
  taskDetailsVisible : bool;
  selectedTask : option TaskRecord.t;
  isCompletingTask : bool;
  taskDetailsError : option string
}.

Definition closed : Details :=
  {| taskDetailsVisible := false; selectedTask := None; isCompletingTask := false;
     taskDetailsError := None |}.

Definition setTaskDetailsVisible (v : bool) (d : Details) : Details :=
  {| taskDetailsVisible := v; selectedTask := selectedTask d;
     isCompletingTask := isCompletingTask d; taskDetailsError := taskDetailsError d |}.

Definition setSelectedTask (v : option TaskRecord.t) (d : Details) : Details :=
  {| taskDetailsVisible := taskDetailsVisible d; selectedTask := v;
     isCompletingTask := isCompletingTask d; taskDetailsError := taskDetailsError d |}.

Definition setIsCompletingTask (v : bool) (d : Details) : Details :=
  {| taskDetailsVisible := taskDetailsVisible d; selectedTask := selectedTask d;
     isCompletingTask := v; taskDetailsError := taskDetailsError d |}.

Definition setTaskDetailsError (v : option string) (d : Details) : Details :=
  {| taskDetailsVisible := taskDetailsVisible d; selectedTask := selectedTask d;
     isCompletingTask := isCompletingTask d; taskDetailsError := v |}.

Definition handleOpenTaskDetails (task : TaskRecord.t) (d : Details) : Details :=
  setTaskDetailsVisible true (setTaskDetailsError None (setSelectedTask (Some task) d)).

Definition handleCloseTaskDetails (d : Details) : Details :=
  setIsCompletingTask false
    (setTaskDetailsError None (setSelectedTask None (setTaskDetailsVisible false d))).

(** Where one run of [handleCompleteSelectedTask] stands: at
    [await updateTask(...)], at [await loadTasks(username)] for the run of
    [loadTasks] it started, or at its end. *)
Inductive Stage : Type :=
| Updating
| Reloading (load : nat)
| Finished.

Record Completion : Type := {
  completedBy : string;
  stage : Stage
}.

(** The payload of one call of [updateTask]. *)
Record Update : Type := {
  updateUsername : string;
  updateTaskId : string;
  updateStatus : string
}.

Record Screen : Type := {
  home : HomeV2.Screen;
  details : Details;
  completions : list Completion;
  updates : list Update
}.

Definition withHome (f : HomeV2.Screen -> HomeV2.Screen) (sc : Screen) : Screen :=
  {| home := f (home sc); details := details sc; completions := completions sc;
     updates := updates sc |}.

Definition withDetails (f : Details -> Details) (sc : Screen) : Screen :=
  {| home := home sc; details := f (details sc); completions := completions sc;
     updates := updates sc |}.

Definition withCompletions (l : list Completion) (sc : Screen) : Screen :=
  {| home := home sc; details := details sc; completions := l; updates := updates sc |}.

Definition logUpdate (u : Update) (sc : Screen) : Screen :=
  {| home := home sc; details := details sc; completions := completions sc;
     updates := (updates sc ++ [u])%list |}.

Definition mount (u : option User) : Screen :=
  {| home := HomeV2.mount u; details := closed; completions := []; updates := [] |}.

(** [selectedTask?._id || selectedTask?.id] *)
Definition selectedTaskId (d : Details) : JsValue :=
  match selectedTask d with
  | Some task => or (ofOpt (TaskRecord._id task)) (ofOpt (TaskRecord.id task))
  | None => JUndefined
  end.

(** [handleCompleteSelectedTask] up to its first [await]. *)
Definition handleCompleteSelectedTask (sc : Screen) : Screen :=
  if noUsername (usernameOf (HomeV2.user (home sc))) then
    withDetails (setTaskDetailsError (Some "User not available")) sc
  else
    let username :=
      match usernameOf (HomeV2.user (home sc)) with Some u => u | None => "" end in
    match selectedTaskId (details sc) with
    | JStr taskId =>
        if isEmpty taskId then
          withDetails (setTaskDetailsError (Some "Task id missing")) sc
        else
          logUpdate {| updateUsername := username; updateTaskId := taskId;
                       updateStatus := "completed" |}
            (withCompletions
               (completions sc ++ [{| completedBy := username; stage := Updating |}])%list
               (withDetails
                  (fun d => setTaskDetailsError None (setIsCompletingTask true d)) sc))
    | _ => withDetails (setTaskDetailsError (Some "Task id missing")) sc
    end.

Definition setStage (k : nat) (c : Completion) (st : Stage) (sc : Screen) : Screen :=
  withCompletions (setNth k {| completedBy := completedBy c; stage := st |} (completions sc)) sc.

(** [handleCompleteSelectedTask] from [await updateTask(...)] on, up to
    [await loadTasks(username)] or to the end. *)
Definition updateSettled (k : nat)
    (outcome : Outcome (Envelope.t (list (string * JsValue)))) (sc : Screen) : Screen :=
  match nth_error (completions sc) k with
  | Some c =>
      match stage c with
      | Updating =>
          match outcome with
          | Returns response =>
              if negb (Envelope.success response) then
                withDetails
                  (fun d =>
                     setIsCompletingTask false
                       (setTaskDetailsError
                          (Some (Envelope.errorOr "Failed to complete task" response)) d))
                  (setStage k c Finished sc)
              else
                withHome (HomeV2.loadTasks (completedBy c) false)
                  (setStage k c (Reloading (length (HomeV2.loads (home sc)))) sc)
          | Throws err =>
              withDetails
                (fun d =>
                   setIsCompletingTask false
                     (setTaskDetailsError
                        (Some (messageOr "Failed to complete task" err)) d))
                (setStage k c Finished sc)
          end
      | _ => sc
      end
  | None => sc
  end.

(** The completions waiting for run [load] of [loadTasks] go on:
    [handleCloseTaskDetails()], then the [finally] clause. *)
Fixpoint resume (load : nat) (l : list Completion) : list Completion * nat :=
  match l with
  | [] => ([], 0)
  | c :: rest =>
      let '(rest', n) := resume load rest in
      match stage c with
      | Reloading awaited =>
          if (awaited =? load)%nat
          then ({| completedBy := completedBy c; stage := Finished |} :: rest', S n)
          else (c :: rest', n)
      | _ => (c :: rest', n)
      end
  end.

(** Run [k] of [loadTasks] settles: the home screen takes the answers, and
    a completion that awaited this run closes the dialog. *)
Definition tasksSettled (k : nat)
    (outcome : Outcome (Envelope.t (list TaskRecord.t) * Envelope.t (list TaskRecord.t)))
    (sc : Screen) : Screen :=
  match nth_error (HomeV2.loads (home sc)) k with
  | Some load =>
      if HomeV2.loadSettled load then sc
      else
        let sc1 := withHome (HomeV2.tasksSettled k outcome) sc in
        let '(resumed, n) := resume k (completions sc1) in
        match n with
        | O => sc1
        | S _ =>
            withDetails (fun d => setIsCompletingTask false (handleCloseTaskDetails d))
              (withCompletions resumed sc1)
        end
  | None => sc
  end.

Inductive Input : Type :=
| Home (i : HomeV2.Input)
| OpenTaskDetails (task : TaskRecord.t)
| CloseTaskDetails
| PressComplete
| UpdateSettled (k : nat) (outcome : Outcome (Envelope.t (list (string * JsValue)))).

Definition step (sc : Screen) (i : Input) : Screen :=
  match i with
  | Home (HomeV2.TasksSettled k outcome) => tasksSettled k outcome sc
  | Home other => withHome (fun h => HomeV2.step h other) sc
  | OpenTaskDetails task => withDetails (handleOpenTaskDetails task) sc
  | CloseTaskDetails => withDetails handleCloseTaskDetails sc
  | PressComplete => handleCompleteSelectedTask sc
  | UpdateSettled k outcome => updateSettled k outcome sc
  end.

Definition run (sc : Screen) (inputs : list Input) : Screen := fold_left step inputs sc.

End TaskDetails.

(* ================================================================== *)
(** * The earliest home screen: [taskEntries]                          *)
(* ================================================================== *)

Module HomeV0Tasks.
Import JS React.

Section Screen.

Variable JSON_stringify : JsValue -> option string.

Definition taskEntries (user : option User) : list HomeV0.Entry :=
  let values := arrayField user "tasks" in
  mapi (fun value index =>
          let stringValue :=
            match value with
            | JStr s => s
            | _ =>
                match JSON_stringify (coalesce value (JStr "")) with
                | Some text => text
                | None => "Task " ++ showNat (index + 1)
                end
            end in
          {| HomeV0.id := match value with
                          | JStr s => s
                          | _ => "task-" ++ showNat index
                          end;
             HomeV0.label := stringValue |}) values.

End Screen.

End HomeV0Tasks.

(* ================================================================== *)
(** * The tab layout: signing in and registering                       *)
(* ================================================================== *)

Module TabLayout.
Import JS React.

Section Layout.

(** The numbers of JavaScript with [Number(text)] and [Number.isNaN]. *)
Variable JsNumber : Type.
Variable Number_of : string -> JsNumber.
Variable Number_isNaN : JsNumber -> bool.

Record State : Type := {
  user : option User;
  username : string;
  password : string;
  email : string;
  phoneNumber : string;
  loading : bool;
  error : option string
}.

Definition initial : State :=
  {| user := None; username := ""; password := ""; email := ""; phoneNumber := "";
     loading := false; error := None |}.

Definition setUser (v : option User) (s : State) : State :=
  {| user := v; username := username s; password := password s; email := email s;
     phoneNumber := phoneNumber s; loading := loading s; error := error s |}.

Definition setUsername (v : string) (s : State) : State :=
  {| user := user s; username := v; password := password s; email := email s;
     phoneNumber := phoneNumber s; loading := loading s; error := error s |}.

Definition setPassword (v : string) (s : State) : State :=
  {| user := user s; username := username s; password := v; email := email s;
     phoneNumber := phoneNumber s; loading := loading s; error := error s |}.

Definition setEmail (v : string) (s : State) : State :=
  {| user := user s; username := username s; password := password s; email := v;
     phoneNumber := phoneNumber s; loading := loading s; error := error s |}.

Definition setPhoneNumber (v : string) (s : State) : State :=
  {| user := user s; username := username s; password := password s; email := email s;
     phoneNumber := v; loading := loading s; error := error s |}.

Definition setLoading (v : bool) (s : State) : State :=
  {| user := user s; username := username s; password := password s; email := email s;
     phoneNumber := phoneNumber s; loading := v; error := error s |}.

Definition setError (v : option string) (s : State) : State :=
  {| user := user s; username := username s; password := password s; email := email s;
     phoneNumber := phoneNumber s; loading := loading s; error := v |}.

Definition isLoginEnabled (s : State) : bool :=
  (0 <? String.length (trim (username s)))%nat &&
  (0 <? String.length (trim (password s)))%nat &&
  negb (loading s).

Definition isRegisterEnabled (s : State) : bool :=
  isLoginEnabled s &&
  (0 <? String.length (trim (email s)))%nat &&
  (0 <? String.length (trim (phoneNumber s)))%nat.

Inductive Call : Type :=
| Login (username password : string)
| Register (username password email : string) (phoneNumber : JsNumber).

Inductive Kind : Type := SigningIn | Registering.

Record Request : Type := {
  kind : Kind;
  answered : bool
}.

(** [rendered] holds the state cells as the latest render saw them: the
    [const]s that [isLoginEnabled], [isRegisterEnabled] and the two handlers
    of that render close over. *)
Record Layout : Type := {
  state : State;
  rendered : State;
  requests : list Request;
  calls : list Call
}.

Definition withState (f : State -> State) (l : Layout) : Layout :=
  {| state := f (state l); rendered := rendered l; requests := requests l;
     calls := calls l |}.

(** The component renders: the handlers are created anew over the state
    of this moment. *)
Definition render (l : Layout) : Layout :=
  {| state := state l; rendered := state l; requests := requests l; calls := calls l |}.

Definition start (k : Kind) (c : Call) (l : Layout) : Layout :=
  {| state := setError None (setLoading true (state l));
     rendered := rendered l;
     requests := (requests l ++ [{| kind := k; answered := false |}])%list;
     calls := (calls l ++ [c])%list |}.

Definition mount : Layout :=
  {| state := initial; rendered := initial; requests := []; calls := [] |}.

(** [handleLogin] up to its [await]; [isLoginEnabled], [username] and
    [password] are those of the render that made the handler. *)
Definition handleLogin (l : Layout) : Layout :=
  if negb (isLoginEnabled (rendered l)) then l
  else start SigningIn (Login (username (rendered l)) (password (rendered l))) l.

(** [handleRegister] up to its [await], likewise. *)
Definition handleRegister (l : Layout) : Layout :=
  if negb (isRegisterEnabled (rendered l)) then l
  else
    let parsedPhone := Number_of (trim (phoneNumber (rendered l))) in
    if Number_isNaN parsedPhone then
      withState (setError (Some "Phone number must be numeric")) l
    else
      start Registering
        (Register (username (rendered l)) (password (rendered l)) (email (rendered l))
           parsedPhone) l.

(** Either handler from its [await] on. *)
Definition settled (k : nat) (outcome : Outcome (Envelope.t User)) (l : Layout) : Layout :=
  match nth_error (requests l) k with
  | Some r =>
      if answered r then l
      else
        let l1 :=
          {| state := state l;
             rendered := rendered l;
             requests := setNth k {| kind := kind r; answered := true |} (requests l);
             calls := calls l |} in
        let fallback :=
          match kind r with
          | SigningIn => "Login failed"
          | Registering => "Registration failed"
          end in
        let l2 :=
          match outcome with
          | Returns response =>
              match Envelope.success response, Envelope.payload response with
              | true, Some account =>
                  match kind r with
                  | SigningIn =>
                      withState
                        (fun s => setPassword "" (setUsername "" (setUser (Some account) s)))
                        l1
                  | Registering =>
                      withState
                        (fun s =>
                           setPhoneNumber ""
                             (setEmail ""
                                (setPassword "" (setUsername "" (setUser (Some account) s)))))
                        l1
                  end
              | _, _ =>
                  withState (setError (Some (Envelope.errorElse fallback response))) l1
              end
          | Throws err => withState (setError (Some (messageOr fallback err))) l1
          end in
        withState (setLoading false) l2
  | None => l
  end.

(** What can happen to the mounted layout.  A change of a state cell asks
    for a render, which comes as an event of its own: a press that arrives
    before it runs the handler of the render before. *)
Inductive Input : Type :=
| Rendered
| TypeUsername (text : string)
| TypePassword (text : string)
| TypeEmail (text : string)
| TypePhoneNumber (text : string)
| PressLogin
| PressRegister
| Settled (k : nat) (outcome : Outcome (Envelope.t User)).

Definition step (l : Layout) (i : Input) : Layout :=
  match i with
  | Rendered => render l
  | TypeUsername text => withState (setUsername text) l
  | TypePassword text => withState (setPassword text) l
  | TypeEmail text => withState (setEmail text) l
  | TypePhoneNumber text => withState (setPhoneNumber text) l
  | PressLogin => handleLogin l
  | PressRegister => handleRegister l
  | Settled k outcome => settled k outcome l
  end.

Definition run (l : Layout) (inputs : list Input) : Layout := fold_left step inputs l.

(** The requests that have not been answered yet. *)
Definition inFlight (l : Layout) : nat :=
  length (filter (fun r => negb (answered r)) (requests l)).

(** Every press of [inputs] runs a handler whose [loading] is the state
    cell of that moment: the layout has rendered since the cell last
    changed. *)
Fixpoint handlersCurrent (l : Layout) (inputs : list Input) : bool :=
  match inputs with
  | [] => true
  | i :: rest =>
      match i with
      | PressLogin | PressRegister => Bool.eqb (loading (rendered l)) (loading (state l))
      | _ => true
      end && handlersCurrent (step l i) rest
  end.

End Layout.

End TabLayout.

(* ================================================================== *)
(** * Vocabulary of the further statements                             *)
(* ================================================================== *)

Module Text.
Import JS.

Definition firstChar (s : string) : option ascii :=
  match s with
  | String c _ => Some c
  | EmptyString => None
  end.

Fixpoint lastChar (s : string) : option ascii :=
  match s with
  | EmptyString => None
  | String c EmptyString => Some c
  | String _ rest => lastChar rest
  end.

(** No white space at either end. *)
Definition tidy (s : string) : Prop :=
  (forall c, firstChar s = Some c -> isWhiteSpace c = false) /\
  (forall c, lastChar s = Some c -> isWhiteSpace c = false).

(** The only white space is the blank, and no two blanks are adjacent;
    [afterBlank] tells that a blank stands just before the text. *)
Fixpoint singleSpacedFrom (afterBlank : bool) (s : string) : bool :=
  match s with
  | String c rest =>
      if isWhiteSpace c then
        Ascii.eqb c " " && negb afterBlank && singleSpacedFrom true rest
      else singleSpacedFrom false rest
  | EmptyString => true
  end.

Definition singleSpaced (s : string) : bool := singleSpacedFrom false s.

(** Every character is of the class [[^/?]]. *)
Fixpoint nameChars (s : string) : bool :=
  match s with
  | String c rest => Camera.isNameChar c && nameChars rest
  | EmptyString => true
  end.

(** The text is over, or goes on with a slash or a question mark. *)
Definition endsName (rest : string) : bool :=
  match rest with
  | String c _ => negb (Camera.isNameChar c)
  | EmptyString => true
  end.

(** A value of a query parameter that is sent. *)
Definition isSent (v : Database.QueryValue) : bool :=
  match v with
  | Database.QUndefined | Database.QNull => false
  | _ => true
  end.

End Text.

Module Shapes.
Import JS.

(** A LinkedIn profile address: scheme, optional [www.], the profile path,
    the name, and what follows. *)
Definition profileUrl (secure www : bool) (name rest : string) : string :=
  "http" ++ (if secure then "s" else "") ++ "://" ++ (if www then "www." else "") ++
  "linkedin.com/in/" ++ name ++ rest.

(** A host that [parseHostFromValue] may answer: not empty and none of
    the three texts of [LOCALHOST_ALIASES]. *)
Definition remoteHost (host : string) : Prop :=
  host <> "" /\ host <> "localhost" /\ host <> "127.0.0.1" /\ host <> "::1".

(** On the camera screen the number of scans in progress follows the
    [scanned] flag. *)
Definition locked (sc : Camera.Screen) : Prop :=
  Camera.inProgress sc = if Camera.scanned (Camera.state sc) then 1 else 0.

(** A call of the tab layout that carries what its form requires: a
    user name and a password that are not blank and, to register, an email
    that is not blank and a phone number that is a number. *)
Definition credentialsGiven {JsNumber : Type} (Number_isNaN : JsNumber -> bool)
    (c : TabLayout.Call JsNumber) : Prop :=
  match c with
  | TabLayout.Login _ username password => trim username <> "" /\ trim password <> ""
  | TabLayout.Register _ username password email phoneNumber =>
      trim username <> "" /\ trim password <> "" /\ trim email <> "" /\
      Number_isNaN phoneNumber = false
  end.

End Shapes.

(* ================================================================== *)
(** * Concrete inputs                                                  *)
(* ================================================================== *)

Module Examples.
Import JS React Database Answers.

Definition base : string := "http://localhost:3000".

Definition stringify : JsValue -> string := fun _ => "{}".

Definition queryOf (entries : list (string * string)) : string :=
  String.concat "&" (map (fun kv => fst kv ++ "=" ++ snd kv) entries).

Definition loginOptions : JsonRequestOptions :=
  {| method := Some "POST"; headers := None;
     body := Some (JObj [("username", JStr "alice"); ("password", JStr "hunter2")]) |}.

Definition badCreds : Response :=
  {| status := 401; json := Returns (JObj [("error", JStr "bad creds")]) |}.

Definition emptyError : Response :=
  {| status := 400; json := Returns (JObj [("success", JBool false); ("error", JStr "")]) |}.

Definition gatewayPage : Response :=
  {| status := 502; json := Throws (Error "JSON Parse error: Unrecognized token '<'") |}.

Definition emptyOk : Response :=
  {| status := 204; json := Throws (Error "JSON Parse error: Unexpected end of input") |}.

Definition task (identifier taskStatus : string) : JsValue :=
  JObj [("_id", JStr identifier); ("info", JStr "follow up"); ("type", JStr "Other");
        ("status", JStr taskStatus)].

Definition threeTasks : list JsValue :=
  [task "t1" "completed"; task "t2" "pending"; task "t3" "completed"].

Definition tasksOk : Response :=
  {| status := 200;
     json := Returns (JObj [("success", JBool true); ("tasks", JArr threeTasks)]) |}.

Definition tasksRefused : Response :=
  {| status := 200;
     json := Returns (JObj [("success", JBool false); ("error", JStr "User not found");
                            ("tasks", JArr [task "t9" "completed"])]) |}.

Definition alice : option User := Some [("username", JStr "alice")].

Definition bob : option User := Some [("username", JStr "bob")].

(** A profile that carries no [username]. *)
Definition nameless : option User := Some [("email", JStr "someone@example.org")].

(** A profile whose [events] is not an array. *)
Definition countedEvents : option User :=
  Some [("username", JStr "alice"); ("events", JNum 3)].

Definition eventRecord (identifier : option string) (title : string) : EventRecord.t :=
  {| EventRecord._id := identifier; EventRecord.id := None;
     EventRecord.name := Some title; EventRecord.coverImage := None;
     EventRecord.date := None; EventRecord.tasks := None |}.

Definition taskRecord (identifier taskStatus : string) : TaskRecord.t :=
  {| TaskRecord._id := Some identifier; TaskRecord.id := None;
     TaskRecord.info := Some "follow up"; TaskRecord.type := Some "Other";
     TaskRecord.status := Some taskStatus; TaskRecord.dateTime := None;
     TaskRecord.eventId := None |}.

Definition envelope {P : Type} (p : P) : Envelope.t P :=
  {| Envelope.success := true; Envelope.payload := Some p; Envelope.error := None |}.

Definition answer {P : Type} (p : P) : Outcome (Envelope.t P) := Returns (envelope p).

Definition refusal {P : Type} (message : string) : Outcome (Envelope.t P) :=
  Returns {| Envelope.success := false; Envelope.payload := None;
             Envelope.error := Some message |}.

(** The scenario of two quick changes of user on the second home screen:
    mounted for [alice], then [bob] is provided, [bob]'s answers arrive
    first and [alice]'s after them. *)
Definition usernameRace : list HomeV2.Input :=
  [HomeV2.Provide bob;
   HomeV2.TasksSettled 1 (Returns (envelope [taskRecord "t-bob" "pending"], envelope []));
   HomeV2.EventsSettled 1 (answer [eventRecord (Some "e-bob") "Bob's meetup"]);
   HomeV2.TasksSettled 0
     (Returns (envelope [taskRecord "t-alice-1" "completed"; taskRecord "t-alice-2" "pending"],
               envelope [taskRecord "t-alice-1" "completed"]));
   HomeV2.EventsSettled 0 (answer [eventRecord (Some "e-alice") "Alice's meetup"])].




(** The form of the scenario: opened by a user, two blanks typed. *)
Definition blankFormV1 (u : option User) : HomeV1.Screen :=
  HomeV1.run (HomeV1.mount u) [HomeV1.OpenModal; HomeV1.TypeInfo "  "].

Definition blankFormV2 (u : option User) : HomeV2.Screen :=
  HomeV2.run (HomeV2.mount u) [HomeV2.OpenModal; HomeV2.TypeInfo "  "].

Definition carol : JsValue :=
  JObj [("connectionName", JStr "Carol"); ("note", JStr "met at the expo")].

(** The people screen of [alice] with the form filled in for a new
    connection and submitted. *)
Definition submittedV1 : PeopleV1.Screen :=
  PeopleV1.handleCreateConnection
    (PeopleV1.withState
       (fun s => PeopleV1.setConnectionNote "met at the expo"
                   (PeopleV1.setConnectionName "Carol" (PeopleV1.setModalVisible true s)))
       (PeopleV1.connectionsSettled 0 (answer []) (PeopleV1.mount alice))).

Definition submittedV2 : PeopleV2.Screen :=
  PeopleV2.handleCreateConnection
    (PeopleV2.withState
       (fun s => PeopleV2.setConnectionNote "met at the expo"
                   (PeopleV2.setConnectionName "Carol" (PeopleV2.setModalVisible true s)))
       (PeopleV2.connectionsSettled 0 (answer []) (PeopleV2.mount alice))).

End Examples.

(* ================================================================== *)
(** * Further concrete inputs                                          *)
(* ================================================================== *)

Module MoreExamples.
Import JS React.

(** A runtime without [URL]: the constructor always throws. *)
Definition noUrl : string -> Outcome string :=
  fun _ => Throws (TypeError "Invalid URL").

Definition noHints : ApiBase.HostHints :=
  {| ApiBase.manifest_debuggerHost := None;
     ApiBase.manifest_hostUri := None;
     ApiBase.manifest_packagerOpts_serverHost := None;
     ApiBase.expoGoConfig_debuggerHost := None;
     ApiBase.expoConfig_hostUri := None;
     ApiBase.platform_hostUri := None;
     ApiBase.manifest2Extra_expoGo_debuggerHost := None;
     ApiBase.manifest2Extra_expoClient_hostUri := None;
     ApiBase.expoConfigExtra_expoGo_debuggerHost := None;
     ApiBase.expoConfigExtra_expoClient_hostUri := None |}.

(** The hints of a phone served by a machine of the local network. *)
Definition lanHints : ApiBase.HostHints :=
  {| ApiBase.manifest_debuggerHost := Some "127.0.0.1:8081";
     ApiBase.manifest_hostUri := None;
     ApiBase.manifest_packagerOpts_serverHost := None;
     ApiBase.expoGoConfig_debuggerHost := None;
     ApiBase.expoConfig_hostUri := Some "192.168.1.20:8081";
     ApiBase.platform_hostUri := None;
     ApiBase.manifest2Extra_expoGo_debuggerHost := None;
     ApiBase.manifest2Extra_expoClient_hostUri := None;
     ApiBase.expoConfigExtra_expoGo_debuggerHost := None;
     ApiBase.expoConfigExtra_expoClient_hostUri := None |}.

(** The hints of a development server that names the local machine with a
    capital letter. *)
Definition capitalHints : ApiBase.HostHints :=
  {| ApiBase.manifest_debuggerHost := Some "Localhost:8081";
     ApiBase.manifest_hostUri := None;
     ApiBase.manifest_packagerOpts_serverHost := None;
     ApiBase.expoGoConfig_debuggerHost := None;
     ApiBase.expoConfig_hostUri := None;
     ApiBase.platform_hostUri := None;
     ApiBase.manifest2Extra_expoGo_debuggerHost := None;
     ApiBase.manifest2Extra_expoClient_hostUri := None;
     ApiBase.expoConfigExtra_expoGo_debuggerHost := None;
     ApiBase.expoConfigExtra_expoClient_hostUri := None |}.

Definition profileCode : string := "https://www.linkedin.com/in/carol?utm=qr".

(** The camera screen of [alice] just after a profile code was scanned. *)
Definition scanning : Camera.Screen :=
  Camera.handleBarcodeScanned profileCode (Camera.mount Examples.alice).

Definition carolScan : Camera.Scan :=
  {| Camera.scannedBy := "alice"; Camera.linkedInUrl := profileCode;
     Camera.linkedInUsername := "carol"; Camera.stage := Camera.AwaitingConnection |}.

Definition dave : PeopleView.Connection :=
  [("connectionName", JStr "   "); ("name", JStr "Dave"); ("note", JStr "");
   ("description", JStr "met at the fair")].

(** The connection form of [alice] filled in, in both revisions. *)
Definition filledV1 : PeopleV1.Screen :=
  PeopleV1.withState
    (fun s => PeopleV1.setConnectionNote " met at the expo "
                (PeopleV1.setConnectionName " Carol" s))
    (PeopleV1.mount Examples.alice).

Definition filledV2 : PeopleV2.Screen :=
  PeopleV2.withState
    (fun s => PeopleV2.setConnectionNote " met at the expo "
                (PeopleV2.setConnectionName " Carol" s))
    (PeopleV2.mount Examples.alice).

(** The task form of [alice] filled in and, for the later examples,
    submitted. *)
Definition typedV1 : HomeV1.Screen :=
  HomeV1.run (HomeV1.mount Examples.alice) [HomeV1.OpenModal; HomeV1.TypeInfo " call Bob "].

Definition typedV2 : HomeV2.Screen :=
  HomeV2.run (HomeV2.mount Examples.alice) [HomeV2.OpenModal; HomeV2.TypeInfo " call Bob "].

Definition sentV1 : HomeV1.Screen := HomeV1.handleCreateTask [] typedV1.

Definition sentV2 : HomeV2.Screen := HomeV2.handleCreateTask typedV2.

Definition shownPair : list DisplayEvent.t :=
  [{| DisplayEvent.id := JStr "e1"; DisplayEvent.name := JStr "Meetup";
      DisplayEvent.date := JUndefined |};
   {| DisplayEvent.id := JStr "e2"; DisplayEvent.name := JUndefined;
      DisplayEvent.date := JUndefined |}].

Definition createdTask : Envelope.t (list (string * JsValue)) :=
  Examples.envelope [("_id", JStr "t42"); ("info", JStr "call Bob")].

Definition untitled : EventRecord.t :=
  {| EventRecord._id := None; EventRecord.id := Some "";
     EventRecord.name := None; EventRecord.coverImage := None;
     EventRecord.date := None; EventRecord.tasks := None |}.

(** A profile whose events and tasks are embedded objects. *)
Definition embedding : option User :=
  Some [("username", JStr "alice");
        ("events", JArr [JObj [("name", JStr "Fair")]; JStr "e7"; JNum 3]);
        ("tasks", JArr [JNull; JStr "t1"; JObj []])].

(** Signing in on the tab layout, numbers being integers here. *)
Definition signingIn : list TabLayout.Input :=
  [TabLayout.TypeUsername "alice"; TabLayout.TypePassword "hunter2"; TabLayout.Rendered;
   TabLayout.PressLogin].

Definition signedIn : list TabLayout.Input :=
  (signingIn ++
   [TabLayout.Settled 0 (Examples.answer [("username", JStr "alice")])])%list.

Definition anyNumber : string -> nat := fun _ => 0.

Definition neverNaN : nat -> bool := fun _ => false.

(** The details of a task of [alice] opened, and the completion asked
    for. *)
Definition opened : TaskDetails.Screen :=
  TaskDetails.run (TaskDetails.mount Examples.alice)
    [TaskDetails.OpenTaskDetails (Examples.taskRecord "t1" "pending")].

Definition completing : TaskDetails.Screen := TaskDetails.handleCompleteSelectedTask opened.

(** The same with a task that carries no identifier. *)
Definition anonymous : TaskDetails.Screen :=
  TaskDetails.run (TaskDetails.mount Examples.alice)
    [TaskDetails.OpenTaskDetails
       {| TaskRecord._id := None; TaskRecord.id := None;
          TaskRecord.info := Some "follow up"; TaskRecord.type := None;
          TaskRecord.status := None; TaskRecord.dateTime := None;
          TaskRecord.eventId := None |}].

End MoreExamples.

(* ================================================================== *)
(** * Properties of scripts/database.ts                                *)
(* ================================================================== *)

Module DatabaseFacts.
Import JS Database Answers.

Section Gateway.

Variable API_BASE_URL : string.
Variable JSON_stringify : JsValue -> string.
Variable URLSearchParams_toString : list (string * string) -> string.

Local Abbreviation request := (request API_BASE_URL JSON_stringify).
Local Abbreviation fetchCallOf := (fetchCallOf API_BASE_URL JSON_stringify).
Local Abbreviation getUserTasks :=
  (getUserTasks API_BASE_URL JSON_stringify URLSearchParams_toString).
Local Abbreviation getFinishedTasks :=
  (getFinishedTasks API_BASE_URL JSON_stringify URLSearchParams_toString).

Lemma request_settles (path : string) (options : JsonRequestOptions)
    (net : Network) (calls : list FetchCall) (response : Response) :
  net (fetchCallOf path options) = Returns response ->
  fst (request path options net calls) =
    if ok response
    then Returns (match json response with Returns parsed => parsed | Throws _ => JNull end)
    else Throws (Error (serializeError response
                          (match json response with
                           | Returns parsed => parsed
                           | Throws _ => JNull
                           end))).
Proof.
  intros Hnet. unfold Database.request. rewrite Hnet.
  destruct (ok response); reflexivity.
Qed.

Lemma request_logs_one_call (path : string) (options : JsonRequestOptions)
    (net : Network) (calls : list FetchCall) :
  snd (request path options net calls) = (calls ++ [fetchCallOf path options])%list.
Proof.
  unfold Database.request.
  destruct (net (fetchCallOf path options)) as [response | e]; [|reflexivity].
  destruct (negb (ok response)); reflexivity.
Qed.

Lemma length_positive (m : string) : m <> "" -> (0 <? String.length m)%nat = true.
Proof.
  destruct m as [|c rest]; [congruence | reflexivity].
Qed.

Lemma serializeError_error_field (response : Response) (fields : list (string * JsValue))
    (m : string) :
  assoc "error" fields = Some (JStr m) -> m <> "" ->
  serializeError response (JObj fields) = m.
Proof.
  intros Hfield Hm. unfold serializeError. cbn [truthy typeof isNullish andb negb].
  change ("object" =? "object") with true. cbn [andb member].
  rewrite Hfield, (length_positive m Hm). reflexivity.
Qed.

Lemma serializeError_generic (response : Response) (body : JsValue) :
  (forall fields m, body = JObj fields -> assoc "error" fields = Some (JStr m) -> m = "") ->
  serializeError response body = statusMessage (status response).
Proof.
  intros Hnone. unfold serializeError, statusMessage.
  destruct (truthy body && (typeof body =? "object") && negb (isNullish body));
    [|reflexivity].
  destruct body as [| | b | n | s | items | fields]; cbn [member]; try reflexivity.
  destruct (assoc "error" fields) as [[| | b | n | m | items | inner]|] eqn:Hfield;
    try reflexivity.
  rewrite (Hnone fields m eq_refl Hfield). reflexivity.
Qed.

(** C3, as amended: on a non-2xx response [request] fails with an [Error]
    whose message is the body's [error] field when the parsed body is a
    JSON object whose [error] is a non-empty string, and is exactly
    [Request failed with status <code>] in every other case, in particular
    when the body does not parse. *)
Theorem request_non_2xx_message (path : string) (options : JsonRequestOptions)
    (net : Network) (calls : list FetchCall) (response : Response) :
  net (fetchCallOf path options) = Returns response ->
  ok response = false ->
  exists message,
    fst (request path options net calls) = Throws (Error message) /\
    (forall m, carriesError (json response) m -> message = m) /\
    ((forall m, ~ carriesError (json response) m) ->
     message = statusMessage (status response)) /\
    (forall e, json response = Throws e -> message = statusMessage (status response)).
Proof.
  intros Hnet Hok.
  rewrite (request_settles path options net calls response Hnet), Hok.
  eexists. split; [reflexivity|]. split; [|split].
  - intros m (fields & Hjson & Hfield & Hm). rewrite Hjson.
    apply serializeError_error_field; assumption.
  - intros Hnone. apply serializeError_generic.
    intros fields m Hbody Hfield.
    destruct (string_dec m "") as [Hm | Hm]; [assumption|].
    exfalso. apply (Hnone m). exists fields.
    destruct (json response) as [parsed | e]; [|discriminate].
    subst parsed. repeat split; assumption.
  - intros e Hjson. rewrite Hjson. apply serializeError_generic.
    intros fields m Hbody. discriminate.
Qed.

(** C8: a 2xx response whose body does not parse makes [request] return
    [null]; whether [request] returns or fails follows [response.ok] and
    nothing else. *)
Theorem request_outcome_follows_status (path : string) (options : JsonRequestOptions)
    (net : Network) (calls : list FetchCall) (response : Response) :
  net (fetchCallOf path options) = Returns response ->
  (forall e, ok response = true -> json response = Throws e ->
             fst (request path options net calls) = Returns JNull) /\
  (ok response = true <-> exists v, fst (request path options net calls) = Returns v) /\
  (ok response = false <-> exists e, fst (request path options net calls) = Throws e).
Proof.
  intros Hnet. rewrite (request_settles path options net calls response Hnet).
  split; [|split].
  - intros e Hok Hjson. rewrite Hok, Hjson. reflexivity.
  - split.
    + intros Hok. rewrite Hok. eexists. reflexivity.
    + intros [v Hv]. destruct (ok response); [reflexivity | discriminate].
  - split.
    + intros Hok. rewrite Hok. eexists. reflexivity.
    + intros [e He]. destruct (ok response); [discriminate | reflexivity].
Qed.

Lemma filterM_total (f : JsValue -> bool) (items : list JsValue) :
  filterM (fun x => Returns (f x)) items = Returns (filter f items).
Proof.
  induction items as [|x rest IH]; [reflexivity|].
  cbn [filterM filter bind]. rewrite IH. cbn [bind]. destruct (f x); reflexivity.
Qed.

Lemma filterM_ext_on (f g : JsValue -> Outcome bool) (items : list JsValue) :
  (forall x, In x items -> f x = g x) -> filterM f items = filterM g items.
Proof.
  induction items as [|x rest IH]; intros Hfg; [reflexivity|].
  cbn [filterM]. rewrite (Hfg x (or_introl eq_refl)).
  rewrite IH; [reflexivity|]. intros y Hy. apply Hfg. right. exact Hy.
Qed.

Lemma prop_defined (v : JsValue) (k : string) :
  isNullish v = false -> prop v k = Returns (member v k).
Proof.
  destruct v; try discriminate; reflexivity.
Qed.

Lemma completedOf_answer (answer : JsValue) (tasks : list JsValue) :
  tasksOfAnswer answer = Some tasks ->
  completedOf answer =
    Returns (JObj [("success", JBool true); ("tasks", JArr (filter isCompleted tasks))]).
Proof.
  unfold tasksOfAnswer, completedOf.
  destruct (isNullish answer) eqn:Hanswer; [discriminate|].
  rewrite (prop_defined answer "tasks" Hanswer). cbn [bind].
  destruct (member answer "tasks") as [| | b | n | s | items | inner]; try discriminate;
    try (intros Heq; injection Heq as <-; reflexivity).
  destruct (forallb (fun task => negb (isNullish task)) items) eqn:Hall; [|discriminate].
  intros Heq. injection Heq as <-. cbn [coalesce isNullish arrayFilter].
  rewrite (filterM_ext_on _ (fun x => Returns (isCompleted x)) items).
  - rewrite filterM_total. reflexivity.
  - intros x Hx. rewrite forallb_forall in Hall. specialize (Hall x Hx).
    rewrite (prop_defined x "status"); [reflexivity|].
    destruct (isNullish x); [discriminate | reflexivity].
Qed.

Lemma filterM_throws (f : JsValue -> Outcome bool) (items : list JsValue) :
  (exists x e, In x items /\ f x = Throws e) -> exists e, filterM f items = Throws e.
Proof.
  induction items as [|y rest IH]; intros (x & e & Hin & Hx); [destruct Hin|].
  cbn [filterM]. destruct (f y) as [keep|e'] eqn:Hy; [|exists e'; reflexivity].
  cbn [bind]. destruct Hin as [-> | Hin]; [congruence|].
  destruct (IH (ex_intro _ x (ex_intro _ e (conj Hin Hx)))) as [e' He'].
  rewrite He'. exists e'. reflexivity.
Qed.

(** On every other answer the callback throws. *)
Lemma completedOf_throws (answer : JsValue) :
  tasksOfAnswer answer = None -> exists e, completedOf answer = Throws e.
Proof.
  unfold tasksOfAnswer, completedOf.
  destruct (isNullish answer) eqn:Hanswer.
  - intros _. destruct answer; try discriminate; eexists; reflexivity.
  - rewrite (prop_defined answer "tasks" Hanswer). cbn [bind].
    destruct (member answer "tasks") as [| | b | n | s | items | inner]; try discriminate;
      try (intros _; eexists; reflexivity).
    destruct (forallb (fun task => negb (isNullish task)) items) eqn:Hall; [discriminate|].
    intros _. cbn [coalesce isNullish arrayFilter].
    assert (Hbad : exists x, In x items /\ isNullish x = true).
    { clear -Hall. induction items as [|y rest IH]; [discriminate|].
      cbn [forallb] in Hall. destruct (isNullish y) eqn:Hy.
      - exists y. split; [left; reflexivity | exact Hy].
      - cbn [negb andb] in Hall. destruct (IH Hall) as (x & Hin & Hx).
        exists x. split; [right; exact Hin | exact Hx]. }
    destruct Hbad as (x & Hin & Hx).
    destruct (filterM_throws
                (fun task => taskStatus <- prop task "status" ;;
                             Returns (strictEqStr taskStatus "completed")) items) as [e He].
    + exists x. destruct x; try discriminate; eexists; (split; [exact Hin | reflexivity]).
    + rewrite He. exists e. reflexivity.
Qed.

Lemma getFinishedTasks_then (username : string) (net : Network) (calls : list FetchCall) :
  getFinishedTasks username net calls =
    (bind (fst (getUserTasks username net calls)) completedOf,
     snd (getUserTasks username net calls)).
Proof.
  unfold Database.getFinishedTasks, andThen.
  destruct (Database.getUserTasks _ _ _ username net calls). reflexivity.
Qed.

(** C2, as amended: whenever [getUserTasks] resolves to an answer whose
    tasks can be read, as every answer of its declared type is,
    [getFinishedTasks] resolves to [success: true] with exactly the tasks
    of that answer whose [status] is ['completed'], in their order; on any
    other answer, and when [getUserTasks] rejects, it rejects; and in every
    case the calls of [fetch] it makes are those of [getUserTasks]: the one
    request to [/get-user-tasks]. *)
Theorem getFinishedTasks_filters_getUserTasks (username : string) (net : Network)
    (calls : list FetchCall) :
  (forall answer tasks,
     fst (getUserTasks username net calls) = Returns answer ->
     tasksOfAnswer answer = Some tasks ->
     fst (getFinishedTasks username net calls) =
       Returns (JObj [("success", JBool true);
                      ("tasks", JArr (filter isCompleted tasks))])) /\
  (forall answer,
     fst (getUserTasks username net calls) = Returns answer ->
     tasksOfAnswer answer = None ->
     exists e, fst (getFinishedTasks username net calls) = Throws e) /\
  (forall e,
     fst (getUserTasks username net calls) = Throws e ->
     fst (getFinishedTasks username net calls) = Throws e) /\
  snd (getFinishedTasks username net calls) = snd (getUserTasks username net calls) /\
  snd (getFinishedTasks username net calls) =
    (calls ++ [fetchCallOf
                 ("/get-user-tasks" ++
                  buildQueryString URLSearchParams_toString (Some [("username", QStr username)]))
                 {| method := Some "GET"; headers := None; body := None |}])%list.
Proof.
  rewrite getFinishedTasks_then. cbn [fst snd]. split; [|split; [|split; [|split]]].
  - intros answer tasks Hanswer Htasks. rewrite Hanswer. cbn [bind].
    apply completedOf_answer. exact Htasks.
  - intros answer Hanswer Hnone. rewrite Hanswer. cbn [bind].
    apply completedOf_throws. exact Hnone.
  - intros e Hrejected. rewrite Hrejected. reflexivity.
  - reflexivity.
  - unfold Database.getUserTasks, get. apply request_logs_one_call.
Qed.

(** C10: when [getUserTasks] resolves to an answer with [success: false],
    [getFinishedTasks] still resolves, to an object with [success: true]
    and the filtered list, and with no [error] field whatever the answer
    carried. *)
Theorem getFinishedTasks_hides_logical_failure (username : string) (net : Network)
    (calls : list FetchCall) (fields : list (string * JsValue)) (tasks : list JsValue) :
  fst (getUserTasks username net calls) = Returns (JObj fields) ->
  assoc "success" fields = Some (JBool false) ->
  tasksOfAnswer (JObj fields) = Some tasks ->
  exists result,
    fst (getFinishedTasks username net calls) = Returns result /\
    member result "success" = JBool true /\
    member result "tasks" = JArr (filter isCompleted tasks) /\
    member result "error" = JUndefined.
Proof.
  intros Hanswer _ Htasks. rewrite getFinishedTasks_then. cbn [fst].
  rewrite Hanswer. cbn [bind]. rewrite (completedOf_answer _ _ Htasks).
  eexists. split; [reflexivity|]. repeat split.
Qed.

End Gateway.

Import Examples.

(** C3 as first stated fails where the [error] field is a string but the
    empty one: the message is the generic one, not the field. *)
Lemma request_empty_error_field_counterexample :
  ok emptyError = false /\
  (exists fields,
      json emptyError = Returns (JObj fields) /\ assoc "error" fields = Some (JStr "")) /\
  fst (request base stringify "/login" loginOptions (always emptyError) [])
    = Throws (Error "Request failed with status 400") /\
  fst (request base stringify "/login" loginOptions (always emptyError) [])
    <> Throws (Error "").
Proof.
  split; [reflexivity|]. split.
  - eexists. split; reflexivity.
  - split; [reflexivity | discriminate].
Qed.

Lemma request_non_2xx_message_witness :
  exists message,
    fst (request base stringify "/login" loginOptions (always badCreds) [])
      = Throws (Error message) /\
    (forall m, carriesError (json badCreds) m -> message = m) /\
    ((forall m, ~ carriesError (json badCreds) m) -> message = statusMessage 401) /\
    (forall e, json badCreds = Throws e -> message = statusMessage 401).
Proof.
  exact (request_non_2xx_message base stringify "/login" loginOptions
           (always badCreds) [] badCreds eq_refl eq_refl).
Defined.

Example login_bad_creds :
  fst (request base stringify "/login" loginOptions (always badCreds) [])
    = Throws (Error "bad creds").
Proof. reflexivity. Qed.

Example login_unparseable :
  fst (request base stringify "/login" loginOptions (always gatewayPage) [])
    = Throws (Error "Request failed with status 502").
Proof. reflexivity. Qed.

Lemma request_outcome_follows_status_witness :
  (forall e, ok emptyOk = true -> json emptyOk = Throws e ->
             fst (request base stringify "/logout"
                    {| method := Some "GET"; headers := None; body := None |}
                    (always emptyOk) []) = Returns JNull) /\
  (ok emptyOk = true <->
   exists v, fst (request base stringify "/logout"
                    {| method := Some "GET"; headers := None; body := None |}
                    (always emptyOk) []) = Returns v) /\
  (ok emptyOk = false <->
   exists e, fst (request base stringify "/logout"
                    {| method := Some "GET"; headers := None; body := None |}
                    (always emptyOk) []) = Throws e).
Proof.
  exact (request_outcome_follows_status base stringify "/logout"
           {| method := Some "GET"; headers := None; body := None |}
           (always emptyOk) [] emptyOk eq_refl).
Defined.

Lemma getFinishedTasks_filters_getUserTasks_witness :
  fst (getFinishedTasks base stringify queryOf "alice" (always tasksOk) [])
    = Returns (JObj [("success", JBool true);
                     ("tasks", JArr (filter isCompleted threeTasks))]).
Proof.
  exact (proj1 (getFinishedTasks_filters_getUserTasks base stringify queryOf "alice"
                  (always tasksOk) [])
               _ threeTasks eq_refl eq_refl).
Defined.

Example finished_of_three :
  fst (getFinishedTasks base stringify queryOf "alice" (always tasksOk) [])
    = Returns (JObj [("success", JBool true);
                     ("tasks", JArr [task "t1" "completed"; task "t3" "completed"])]) /\
  map fetchUrl (snd (getFinishedTasks base stringify queryOf "alice" (always tasksOk) []))
    = ["http://localhost:3000/get-user-tasks?username=alice"].
Proof. split; reflexivity. Qed.

Lemma getFinishedTasks_hides_logical_failure_witness :
  exists result,
    fst (getFinishedTasks base stringify queryOf "ghost" (always tasksRefused) [])
      = Returns result /\
    member result "success" = JBool true /\
    member result "tasks" = JArr (filter isCompleted [task "t9" "completed"]) /\
    member result "error" = JUndefined.
Proof.
  exact (getFinishedTasks_hides_logical_failure base stringify queryOf "ghost"
           (always tasksRefused) [] _ [task "t9" "completed"] eq_refl eq_refl eq_refl).
Defined.

(** C2 as first stated fails on a 2xx response without a JSON body: the
    fetch of [getUserTasks] succeeds and resolves to [null], whose [tasks]
    the callback cannot read, so that [getFinishedTasks] rejects. *)
Lemma getFinishedTasks_null_answer_counterexample :
  ok emptyOk = true /\
  fst (getUserTasks base stringify queryOf "alice" (always emptyOk) []) = Returns JNull /\
  fst (getFinishedTasks base stringify queryOf "alice" (always emptyOk) [])
    = Throws (TypeError (cannotRead "tasks" "null")) /\
  (forall result,
     fst (getFinishedTasks base stringify queryOf "alice" (always emptyOk) [])
       <> Returns result).
Proof.
  repeat split. intros result. discriminate.
Qed.

End DatabaseFacts.

(* ================================================================== *)
(** * Properties of the displayed event list                           *)
(* ================================================================== *)

Module EventListFacts.
Import JS React Answers Examples.

Lemma nth_error_mapiFrom {A B : Type} (f : A -> nat -> B) (l : list A) :
  forall start i,
    nth_error (mapiFrom start f l) i =
    option_map (fun x => f x (start + i)) (nth_error l i).
Proof.
  induction l as [|x rest IH]; intros start i.
  - destruct i; reflexivity.
  - destruct i as [|i]; cbn [mapiFrom nth_error option_map].
    + rewrite Nat.add_0_r. reflexivity.
    + rewrite IH. rewrite <- plus_n_Sm. reflexivity.
Qed.

Lemma nth_error_mapi {A B : Type} (f : A -> nat -> B) (l : list A) (i : nat) :
  nth_error (mapi f l) i = option_map (fun x => f x i) (nth_error l i).
Proof.
  unfold mapi. rewrite nth_error_mapiFrom. reflexivity.
Qed.

Lemma nth_error_mapiFromM {A B : Type} (f : A -> nat -> Outcome B) (l : list A) :
  forall start ys i y,
    mapiFromM start f l = Returns ys ->
    nth_error ys i = Some y ->
    exists x, nth_error l i = Some x /\ f x (start + i) = Returns y.
Proof.
  induction l as [|x rest IH]; intros start ys i y Hall Hy; cbn [mapiFromM] in Hall.
  - injection Hall as <-. destruct i; discriminate.
  - destruct (f x start) as [y0|e] eqn:Hhead; [|discriminate]. cbn [bind] in Hall.
    destruct (mapiFromM (S start) f rest) as [ys0|e] eqn:Htail; [|discriminate].
    cbn [bind] in Hall. injection Hall as <-.
    destruct i as [|i]; cbn [nth_error] in Hy |- *.
    + injection Hy as <-. exists x. rewrite Nat.add_0_r. split; [reflexivity | exact Hhead].
    + destruct (IH (S start) ys0 i y Htail Hy) as (x' & Hx' & Hf).
      exists x'. rewrite <- plus_n_Sm. split; assumption.
Qed.

Lemma nth_error_mapiM {A B : Type} (f : A -> nat -> Outcome B) (l : list A)
    (ys : list B) (i : nat) (y : B) :
  mapiM f l = Returns ys ->
  nth_error ys i = Some y ->
  exists x, nth_error l i = Some x /\ f x i = Returns y.
Proof.
  unfold mapiM. intros Hall Hy. exact (nth_error_mapiFromM f l 0 ys i y Hall Hy).
Qed.

Lemma or_of_fields (a b : option string) (i : nat) :
  or (or (ofOpt a) (ofOpt b)) (JStr ("event-" ++ showNat i)) = JStr (idByPrecedence a b i).
Proof.
  unfold idByPrecedence, nonEmpty, or, isEmpty.
  destruct a as [s|], b as [t|]; cbn [ofOpt truthy];
    try (destruct (s =? "") eqn:Hs); try (destruct (t =? "") eqn:Ht);
    cbn [negb truthy]; rewrite ?Hs, ?Ht; reflexivity.
Qed.

Example embedded_null_throws :
  HomeV2.events [] [JStr "e7"; JNull] = Throws (TypeError (cannotRead "_id" "null")).
Proof. reflexivity. Qed.

Example embedded_mixed :
  HomeV1.events [] [JStr "e7"; JObj [("id", JStr "e8"); ("name", JStr "Fair")]; JObj []]
    = Returns [{| DisplayEvent.id := JStr "e7"; DisplayEvent.name := JStr "Event 1";
                  DisplayEvent.date := JUndefined |};
               {| DisplayEvent.id := JStr "e8"; DisplayEvent.name := JStr "Fair";
                  DisplayEvent.date := JUndefined |};
               {| DisplayEvent.id := JStr "event-2"; DisplayEvent.name := JStr "Event 3";
                  DisplayEvent.date := JUndefined |}].
Proof. reflexivity. Qed.

Example precedence_of_both :
  DisplayEvent.id
    (HomeV2.fetchedEvent
       {| EventRecord._id := Some "A"; EventRecord.id := Some "B";
          EventRecord.name := None; EventRecord.coverImage := None;
          EventRecord.date := None; EventRecord.tasks := None |} 4) = JStr "A".
Proof. reflexivity. Qed.

(** The second revision, fetched branch: [_id], else [id], else the
    placeholder. *)
Lemma fetchedEvent_v2_id (e : EventRecord.t) (i : nat) :
  DisplayEvent.id (HomeV2.fetchedEvent e i) =
  JStr (idByPrecedence (EventRecord._id e) (EventRecord.id e) i).
Proof.
  unfold HomeV2.fetchedEvent. cbn [DisplayEvent.id]. apply or_of_fields.
Qed.

(** The user-profile branch on a bare string. *)
Lemma embeddedEvent_string (s : string) (i : nat) :
  embeddedEvent (JStr s) i =
  Returns {| DisplayEvent.id := JStr s;
             DisplayEvent.name := JStr ("Event " ++ showNat (i + 1));
             DisplayEvent.date := JUndefined |}.
Proof. reflexivity. Qed.

(** The user-profile branch on an object whose [_id] and [id] are strings
    or missing. *)
Lemma embeddedEvent_object (fields : list (string * JsValue)) (a b : option string)
    (i : nat) :
  member (JObj fields) "_id" = ofOpt a ->
  member (JObj fields) "id" = ofOpt b ->
  exists d,
    embeddedEvent (JObj fields) i = Returns d /\
    DisplayEvent.id d = JStr (idByPrecedence a b i).
Proof.
  intros Ha Hb. unfold embeddedEvent. change (typeof (JObj fields) =? "string") with false.
  cbv iota. unfold prop. cbn [bind]. eexists. split; [reflexivity|].
  cbn [DisplayEvent.id]. rewrite Ha, Hb. apply or_of_fields.
Qed.

(** Where the precedence holds: every entry of the list shown by the
    second revision, and every entry shown by the first revision from the
    user profile. *)
Lemma shown_entries (fetched : list EventRecord.t) (embedded : list JsValue)
    (shown : list DisplayEvent.t) (i : nat) (d : DisplayEvent.t) :
  nth_error shown i = Some d ->
  (HomeV2.events fetched embedded = Returns shown ->
   fetched <> [] ->
   exists e, nth_error fetched i = Some e /\
             DisplayEvent.id d =
             JStr (idByPrecedence (EventRecord._id e) (EventRecord.id e) i)) /\
  (HomeV2.events [] embedded = Returns shown \/ HomeV1.events [] embedded = Returns shown ->
   exists v, nth_error embedded i = Some v /\
     (forall s, v = JStr s ->
        DisplayEvent.id d = JStr s /\
        DisplayEvent.name d = JStr ("Event " ++ showNat (i + 1))) /\
     (forall fields a b, v = JObj fields ->
        member v "_id" = ofOpt a -> member v "id" = ofOpt b ->
        DisplayEvent.id d = JStr (idByPrecedence a b i))).
Proof.
  intros Hd. split.
  - intros Hshown Hsome. unfold HomeV2.events in Hshown.
    destruct fetched as [|e0 rest]; [congruence|]. cbn [length Nat.ltb Nat.leb] in Hshown.
    injection Hshown as <-. rewrite nth_error_mapi in Hd.
    destruct (nth_error (e0 :: rest) i) as [e|]; [|discriminate].
    cbn [option_map] in Hd. injection Hd as <-.
    exists e. split; [reflexivity | apply fetchedEvent_v2_id].
  - intros Hshown.
    assert (Hmap : mapiM embeddedEvent embedded = Returns shown)
      by (destruct Hshown as [H | H]; exact H).
    destruct (nth_error_mapiM _ _ _ _ _ Hmap Hd) as (v & Hv & Hentry).
    exists v. split; [exact Hv|]. split.
    + intros s ->. rewrite embeddedEvent_string in Hentry. injection Hentry as <-.
      split; reflexivity.
    + intros fields a b -> Ha Hb.
      destruct (embeddedEvent_object fields a b i Ha Hb) as (d' & Hd' & Hid).
      rewrite Hd' in Hentry. injection Hentry as <-. exact Hid.
Qed.

(** C1: the first revision maps a fetched record that has neither [_id]
    nor [id] to an entry whose id is [undefined], where the precedence
    asks for the placeholder [event-0], which is what the second revision
    and the user-profile branch of both revisions produce. *)
Theorem fetched_record_without_id_v1 :
  let untitled := eventRecord None "Meetup" in
  (exists d, HomeV1.events [untitled] [] = Returns [d] /\ DisplayEvent.id d = JUndefined) /\
  idByPrecedence (EventRecord._id untitled) (EventRecord.id untitled) 0 = "event-0" /\
  (exists d, HomeV2.events [untitled] [] = Returns [d] /\ DisplayEvent.id d = JStr "event-0") /\
  (exists d, HomeV1.events [] [JObj [("name", JStr "Meetup")]] = Returns [d] /\
             DisplayEvent.id d = JStr "event-0").
Proof.
  cbv zeta. split; [|split; [|split]].
  - eexists. split; reflexivity.
  - reflexivity.
  - eexists. split; reflexivity.
  - eexists. split; reflexivity.
Qed.

(** C9: a user whose [events] is missing or is not an array has no events
    in any of the three home screens, and computing the list does not
    throw. *)
Theorem no_event_array_no_events (stringifyOr : JsValue -> option string)
    (user : option User) :
  (forall items, userField user "events" <> JArr items) ->
  HomeV1.userEvents user = [] /\
  HomeV2.userEvents user = [] /\
  HomeV0.eventEntries stringifyOr user = [] /\
  HomeV1.events [] (HomeV1.userEvents user) = Returns [] /\
  HomeV2.events [] (HomeV2.userEvents user) = Returns [].
Proof.
  intros Hnot.
  assert (Hnone : arrayField user "events" = []).
  { unfold arrayField. destruct (userField user "events") as [| | b | n | s | items | fields];
      try reflexivity. exfalso. exact (Hnot items eq_refl). }
  unfold HomeV1.userEvents, HomeV2.userEvents, HomeV0.eventEntries.
  rewrite Hnone. repeat split.
Qed.

Lemma no_event_array_no_events_witness :
  HomeV1.userEvents countedEvents = [] /\
  HomeV2.userEvents countedEvents = [] /\
  HomeV0.eventEntries (fun _ => None) countedEvents = [] /\
  HomeV1.events [] (HomeV1.userEvents countedEvents) = Returns [] /\
  HomeV2.events [] (HomeV2.userEvents countedEvents) = Returns [].
Proof.
  apply (no_event_array_no_events (fun _ => None) countedEvents).
  intros items Harr. discriminate Harr.
Defined.

Example no_user_no_events : HomeV2.events [] (HomeV2.userEvents None) = Returns [].
Proof. reflexivity. Qed.

(** ** Where the fetched collection comes from *)

Lemma cleanup_state_v1 (sc : HomeV1.Screen) :
  HomeV1.state (HomeV1.cleanupEventsEffect sc) = HomeV1.state sc.
Proof.
  unfold HomeV1.cleanupEventsEffect. destruct (HomeV1.current sc) as [k|]; [|reflexivity].
  destruct (nth_error (HomeV1.fetches sc) k); reflexivity.
Qed.

Lemma cleanup_state_v2 (sc : HomeV2.Screen) :
  HomeV2.state (HomeV2.cleanupEventsEffect sc) = HomeV2.state sc.
Proof.
  unfold HomeV2.cleanupEventsEffect. destruct (HomeV2.current sc) as [k|]; [|reflexivity].
  destruct (nth_error (HomeV2.fetches sc) k); reflexivity.
Qed.

Lemma tasksEffect_fetched_v2 (sc : HomeV2.Screen) :
  HomeV2.fetchedEvents (HomeV2.state (HomeV2.runTasksEffect sc))
  = HomeV2.fetchedEvents (HomeV2.state sc).
Proof.
  unfold HomeV2.runTasksEffect.
  destruct (usernameOf (HomeV2.user sc)) as [username|]; [|reflexivity].
  destruct (isEmpty username); reflexivity.
Qed.

(** How one input can change the fetched collection of the first
    revision: not at all, by clearing it, or by taking the events of a
    [getEvents] answer that reports success. *)
Lemma step_fetched_v1 (sc : HomeV1.Screen) (i : HomeV1.Input) :
  let after := HomeV1.fetchedEvents (HomeV1.state (HomeV1.step sc i)) in
  after = HomeV1.fetchedEvents (HomeV1.state sc) \/
  after = [] \/
  exists k response,
    i = HomeV1.EventsSettled k (Returns response) /\
    Envelope.success response = true /\ Envelope.payload response = Some after.
Proof.
  destruct i as [u | k outcome | | | text | t | eventId | | shown | k outcome now];
    cbn [HomeV1.step]; cbv zeta; try (left; reflexivity).
  - unfold HomeV1.provide.
    destruct (sameUsername (usernameOf u) (usernameOf (HomeV1.user sc))); [left; reflexivity|].
    unfold HomeV1.runEventsEffect. cbn [HomeV1.withUser HomeV1.user].
    destruct (usernameOf u) as [username|]; [|right; left; reflexivity].
    destruct (isEmpty username); [right; left; reflexivity|].
    left. cbn. rewrite cleanup_state_v1. reflexivity.
  - unfold HomeV1.eventsSettled.
    destruct (nth_error (HomeV1.fetches sc) k) as [f|]; [|left; reflexivity].
    destruct (HomeV1.settled f); [left; reflexivity|].
    destruct outcome as [response|e]; destruct (HomeV1.cancelled f); cbn [negb];
      try (left; reflexivity).
    destruct (Envelope.success response) eqn:Hs; [|left; reflexivity].
    destruct (Envelope.payload response) as [fetched|] eqn:Hp; [|left; reflexivity].
    right. right. exists k, response. repeat split; assumption.
  - unfold HomeV1.handleCreateTask.
    destruct (noUsername (usernameOf (HomeV1.user sc))); [left; reflexivity|].
    destruct (isEmpty (trim (HomeV1.taskInfo (HomeV1.state sc)))); left; reflexivity.
  - unfold HomeV1.createTaskSettled.
    destruct (nth_error (HomeV1.submissions sc) k) as [sub|]; [|left; reflexivity].
    destruct (HomeV1.answered sub); [left; reflexivity|].
    destruct outcome as [response|e]; [|left; reflexivity].
    destruct (Envelope.success response); [|left; reflexivity].
    destruct (Envelope.payload response); left; reflexivity.
Qed.

Lemma step_fetched_v2 (sc : HomeV2.Screen) (i : HomeV2.Input) :
  let after := HomeV2.fetchedEvents (HomeV2.state (HomeV2.step sc i)) in
  after = HomeV2.fetchedEvents (HomeV2.state sc) \/
  after = [] \/
  exists k response,
    i = HomeV2.EventsSettled k (Returns response) /\
    Envelope.success response = true /\ Envelope.payload response = Some after.
Proof.
  destruct i as [u | k outcome | k outcome | | | text | t | | k outcome];
    cbn [HomeV2.step]; cbv zeta; try (left; reflexivity).
  - unfold HomeV2.provide.
    destruct (sameUsername (usernameOf u) (usernameOf (HomeV2.user sc))); [left; reflexivity|].
    rewrite tasksEffect_fetched_v2.
    unfold HomeV2.runEventsEffect. cbn [HomeV2.withUser HomeV2.user].
    destruct (usernameOf u) as [username|]; [|right; left; reflexivity].
    destruct (isEmpty username); [right; left; reflexivity|].
    left. cbn. rewrite cleanup_state_v2. reflexivity.
  - unfold HomeV2.eventsSettled.
    destruct (nth_error (HomeV2.fetches sc) k) as [f|]; [|left; reflexivity].
    destruct (HomeV2.settled f); [left; reflexivity|].
    destruct outcome as [response|e]; destruct (HomeV2.cancelled f); cbn [negb];
      try (left; reflexivity).
    destruct (Envelope.success response) eqn:Hs; [|left; reflexivity].
    destruct (Envelope.payload response) as [fetched|] eqn:Hp; [|left; reflexivity].
    right. right. exists k, response. repeat split; assumption.
  - unfold HomeV2.tasksSettled.
    destruct (nth_error (HomeV2.loads sc) k) as [load|]; [|left; reflexivity].
    destruct (HomeV2.loadSettled load); [left; reflexivity|].
    destruct (HomeV2.awaitedBySubmit load);
      destruct outcome as [[tasksResponse finishedResponse]|e];
      try (left; reflexivity);
      destruct (Envelope.success tasksResponse), (Envelope.payload tasksResponse),
               (Envelope.success finishedResponse), (Envelope.payload finishedResponse);
      left; reflexivity.
  - unfold HomeV2.handleCreateTask.
    destruct (noUsername (usernameOf (HomeV2.user sc))); [left; reflexivity|].
    destruct (isEmpty (trim (HomeV2.taskInfo (HomeV2.state sc)))); left; reflexivity.
  - unfold HomeV2.createTaskSettled.
    destruct (nth_error (HomeV2.submissions sc) k) as [sub|]; [|left; reflexivity].
    destruct (HomeV2.answered sub); [left; reflexivity|].
    destruct outcome as [response|e]; [|left; reflexivity].
    destruct (Envelope.success response); left; reflexivity.
Qed.

Lemma run_fetched_v1 (inputs : list HomeV1.Input) :
  forall sc,
    let final := HomeV1.fetchedEvents (HomeV1.state (HomeV1.run sc inputs)) in
    final = HomeV1.fetchedEvents (HomeV1.state sc) \/
    final = [] \/
    exists k response,
      In (HomeV1.EventsSettled k (Returns response)) inputs /\
      Envelope.success response = true /\ Envelope.payload response = Some final.
Proof.
  induction inputs as [|i rest IH]; intros sc; [left; reflexivity|].
  cbn [HomeV1.run fold_left]. cbv zeta.
  destruct (IH (HomeV1.step sc i)) as [Hkept | [Hcleared | (k & response & Hin & Hs & Hp)]].
  - unfold HomeV1.run in Hkept. rewrite Hkept.
    destruct (step_fetched_v1 sc i) as [H | [H | (k & response & Hi & Hs & Hp)]].
    + left. exact H.
    + right. left. exact H.
    + right. right. exists k, response. split; [left; exact Hi|].
      split; assumption.
  - right. left. exact Hcleared.
  - right. right. exists k, response. split; [right; exact Hin|]. split; assumption.
Qed.

Lemma run_fetched_v2 (inputs : list HomeV2.Input) :
  forall sc,
    let final := HomeV2.fetchedEvents (HomeV2.state (HomeV2.run sc inputs)) in
    final = HomeV2.fetchedEvents (HomeV2.state sc) \/
    final = [] \/
    exists k response,
      In (HomeV2.EventsSettled k (Returns response)) inputs /\
      Envelope.success response = true /\ Envelope.payload response = Some final.
Proof.
  induction inputs as [|i rest IH]; intros sc; [left; reflexivity|].
  cbn [HomeV2.run fold_left]. cbv zeta.
  destruct (IH (HomeV2.step sc i)) as [Hkept | [Hcleared | (k & response & Hin & Hs & Hp)]].
  - unfold HomeV2.run in Hkept. rewrite Hkept.
    destruct (step_fetched_v2 sc i) as [H | [H | (k & response & Hi & Hs & Hp)]].
    + left. exact H.
    + right. left. exact H.
    + right. right. exists k, response. split; [left; exact Hi|].
      split; assumption.
  - right. left. exact Hcleared.
  - right. right. exists k, response. split; [right; exact Hin|]. split; assumption.
Qed.

Lemma mount_fetched_v1 (u : option User) :
  HomeV1.fetchedEvents (HomeV1.state (HomeV1.mount u)) = [].
Proof.
  unfold HomeV1.mount, HomeV1.runEventsEffect. cbn [HomeV1.user].
  destruct (usernameOf u) as [username|]; [|reflexivity].
  destruct (isEmpty username); reflexivity.
Qed.

Lemma mount_fetched_v2 (u : option User) :
  HomeV2.fetchedEvents (HomeV2.state (HomeV2.mount u)) = [].
Proof.
  unfold HomeV2.mount. rewrite tasksEffect_fetched_v2.
  unfold HomeV2.runEventsEffect. cbn [HomeV2.user].
  destruct (usernameOf u) as [username|]; [|reflexivity].
  destruct (isEmpty username); reflexivity.
Qed.








Example fetched_hides_embedded :
  HomeV2.events [eventRecord (Some "e1") "Meetup"] [JStr "e7"]
    = Returns [{| DisplayEvent.id := JStr "e1"; DisplayEvent.name := JStr "Meetup";
                  DisplayEvent.date := JUndefined |}] /\
  HomeV2.events [] [JStr "e7"]
    = Returns [{| DisplayEvent.id := JStr "e7"; DisplayEvent.name := JStr "Event 1";
                  DisplayEvent.date := JUndefined |}].
Proof. split; reflexivity. Qed.

End EventListFacts.

(* ================================================================== *)
(** * Properties of the task form of the home screen                   *)
(* ================================================================== *)

Module TaskFormFacts.
Import JS React Answers Examples.

Lemma blank_info_v1 (shown : list DisplayEvent.t) (sc : HomeV1.Screen) :
  trim (HomeV1.taskInfo (HomeV1.state sc)) = "" ->
  HomeV1.handleCreateTask shown sc =
  HomeV1.withState
    (HomeV1.setFormError (Some (rejection (usernameOf (HomeV1.user sc))))) sc.
Proof.
  intros Hblank. unfold HomeV1.handleCreateTask, rejection.
  destruct (noUsername (usernameOf (HomeV1.user sc))); [reflexivity|].
  rewrite Hblank. reflexivity.
Qed.

Lemma blank_info_v2 (sc : HomeV2.Screen) :
  trim (HomeV2.taskInfo (HomeV2.state sc)) = "" ->
  HomeV2.handleCreateTask sc =
  HomeV2.withState
    (HomeV2.setFormError (Some (rejection (usernameOf (HomeV2.user sc))))) sc.
Proof.
  intros Hblank. unfold HomeV2.handleCreateTask, rejection.
  destruct (noUsername (usernameOf (HomeV2.user sc))); [reflexivity|].
  rewrite Hblank. reflexivity.
Qed.

(** C7, as amended: a submission whose [info] is empty after trimming is
    rejected in the form, with [Task info is required] when a username is
    available and with [User not available] when none is; in both cases no
    gateway operation is called, [createTask] in particular, and nothing
    else of the screen changes. *)
Theorem blank_info_rejected_locally :
  (forall shown sc,
     trim (HomeV1.taskInfo (HomeV1.state sc)) = "" ->
     let sc' := HomeV1.handleCreateTask shown sc in
     HomeV1.formError (HomeV1.state sc')
       = Some (rejection (usernameOf (HomeV1.user sc))) /\
     HomeV1.calls sc' = HomeV1.calls sc /\
     HomeV1.submissions sc' = HomeV1.submissions sc /\
     HomeV1.createdTasks (HomeV1.state sc') = HomeV1.createdTasks (HomeV1.state sc) /\
     HomeV1.modalVisible (HomeV1.state sc') = HomeV1.modalVisible (HomeV1.state sc)) /\
  (forall sc,
     trim (HomeV2.taskInfo (HomeV2.state sc)) = "" ->
     let sc' := HomeV2.handleCreateTask sc in
     HomeV2.formError (HomeV2.state sc')
       = Some (rejection (usernameOf (HomeV2.user sc))) /\
     HomeV2.calls sc' = HomeV2.calls sc /\
     HomeV2.submissions sc' = HomeV2.submissions sc /\
     HomeV2.loads sc' = HomeV2.loads sc /\
     HomeV2.tasks (HomeV2.state sc') = HomeV2.tasks (HomeV2.state sc) /\
     HomeV2.modalVisible (HomeV2.state sc') = HomeV2.modalVisible (HomeV2.state sc)).
Proof.
  split.
  - intros shown sc Hblank sc'. subst sc'. rewrite (blank_info_v1 shown sc Hblank).
    repeat split.
  - intros sc Hblank sc'. subst sc'. rewrite (blank_info_v2 sc Hblank).
    repeat split.
Qed.

Lemma blank_info_rejected_locally_witness :
  HomeV2.formError (HomeV2.state (HomeV2.handleCreateTask (blankFormV2 alice)))
    = Some "Task info is required" /\
  HomeV2.calls (HomeV2.handleCreateTask (blankFormV2 alice))
    = [HomeV2.GetEvents "alice"; HomeV2.GetUserTasks "alice";
       HomeV2.GetFinishedTasks "alice"].
Proof.
  destruct (proj2 blank_info_rejected_locally (blankFormV2 alice) eq_refl)
    as (Herror & Hcalls & _).
  split; [exact Herror | exact Hcalls].
Defined.

(** C7 as first stated fails when the profile carries no username: the
    blank submission is rejected with another message. *)
Lemma blank_info_without_username_counterexample :
  trim (HomeV1.taskInfo (HomeV1.state (blankFormV1 nameless))) = "" /\
  HomeV1.formError (HomeV1.state (HomeV1.handleCreateTask [] (blankFormV1 nameless)))
    = Some "User not available" /\
  trim (HomeV2.taskInfo (HomeV2.state (blankFormV2 nameless))) = "" /\
  HomeV2.formError (HomeV2.state (HomeV2.handleCreateTask (blankFormV2 nameless)))
    = Some "User not available" /\
  HomeV2.formError (HomeV2.state (HomeV2.handleCreateTask (blankFormV2 nameless)))
    <> Some "Task info is required".
Proof.
  repeat split; try reflexivity. discriminate.
Qed.

(** ** Failed submissions *)

(** The home screens keep to the failure rule: the message goes to the
    form, the dialog stays as it was, the task lists stay as they were and
    nothing is fetched. *)
Lemma createTask_failure_v1 (sc : HomeV1.Screen) (k : nat) (sub : HomeV1.Submission)
    (outcome : Outcome (Envelope.t (list (string * JsValue)))) (now : nat) :
  nth_error (HomeV1.submissions sc) k = Some sub ->
  HomeV1.answered sub = false ->
  failed outcome ->
  let sc' := HomeV1.createTaskSettled k outcome now sc in
  HomeV1.formError (HomeV1.state sc') = Some (failureMessage "Failed to create task" outcome) /\
  HomeV1.modalVisible (HomeV1.state sc') = HomeV1.modalVisible (HomeV1.state sc) /\
  HomeV1.createdTasks (HomeV1.state sc') = HomeV1.createdTasks (HomeV1.state sc) /\
  HomeV1.fetchedEvents (HomeV1.state sc') = HomeV1.fetchedEvents (HomeV1.state sc) /\
  HomeV1.calls sc' = HomeV1.calls sc.
Proof.
  intros Hsub Hopen Hfailed sc'. subst sc'. unfold HomeV1.createTaskSettled.
  rewrite Hsub, Hopen. destruct outcome as [response|err]; cbn [failed] in Hfailed.
  - rewrite Hfailed. repeat split.
  - repeat split.
Qed.

Lemma createTask_failure_v2 (sc : HomeV2.Screen) (k : nat) (sub : HomeV2.Submission)
    (outcome : Outcome (Envelope.t (list (string * JsValue)))) :
  nth_error (HomeV2.submissions sc) k = Some sub ->
  HomeV2.answered sub = false ->
  failed outcome ->
  let sc' := HomeV2.createTaskSettled k outcome sc in
  HomeV2.formError (HomeV2.state sc') = Some (failureMessage "Failed to create task" outcome) /\
  HomeV2.modalVisible (HomeV2.state sc') = HomeV2.modalVisible (HomeV2.state sc) /\
  HomeV2.tasks (HomeV2.state sc') = HomeV2.tasks (HomeV2.state sc) /\
  HomeV2.finishedCount (HomeV2.state sc') = HomeV2.finishedCount (HomeV2.state sc) /\
  HomeV2.loads sc' = HomeV2.loads sc /\
  HomeV2.calls sc' = HomeV2.calls sc.
Proof.
  intros Hsub Hopen Hfailed sc'. subst sc'. unfold HomeV2.createTaskSettled.
  rewrite Hsub, Hopen. destruct outcome as [response|err]; cbn [failed] in Hfailed.
  - rewrite Hfailed. repeat split.
  - repeat split.
Qed.

End TaskFormFacts.

(* ================================================================== *)
(** * Properties of the connection form of the people screen           *)
(* ================================================================== *)

Module ConnectionFormFacts.
Import JS React Answers Examples.

(** A rejected [addConnection] is handled by the failure rule. *)
Lemma addConnection_rejected_v1 (sc : PeopleV1.Screen) (k : nat) (add : PeopleV1.Addition)
    (err : JsError) :
  nth_error (PeopleV1.additions sc) k = Some add ->
  PeopleV1.answered add = false ->
  let sc' := PeopleV1.addConnectionSettled k (Throws err) sc in
  PeopleV1.formError (PeopleV1.state sc') = Some (messageOr "Unable to add connection" err) /\
  PeopleV1.modalVisible (PeopleV1.state sc') = PeopleV1.modalVisible (PeopleV1.state sc) /\
  PeopleV1.connections (PeopleV1.state sc') = PeopleV1.connections (PeopleV1.state sc) /\
  PeopleV1.calls sc' = PeopleV1.calls sc.
Proof.
  intros Hadd Hopen sc'. subst sc'. unfold PeopleV1.addConnectionSettled.
  rewrite Hadd, Hopen. repeat split.
Qed.

Lemma addConnection_rejected_v2 (sc : PeopleV2.Screen) (k : nat) (add : PeopleV2.Addition)
    (err : JsError) :
  nth_error (PeopleV2.additions sc) k = Some add ->
  PeopleV2.answered add = false ->
  let sc' := PeopleV2.addConnectionSettled k (Throws err) sc in
  PeopleV2.formError (PeopleV2.state sc') = Some (messageOr "Unable to add connection" err) /\
  PeopleV2.modalVisible (PeopleV2.state sc') = PeopleV2.modalVisible (PeopleV2.state sc) /\
  PeopleV2.connections (PeopleV2.state sc') = PeopleV2.connections (PeopleV2.state sc) /\
  PeopleV2.calls sc' = PeopleV2.calls sc.
Proof.
  intros Hadd Hopen sc'. subst sc'. unfold PeopleV2.addConnectionSettled.
  rewrite Hadd, Hopen. repeat split.
Qed.

(** C5: an [addConnection] that resolves with [success: false] is taken
    for a success by both revisions of the people screen: no message
    reaches the form, the dialog is closed and its fields are cleared, and
    the connections are fetched again. *)
Theorem addConnection_refusal_dismisses_form :
  let refused1 :=
    PeopleV1.addConnectionSettled 0 (refusal "Connection already exists") submittedV1 in
  let refused2 :=
    PeopleV2.addConnectionSettled 0 (refusal "Connection already exists") submittedV2 in
  (PeopleV1.modalVisible (PeopleV1.state submittedV1) = true /\
   PeopleV1.modalVisible (PeopleV1.state refused1) = false /\
   PeopleV1.formError (PeopleV1.state refused1) = None /\
   PeopleV1.connectionName (PeopleV1.state refused1) = "" /\
   PeopleV1.calls refused1 =
     [PeopleV1.GetConnections "alice";
      PeopleV1.AddConnection "alice" "Carol" "met at the expo" None None;
      PeopleV1.GetConnections "alice"]) /\
  (PeopleV2.modalVisible (PeopleV2.state submittedV2) = true /\
   PeopleV2.modalVisible (PeopleV2.state refused2) = false /\
   PeopleV2.formError (PeopleV2.state refused2) = None /\
   PeopleV2.connectionName (PeopleV2.state refused2) = "" /\
   PeopleV2.calls refused2 =
     [PeopleV2.GetConnections "alice";
      PeopleV2.AddConnection "alice" "Carol" "met at the expo";
      PeopleV2.GetConnections "alice"]).
Proof.
  cbv zeta. repeat split.
Qed.

End ConnectionFormFacts.

(* ================================================================== *)
(** * The cancellation flag of the events effect                       *)
(* ================================================================== *)

Module ListFacts.
Import React.

Lemma length_setNth {A : Type} (x : A) (l : list A) :
  forall n, length (setNth n x l) = length l.
Proof.
  induction l as [|y rest IH]; intros [|n]; cbn [setNth length]; try reflexivity.
  rewrite IH. reflexivity.
Qed.

Lemma nth_error_setNth_other {A : Type} (x : A) (l : list A) :
  forall n j, j <> n -> nth_error (setNth n x l) j = nth_error l j.
Proof.
  induction l as [|y rest IH]; intros [|n] [|j] Hne; cbn [setNth nth_error];
    try reflexivity; try congruence.
  apply IH. congruence.
Qed.

Lemma nth_error_setNth_same {A : Type} (x y : A) (l : list A) :
  forall n, nth_error l n = Some y -> nth_error (setNth n x l) n = Some x.
Proof.
  induction l as [|z rest IH]; intros [|n] Hy; cbn [setNth nth_error] in *;
    try discriminate; [reflexivity | apply IH; exact Hy].
Qed.

Lemma nth_error_snoc {A : Type} (l : list A) (x y : A) (j : nat) :
  nth_error (l ++ [x]) j = Some y -> j <> length l -> nth_error l j = Some y.
Proof.
  intros Hy Hne.
  destruct (Nat.lt_ge_cases j (length l)) as [Hlt | Hge].
  - rewrite nth_error_app1 in Hy by exact Hlt. exact Hy.
  - rewrite nth_error_app2 in Hy by exact Hge.
    destruct (j - length l) as [|d] eqn:Hd; [lia|].
    cbn [nth_error] in Hy. destruct d; discriminate.
Qed.

End ListFacts.

Module EventsEffectV1.
Import JS React ListFacts HomeV1.

Lemma cleanup_cancels_all (sc : Screen) :
  othersCancelled sc -> currentExists sc ->
  length (fetches (cleanupEventsEffect sc)) = length (fetches sc) /\
  forall k f, nth_error (fetches (cleanupEventsEffect sc)) k = Some f -> cancelled f = true.
Proof.
  intros Hothers Hexists. unfold cleanupEventsEffect.
  destruct (current sc) as [c|] eqn:Hc.
  - destruct (nth_error (fetches sc) c) as [fc|] eqn:Hfc.
    + cbn [withFetches fetches]. split; [apply length_setNth|].
      intros k f Hf. destruct (Nat.eq_dec k c) as [-> | Hne].
      * rewrite (nth_error_setNth_same _ fc) in Hf by exact Hfc.
        injection Hf as <-. reflexivity.
      * rewrite nth_error_setNth_other in Hf by exact Hne.
        apply (Hothers k f Hf). rewrite Hc. congruence.
    + exfalso. apply nth_error_None in Hfc. specialize (Hexists c Hc). lia.
  - split; [reflexivity|]. intros k f Hf. apply (Hothers k f Hf). rewrite Hc. discriminate.
Qed.

Lemma effect_after_cleanup (sc : Screen) :
  (forall k f, nth_error (fetches sc) k = Some f -> cancelled f = true) ->
  othersCancelled (runEventsEffect sc) /\ currentExists (runEventsEffect sc) /\
  length (fetches sc) <= length (fetches (runEventsEffect sc)) /\
  (forall k, k < length (fetches sc) -> current (runEventsEffect sc) <> Some k).
Proof.
  intros Hall. unfold runEventsEffect.
  assert (Hquiet :
    let sc' := withFetches (fetches sc) None (withState (setFetchedEvents []) sc) in
    othersCancelled sc' /\ currentExists sc' /\
    length (fetches sc) <= length (fetches sc') /\
    (forall k, k < length (fetches sc) -> current sc' <> Some k)).
  { cbv zeta. repeat split.
    - intros k f Hf _. exact (Hall k f Hf).
    - intros k Hk. discriminate Hk.
    - cbn. lia.
    - intros k _. discriminate. }
  destruct (usernameOf (user sc)) as [username|]; [|exact Hquiet].
  destruct (isEmpty username); [exact Hquiet|].
  unfold othersCancelled, currentExists.
  cbn [logCall withFetches withState fetches current]. repeat split.
  - intros k f Hf Hne. apply (Hall k f). apply (nth_error_snoc _ _ _ _ Hf). congruence.
  - intros k Hk. injection Hk as <-. rewrite length_app. cbn. lia.
  - rewrite length_app. lia.
  - intros k Hlt Hk. injection Hk as Hk. lia.
Qed.

Lemma mount_invariant (u : option User) :
  othersCancelled (mount u) /\ currentExists (mount u).
Proof.
  unfold mount.
  destruct (effect_after_cleanup
              {| user := u; state := initial; fetches := []; current := None;
                 submissions := []; calls := [] |}) as (Ho & He & _).
  - intros k f Hf. destruct k; discriminate Hf.
  - split; assumption.
Qed.

Lemma settled_keeps_flags (k : nat) (outcome : Outcome (Envelope.t (list EventRecord.t)))
    (sc : Screen) :
  current (eventsSettled k outcome sc) = current sc /\
  length (fetches (eventsSettled k outcome sc)) = length (fetches sc) /\
  forall j f', nth_error (fetches (eventsSettled k outcome sc)) j = Some f' ->
               exists f, nth_error (fetches sc) j = Some f /\ cancelled f' = cancelled f.
Proof.
  unfold eventsSettled.
  destruct (nth_error (fetches sc) k) as [fk|] eqn:Hfk;
    [|repeat split; intros j f' Hf'; exists f'; split; [exact Hf' | reflexivity]].
  destruct (settled fk);
    [repeat split; intros j f' Hf'; exists f'; split; [exact Hf' | reflexivity]|].
  assert (Hshape : forall sc2,
            fetches sc2 = setNth k {| forUser := forUser fk; cancelled := cancelled fk;
                                      settled := true |} (fetches sc) ->
            current sc2 = current sc ->
            current sc2 = current sc /\
            length (fetches sc2) = length (fetches sc) /\
            forall j f', nth_error (fetches sc2) j = Some f' ->
                         exists f, nth_error (fetches sc) j = Some f /\
                                   cancelled f' = cancelled f).
  { intros sc2 Hfetches Hcurrent. split; [exact Hcurrent|]. rewrite Hfetches.
    split; [apply length_setNth|].
    intros j f' Hf'. destruct (Nat.eq_dec j k) as [-> | Hne].
    - rewrite (nth_error_setNth_same _ fk) in Hf' by exact Hfk.
      injection Hf' as <-. exists fk. split; [exact Hfk | reflexivity].
    - rewrite nth_error_setNth_other in Hf' by exact Hne.
      exists f'. split; [exact Hf' | reflexivity]. }
  apply Hshape.
  - destruct outcome as [response|e]; destruct (cancelled fk); cbn [negb];
      try reflexivity.
    destruct (Envelope.success response); [|reflexivity].
    destruct (Envelope.payload response); reflexivity.
  - destruct outcome as [response|e]; destruct (cancelled fk); cbn [negb];
      try reflexivity.
    destruct (Envelope.success response); [|reflexivity].
    destruct (Envelope.payload response); reflexivity.
Qed.

Lemma handleCreateTask_onlyState (shown : list DisplayEvent.t) (sc : Screen) :
  onlyState sc (handleCreateTask shown sc).
Proof.
  unfold handleCreateTask, onlyState.
  destruct (noUsername (usernameOf (user sc))); [split; reflexivity|].
  destruct (isEmpty (trim (taskInfo (state sc)))); split; reflexivity.
Qed.

Lemma createTaskSettled_onlyState (k : nat)
    (outcome : Outcome (Envelope.t (list (string * JsValue)))) (now : nat) (sc : Screen) :
  onlyState sc (createTaskSettled k outcome now sc).
Proof.
  unfold createTaskSettled, onlyState.
  destruct (nth_error (submissions sc) k) as [sub|]; [|split; reflexivity].
  destruct (answered sub); [split; reflexivity|].
  destruct outcome as [response|e]; [|split; reflexivity].
  destruct (Envelope.success response); [|split; reflexivity].
  destruct (Envelope.payload response); split; reflexivity.
Qed.

Lemma onlyState_invariant (sc sc' : Screen) :
  onlyState sc sc' ->
  othersCancelled sc /\ currentExists sc -> othersCancelled sc' /\ currentExists sc'.
Proof.
  intros [Hf Hc] [Ho He]. unfold othersCancelled, currentExists. rewrite Hf, Hc.
  split; assumption.
Qed.

Lemma step_invariant (sc : Screen) (i : Input) :
  othersCancelled sc /\ currentExists sc ->
  othersCancelled (step sc i) /\ currentExists (step sc i).
Proof.
  intros [Ho He].
  destruct i as [u | k outcome | | | text | t | eventId | | shown | k outcome now];
    cbn [step];
    try (apply (onlyState_invariant sc); [split; reflexivity | split; assumption]).
  - unfold provide. destruct (sameUsername (usernameOf u) (usernameOf (user sc))).
    + apply (onlyState_invariant sc); [split; reflexivity | split; assumption].
    + destruct (cleanup_cancels_all sc Ho He) as [_ Hall].
      destruct (effect_after_cleanup (withUser u (cleanupEventsEffect sc)) Hall)
        as (Ho' & He' & _).
      split; assumption.
  - destruct (settled_keeps_flags k outcome sc) as (Hc & Hlen & Hflags). split.
    + intros j f' Hf' Hne. destruct (Hflags j f' Hf') as (f & Hf & ->).
      apply (Ho j f Hf). rewrite <- Hc. exact Hne.
    + intros j Hj. rewrite Hlen. apply He. rewrite <- Hc. exact Hj.
  - apply (onlyState_invariant sc);
      [apply handleCreateTask_onlyState | split; assumption].
  - apply (onlyState_invariant sc);
      [apply createTaskSettled_onlyState | split; assumption].
Qed.

Lemma run_invariant (inputs : list Input) :
  forall sc, othersCancelled sc /\ currentExists sc ->
             othersCancelled (run sc inputs) /\ currentExists (run sc inputs).
Proof.
  induction inputs as [|i rest IH]; intros sc Hinv; [exact Hinv|].
  cbn [run fold_left]. apply IH. apply step_invariant. exact Hinv.
Qed.

Lemma step_keeps_abandoned (k : nat) (sc : Screen) (i : Input) :
  othersCancelled sc /\ currentExists sc ->
  abandoned k sc -> abandoned k (step sc i).
Proof.
  intros [Ho He] [Hlt Hne].
  destruct i as [u | j outcome | | | text | t | eventId | | shown | j outcome now];
    cbn [step]; try (split; assumption).
  - unfold provide. destruct (sameUsername (usernameOf u) (usernameOf (user sc)));
      [split; assumption|].
    destruct (cleanup_cancels_all sc Ho He) as [Hlen Hall].
    destruct (effect_after_cleanup (withUser u (cleanupEventsEffect sc)) Hall)
      as (_ & _ & Hgrow & Hfresh).
    cbn [withUser fetches] in Hgrow, Hfresh. rewrite Hlen in Hgrow, Hfresh.
    split; [lia | apply Hfresh; exact Hlt].
  - destruct (settled_keeps_flags j outcome sc) as (Hc & Hlen & _).
    split; [rewrite Hlen; exact Hlt | rewrite Hc; exact Hne].
  - destruct (handleCreateTask_onlyState shown sc) as [Hf Hc].
    split; [rewrite Hf; exact Hlt | rewrite Hc; exact Hne].
  - destruct (createTaskSettled_onlyState j outcome now sc) as [Hf Hc].
    split; [rewrite Hf; exact Hlt | rewrite Hc; exact Hne].
Qed.

Lemma run_keeps_abandoned (k : nat) (inputs : list Input) :
  forall sc, othersCancelled sc /\ currentExists sc ->
             abandoned k sc -> abandoned k (run sc inputs).
Proof.
  induction inputs as [|i rest IH]; intros sc Hinv Hk; [exact Hk|].
  cbn [run fold_left]. apply IH.
  - apply step_invariant. exact Hinv.
  - apply step_keeps_abandoned; assumption.
Qed.

Lemma abandoned_not_applied (k : nat) (outcome : Outcome (Envelope.t (list EventRecord.t)))
    (sc : Screen) :
  othersCancelled sc -> abandoned k sc ->
  state (eventsSettled k outcome sc) = state sc.
Proof.
  intros Ho [_ Hne]. unfold eventsSettled.
  destruct (nth_error (fetches sc) k) as [f|] eqn:Hf; [|reflexivity].
  destruct (settled f); [reflexivity|].
  rewrite (Ho k f Hf Hne). destruct outcome; reflexivity.
Qed.

(** The events effect keeps to the rule: once the username has changed,
    whatever happens next, the answer of a fetch started before the change
    leaves the state of the screen as it is. *)
Theorem stale_events_never_applied (u u' : option User) (before later : list Input)
    (k : nat) (outcome : Outcome (Envelope.t (list EventRecord.t))) :
  let sc := run (mount u) before in
  sameUsername (usernameOf u') (usernameOf (user sc)) = false ->
  k < length (fetches sc) ->
  let sc' := run (provide u' sc) later in
  state (eventsSettled k outcome sc') = state sc'.
Proof.
  intros sc Hchanged Hlt sc'.
  assert (Hinv : othersCancelled sc /\ currentExists sc)
    by (apply run_invariant, mount_invariant).
  assert (Hinv' : othersCancelled (provide u' sc) /\ currentExists (provide u' sc))
    by (apply (step_invariant sc (Provide u')); exact Hinv).
  assert (Hgone : abandoned k (provide u' sc)).
  { unfold provide. rewrite Hchanged. destruct Hinv as [Ho He].
    destruct (cleanup_cancels_all sc Ho He) as [Hlen Hall].
    destruct (effect_after_cleanup (withUser u' (cleanupEventsEffect sc)) Hall)
      as (_ & _ & Hgrow & Hfresh).
    cbn [withUser fetches] in Hgrow, Hfresh. rewrite Hlen in Hgrow, Hfresh.
    split; [lia | apply Hfresh; exact Hlt]. }
  apply abandoned_not_applied.
  - apply run_invariant. exact Hinv'.
  - apply run_keeps_abandoned; assumption.
Qed.

End EventsEffectV1.

Module EventsEffectV2.
Import JS React ListFacts HomeV2 Examples.

Lemma cleanup_cancels_all_v2 (sc : Screen) :
  othersCancelled sc -> currentExists sc ->
  length (fetches (cleanupEventsEffect sc)) = length (fetches sc) /\
  forall k f, nth_error (fetches (cleanupEventsEffect sc)) k = Some f -> cancelled f = true.
Proof.
  intros Hothers Hexists. unfold cleanupEventsEffect.
  destruct (current sc) as [c|] eqn:Hc.
  - destruct (nth_error (fetches sc) c) as [fc|] eqn:Hfc.
    + cbn [withFetches fetches]. split; [apply length_setNth|].
      intros k f Hf. destruct (Nat.eq_dec k c) as [-> | Hne].
      * rewrite (nth_error_setNth_same _ fc) in Hf by exact Hfc.
        injection Hf as <-. reflexivity.
      * rewrite nth_error_setNth_other in Hf by exact Hne.
        apply (Hothers k f Hf). rewrite Hc. congruence.
    + exfalso. apply nth_error_None in Hfc. specialize (Hexists c Hc). lia.
  - split; [reflexivity|]. intros k f Hf. apply (Hothers k f Hf). rewrite Hc. discriminate.
Qed.

Lemma effect_after_cleanup_v2 (sc : Screen) :
  (forall k f, nth_error (fetches sc) k = Some f -> cancelled f = true) ->
  othersCancelled (runEventsEffect sc) /\ currentExists (runEventsEffect sc) /\
  length (fetches sc) <= length (fetches (runEventsEffect sc)) /\
  (forall k, k < length (fetches sc) -> current (runEventsEffect sc) <> Some k).
Proof.
  intros Hall. unfold runEventsEffect.
  assert (Hquiet :
    let sc' := withFetches (fetches sc) None (withState (setFetchedEvents []) sc) in
    othersCancelled sc' /\ currentExists sc' /\
    length (fetches sc) <= length (fetches sc') /\
    (forall k, k < length (fetches sc) -> current sc' <> Some k)).
  { cbv zeta. repeat split.
    - intros k f Hf _. exact (Hall k f Hf).
    - intros k Hk. discriminate Hk.
    - cbn. lia.
    - intros k _. discriminate. }
  destruct (usernameOf (user sc)) as [username|]; [|exact Hquiet].
  destruct (isEmpty username); [exact Hquiet|].
  unfold othersCancelled, currentExists.
  cbn [logCall withFetches withState fetches current]. repeat split.
  - intros k f Hf Hne. apply (Hall k f). apply (nth_error_snoc _ _ _ _ Hf). congruence.
  - intros k Hk. injection Hk as <-. rewrite length_app. cbn. lia.
  - rewrite length_app. lia.
  - intros k Hlt Hk. injection Hk as Hk. lia.
Qed.

Lemma loadTasks_onlyState_v2 (name : string) (awaited : bool) (sc : Screen) :
  onlyState sc (loadTasks name awaited sc).
Proof. split; reflexivity. Qed.

Lemma runTasksEffect_onlyState_v2 (sc : Screen) : onlyState sc (runTasksEffect sc).
Proof.
  unfold runTasksEffect. destruct (usernameOf (user sc)) as [username|]; [|split; reflexivity].
  destruct (isEmpty username); split; reflexivity.
Qed.

Lemma tasksSettled_onlyState_v2 (k : nat)
    (outcome : Outcome (Envelope.t (list TaskRecord.t) * Envelope.t (list TaskRecord.t)))
    (sc : Screen) :
  onlyState sc (tasksSettled k outcome sc).
Proof.
  unfold tasksSettled, onlyState.
  destruct (nth_error (loads sc) k) as [load|]; [|split; reflexivity].
  destruct (loadSettled load); [split; reflexivity|].
  destruct (awaitedBySubmit load); destruct outcome as [[tasksResponse finishedResponse]|e];
    try (split; reflexivity);
    destruct (Envelope.success tasksResponse), (Envelope.payload tasksResponse),
             (Envelope.success finishedResponse), (Envelope.payload finishedResponse);
    split; reflexivity.
Qed.

Lemma onlyState_invariant_v2 (sc sc' : Screen) :
  onlyState sc sc' ->
  othersCancelled sc /\ currentExists sc -> othersCancelled sc' /\ currentExists sc'.
Proof.
  intros [Hf Hc] [Ho He]. unfold othersCancelled, currentExists. rewrite Hf, Hc.
  split; assumption.
Qed.

Lemma mount_invariant_v2 (u : option User) :
  othersCancelled (mount u) /\ currentExists (mount u).
Proof.
  unfold mount.
  destruct (effect_after_cleanup_v2
              {| user := u; state := initial; fetches := []; current := None;
                 loads := []; submissions := []; calls := [] |}) as (Ho & He & _).
  - intros k f Hf. destruct k; discriminate Hf.
  - apply (onlyState_invariant_v2 _ _ (runTasksEffect_onlyState_v2 _)). split; assumption.
Qed.

Lemma settled_keeps_flags_v2 (k : nat) (outcome : Outcome (Envelope.t (list EventRecord.t)))
    (sc : Screen) :
  current (eventsSettled k outcome sc) = current sc /\
  length (fetches (eventsSettled k outcome sc)) = length (fetches sc) /\
  forall j f', nth_error (fetches (eventsSettled k outcome sc)) j = Some f' ->
               exists f, nth_error (fetches sc) j = Some f /\ cancelled f' = cancelled f.
Proof.
  unfold eventsSettled.
  destruct (nth_error (fetches sc) k) as [fk|] eqn:Hfk;
    [|repeat split; intros j f' Hf'; exists f'; split; [exact Hf' | reflexivity]].
  destruct (settled fk);
    [repeat split; intros j f' Hf'; exists f'; split; [exact Hf' | reflexivity]|].
  assert (Hshape : forall sc2,
            fetches sc2 = setNth k {| forUser := forUser fk; cancelled := cancelled fk;
                                      settled := true |} (fetches sc) ->
            current sc2 = current sc ->
            current sc2 = current sc /\
            length (fetches sc2) = length (fetches sc) /\
            forall j f', nth_error (fetches sc2) j = Some f' ->
                         exists f, nth_error (fetches sc) j = Some f /\
                                   cancelled f' = cancelled f).
  { intros sc2 Hfetches Hcurrent. split; [exact Hcurrent|]. rewrite Hfetches.
    split; [apply length_setNth|].
    intros j f' Hf'. destruct (Nat.eq_dec j k) as [-> | Hne].
    - rewrite (nth_error_setNth_same _ fk) in Hf' by exact Hfk.
      injection Hf' as <-. exists fk. split; [exact Hfk | reflexivity].
    - rewrite nth_error_setNth_other in Hf' by exact Hne.
      exists f'. split; [exact Hf' | reflexivity]. }
  apply Hshape.
  - destruct outcome as [response|e]; destruct (cancelled fk); cbn [negb];
      try reflexivity.
    destruct (Envelope.success response); [|reflexivity].
    destruct (Envelope.payload response); reflexivity.
  - destruct outcome as [response|e]; destruct (cancelled fk); cbn [negb];
      try reflexivity.
    destruct (Envelope.success response); [|reflexivity].
    destruct (Envelope.payload response); reflexivity.
Qed.

Lemma handleCreateTask_onlyState_v2 (sc : Screen) : onlyState sc (handleCreateTask sc).
Proof.
  unfold handleCreateTask, onlyState.
  destruct (noUsername (usernameOf (user sc))); [split; reflexivity|].
  destruct (isEmpty (trim (taskInfo (state sc)))); split; reflexivity.
Qed.

Lemma createTaskSettled_onlyState_v2 (k : nat)
    (outcome : Outcome (Envelope.t (list (string * JsValue)))) (sc : Screen) :
  onlyState sc (createTaskSettled k outcome sc).
Proof.
  unfold createTaskSettled, onlyState.
  destruct (nth_error (submissions sc) k) as [sub|]; [|split; reflexivity].
  destruct (answered sub); [split; reflexivity|].
  destruct outcome as [response|e]; [|split; reflexivity].
  destruct (Envelope.success response); split; reflexivity.
Qed.

Lemma step_invariant_v2 (sc : Screen) (i : Input) :
  othersCancelled sc /\ currentExists sc ->
  othersCancelled (step sc i) /\ currentExists (step sc i).
Proof.
  intros [Ho He].
  destruct i as [u | k outcome | k outcome | | | text | t | | k outcome];
    cbn [step];
    try (apply (onlyState_invariant_v2 sc); [split; reflexivity | split; assumption]).
  - unfold provide. destruct (sameUsername (usernameOf u) (usernameOf (user sc))).
    + apply (onlyState_invariant_v2 sc); [split; reflexivity | split; assumption].
    + destruct (cleanup_cancels_all_v2 sc Ho He) as [_ Hall].
      destruct (effect_after_cleanup_v2 (withUser u (cleanupEventsEffect sc)) Hall)
        as (Ho' & He' & _).
      apply (onlyState_invariant_v2 _ _ (runTasksEffect_onlyState_v2 _)). split; assumption.
  - destruct (settled_keeps_flags_v2 k outcome sc) as (Hc & Hlen & Hflags). split.
    + intros j f' Hf' Hne. destruct (Hflags j f' Hf') as (f & Hf & ->).
      apply (Ho j f Hf). rewrite <- Hc. exact Hne.
    + intros j Hj. rewrite Hlen. apply He. rewrite <- Hc. exact Hj.
  - apply (onlyState_invariant_v2 sc); [apply tasksSettled_onlyState_v2 | split; assumption].
  - apply (onlyState_invariant_v2 sc);
      [apply handleCreateTask_onlyState_v2 | split; assumption].
  - apply (onlyState_invariant_v2 sc);
      [apply createTaskSettled_onlyState_v2 | split; assumption].
Qed.

Lemma run_invariant_v2 (inputs : list Input) :
  forall sc, othersCancelled sc /\ currentExists sc ->
             othersCancelled (run sc inputs) /\ currentExists (run sc inputs).
Proof.
  induction inputs as [|i rest IH]; intros sc Hinv; [exact Hinv|].
  cbn [run fold_left]. apply IH. apply step_invariant_v2. exact Hinv.
Qed.

Lemma provide_abandons_v2 (u : option User) (k : nat) (sc : Screen) :
  othersCancelled sc /\ currentExists sc ->
  sameUsername (usernameOf u) (usernameOf (user sc)) = false ->
  k < length (fetches sc) ->
  abandoned k (provide u sc).
Proof.
  intros [Ho He] Hchanged Hlt. unfold provide. rewrite Hchanged.
  destruct (cleanup_cancels_all_v2 sc Ho He) as [Hlen Hall].
  destruct (effect_after_cleanup_v2 (withUser u (cleanupEventsEffect sc)) Hall)
    as (_ & _ & Hgrow & Hfresh).
  cbn [withUser fetches] in Hgrow, Hfresh. rewrite Hlen in Hgrow, Hfresh.
  destruct (runTasksEffect_onlyState_v2 (runEventsEffect (withUser u (cleanupEventsEffect sc))))
    as [Hf Hc].
  unfold abandoned. rewrite Hf, Hc. split; [lia | apply Hfresh; exact Hlt].
Qed.

Lemma step_keeps_abandoned_v2 (k : nat) (sc : Screen) (i : Input) :
  othersCancelled sc /\ currentExists sc ->
  abandoned k sc -> abandoned k (step sc i).
Proof.
  intros Hinv [Hlt Hne].
  destruct i as [u | j outcome | j outcome | | | text | t | | j outcome];
    cbn [step]; try (split; assumption).
  - destruct (sameUsername (usernameOf u) (usernameOf (user sc))) eqn:Hsame.
    + unfold provide. rewrite Hsame. split; assumption.
    + apply provide_abandons_v2; assumption.
  - destruct (settled_keeps_flags_v2 j outcome sc) as (Hc & Hlen & _).
    split; [rewrite Hlen; exact Hlt | rewrite Hc; exact Hne].
  - destruct (tasksSettled_onlyState_v2 j outcome sc) as [Hf Hc].
    split; [rewrite Hf; exact Hlt | rewrite Hc; exact Hne].
  - destruct (handleCreateTask_onlyState_v2 sc) as [Hf Hc].
    split; [rewrite Hf; exact Hlt | rewrite Hc; exact Hne].
  - destruct (createTaskSettled_onlyState_v2 j outcome sc) as [Hf Hc].
    split; [rewrite Hf; exact Hlt | rewrite Hc; exact Hne].
Qed.

Lemma run_keeps_abandoned_v2 (k : nat) (inputs : list Input) :
  forall sc, othersCancelled sc /\ currentExists sc ->
             abandoned k sc -> abandoned k (run sc inputs).
Proof.
  induction inputs as [|i rest IH]; intros sc Hinv Hk; [exact Hk|].
  cbn [run fold_left]. apply IH.
  - apply step_invariant_v2. exact Hinv.
  - apply step_keeps_abandoned_v2; assumption.
Qed.

Lemma abandoned_not_applied_v2 (k : nat) (outcome : Outcome (Envelope.t (list EventRecord.t)))
    (sc : Screen) :
  othersCancelled sc -> abandoned k sc ->
  state (eventsSettled k outcome sc) = state sc.
Proof.
  intros Ho [_ Hne]. unfold eventsSettled.
  destruct (nth_error (fetches sc) k) as [f|] eqn:Hf; [|reflexivity].
  destruct (settled f); [reflexivity|].
  rewrite (Ho k f Hf Hne). destruct outcome; reflexivity.
Qed.

(** The events effect of the second revision keeps to the rule as well. *)
Theorem stale_events_never_applied_v2 (u u' : option User) (before later : list Input)
    (k : nat) (outcome : Outcome (Envelope.t (list EventRecord.t))) :
  let sc := run (mount u) before in
  sameUsername (usernameOf u') (usernameOf (user sc)) = false ->
  k < length (fetches sc) ->
  let sc' := run (provide u' sc) later in
  fetchedEvents (state (eventsSettled k outcome sc')) = fetchedEvents (state sc') /\
  loadingEvents (state (eventsSettled k outcome sc')) = loadingEvents (state sc').
Proof.
  intros sc Hchanged Hlt sc'.
  assert (Hinv : othersCancelled sc /\ currentExists sc)
    by (apply run_invariant_v2, mount_invariant_v2).
  assert (Hinv' : othersCancelled (provide u' sc) /\ currentExists (provide u' sc))
    by (apply (step_invariant_v2 sc (Provide u')); exact Hinv).
  assert (Hsame : state (eventsSettled k outcome sc') = state sc').
  { apply abandoned_not_applied_v2.
    - apply run_invariant_v2. exact Hinv'.
    - apply run_keeps_abandoned_v2; [exact Hinv'|].
      apply provide_abandons_v2; assumption. }
  rewrite Hsame. split; reflexivity.
Qed.

(** C4: the tasks effect has no such flag.  [alice]'s screen turns to
    [bob]; [bob]'s answers arrive, then [alice]'s late ones: the events of
    the screen are [bob]'s, its tasks and its finished count are
    [alice]'s. *)
Theorem stale_tasks_applied :
  let final := run (mount alice) usernameRace in
  usernameOf (user final) = Some "bob" /\
  fetchedEvents (state final) = [eventRecord (Some "e-bob") "Bob's meetup"] /\
  tasks (state final)
    = [taskRecord "t-alice-1" "completed"; taskRecord "t-alice-2" "pending"] /\
  finishedCount (state final) = 1 /\
  tasks (state final) <> [taskRecord "t-bob" "pending"].
Proof.
  cbv zeta. repeat split; try reflexivity. discriminate.
Qed.

End EventsEffectV2.

(* ================================================================== *)
(** * Further properties: text                                         *)
(* ================================================================== *)

Module TextFacts.
Import JS Text.

Lemma trimStart_first (s : string) (c : ascii) :
  firstChar (trimStart s) = Some c -> isWhiteSpace c = false.
Proof.
  induction s as [|a rest IH]; cbn [trimStart]; [discriminate|].
  destruct (isWhiteSpace a) eqn:Ha; [exact IH|].
  cbn [firstChar]. intros Heq. injection Heq as <-. exact Ha.
Qed.

Lemma trimEnd_first (s : string) : firstChar (trimEnd s) = None \/ firstChar (trimEnd s) = firstChar s.
Proof.
  destruct s as [|a rest]; [left; reflexivity|].
  cbn [trimEnd]. destruct (trimEnd rest) as [|b kept].
  - destruct (isWhiteSpace a); [left | right]; reflexivity.
  - right. reflexivity.
Qed.

Lemma trimEnd_last (s : string) (c : ascii) :
  lastChar (trimEnd s) = Some c -> isWhiteSpace c = false.
Proof.
  induction s as [|a rest IH]; cbn [trimEnd]; [discriminate|].
  destruct (trimEnd rest) as [|b kept] eqn:Hrest.
  - destruct (isWhiteSpace a) eqn:Ha; [discriminate|].
    cbn [lastChar]. intros Heq. injection Heq as <-. exact Ha.
  - change (lastChar (String a (String b kept))) with (lastChar (String b kept)).
    exact IH.
Qed.

Lemma trim_tidy (s : string) : tidy (trim s).
Proof.
  unfold tidy, trim. split.
  - intros c Hc. destruct (trimEnd_first (trimStart s)) as [Hnone | Hsame].
    + rewrite Hnone in Hc. discriminate.
    + rewrite Hsame in Hc. exact (trimStart_first s c Hc).
  - intros c. apply trimEnd_last.
Qed.

Lemma isEmpty_false (s : string) : isEmpty s = false <-> s <> "".
Proof.
  destruct s as [|a rest]; split; intros H; try discriminate; try congruence;
    reflexivity.
Qed.

Lemma append_empty (s : string) : s ++ "" = s.
Proof.
  induction s as [|a rest IH]; [reflexivity|]. cbn [append]. rewrite IH. reflexivity.
Qed.

Lemma showNat_injective (n m : nat) : showNat n = showNat m -> n = m.
Proof.
  unfold showNat. intros Heq.
  assert (Hd : Nat.to_uint n = Nat.to_uint m).
  { assert (Hsome : Some (Nat.to_uint n) = Some (Nat.to_uint m))
      by (rewrite <- !NilEmpty.usu, Heq; reflexivity).
    injection Hsome as Hsome. exact Hsome. }
  rewrite <- (DecimalNat.Unsigned.of_to n), <- (DecimalNat.Unsigned.of_to m), Hd.
  reflexivity.
Qed.

End TextFacts.

(* ================================================================== *)
(** * Further properties of scripts/database.ts                        *)
(* ================================================================== *)

Module GatewayFacts.
Import JS Database Answers Text TextFacts.

Lemma assoc_app {V : Type} (k : string) (l1 l2 : list (string * V)) :
  assoc k (l1 ++ l2) =
  match assoc k l1 with
  | Some v => Some v
  | None => assoc k l2
  end.
Proof.
  induction l1 as [|[k' v] rest IH]; [reflexivity|].
  cbn [app assoc]. destruct (k =? k'); [reflexivity | exact IH].
Qed.

Lemma assoc_overridden (k : string) (a b : list (string * string)) :
  assoc k (map (fun kv => match assoc (fst kv) b with
                          | Some v => (fst kv, v)
                          | None => kv
                          end) a) =
  match assoc k a with
  | Some va => Some (match assoc k b with Some vb => vb | None => va end)
  | None => None
  end.
Proof.
  induction a as [|[k' v] rest IH]; [reflexivity|].
  cbn [map assoc fst]. destruct (k =? k') eqn:Hk.
  - apply String.eqb_eq in Hk. subst k'.
    destruct (assoc k b); cbn [assoc]; rewrite String.eqb_refl; reflexivity.
  - destruct (assoc k' b); cbn [assoc]; rewrite Hk; exact IH.
Qed.

Lemma assoc_added (k : string) (a b : list (string * string)) :
  assoc k a = None ->
  assoc k (filter (fun kv => match assoc (fst kv) a with
                             | Some _ => false
                             | None => true
                             end) b) = assoc k b.
Proof.
  intros Hnone. induction b as [|[k' v] rest IH]; [reflexivity|].
  cbn [filter assoc fst]. destruct (k =? k') eqn:Hk.
  - apply String.eqb_eq in Hk. subst k'. rewrite Hnone. cbn [assoc].
    rewrite String.eqb_refl. reflexivity.
  - destruct (assoc k' a); [exact IH|]. cbn [assoc]. rewrite Hk. exact IH.
Qed.

Lemma spread_lookup (k : string) (a b : list (string * string)) :
  assoc k (spread a b) =
  match assoc k b with
  | Some v => Some v
  | None => assoc k a
  end.
Proof.
  unfold spread. rewrite assoc_app, assoc_overridden.
  destruct (assoc k a) as [va|] eqn:Ha.
  - destruct (assoc k b); reflexivity.
  - rewrite (assoc_added k a b Ha). destruct (assoc k b); reflexivity.
Qed.

Section Gateway.

Variable API_BASE_URL : string.
Variable JSON_stringify : JsValue -> string.
Variable URLSearchParams_toString : list (string * string) -> string.

Local Abbreviation request := (request API_BASE_URL JSON_stringify).
Local Abbreviation fetchCallOf := (fetchCallOf API_BASE_URL JSON_stringify).
Local Abbreviation buildQueryString := (buildQueryString URLSearchParams_toString).
Local Abbreviation perform :=
  (Gateway.perform API_BASE_URL JSON_stringify URLSearchParams_toString).

(** X1: The headers of a request are the caller's, every one of them, with
    [Content-Type: application/json] added when the caller names no
    [Content-Type] of its own. *)
Theorem request_headers (path : string) (options : JsonRequestOptions) :
  let given := match headers options with Some h => h | None => [] end in
  let sent := fetchHeaders (fetchCallOf path options) in
  (forall k v, assoc k given = Some v -> assoc k sent = Some v) /\
  (assoc "Content-Type" given = None ->
   assoc "Content-Type" sent = Some "application/json") /\
  (forall k, k <> "Content-Type" -> assoc k given = None -> assoc k sent = None).
Proof.
  cbv zeta. unfold Database.fetchCallOf. cbn [fetchHeaders].
  split; [|split].
  - intros k v Hk. rewrite spread_lookup, Hk. reflexivity.
  - intros Hnone. rewrite spread_lookup, Hnone. reflexivity.
  - intros k Hne Hnone. rewrite spread_lookup, Hnone. unfold defaultHeaders.
    cbn [assoc]. destruct (k =? "Content-Type") eqn:Hk; [|reflexivity].
    apply String.eqb_eq in Hk. contradiction.
Qed.

Lemma query_of_sent (entries : list (string * QueryValue)) :
  flat_map (fun kv => match snd kv with
                      | QUndefined | QNull => []
                      | value => [(fst kv, queryString value)]
                      end) entries
  = flat_map (fun kv => match snd kv with
                        | QUndefined | QNull => []
                        | value => [(fst kv, queryString value)]
                        end) (filter (fun kv => isSent (snd kv)) entries).
Proof.
  induction entries as [|[k v] rest IH]; [reflexivity|].
  cbn [filter flat_map snd fst].
  destruct v; cbn [isSent app flat_map snd fst]; rewrite IH; reflexivity.
Qed.

(** X2: Parameters whose value is [undefined] or [null] leave no trace in the
    query string, which is empty or a question mark before a non-empty
    text, never a bare question mark. *)
Theorem buildQueryString_sent_only (entries : list (string * QueryValue)) :
  buildQueryString (Some entries)
    = buildQueryString (Some (filter (fun kv => isSent (snd kv)) entries)) /\
  (buildQueryString (Some entries) = "" \/
   exists text, text <> "" /\ buildQueryString (Some entries) = "?" ++ text) /\
  buildQueryString None = "".
Proof.
  split; [|split; [|reflexivity]].
  - unfold Database.buildQueryString. rewrite <- query_of_sent. reflexivity.
  - unfold Database.buildQueryString.
    destruct (isEmpty (URLSearchParams_toString _)) eqn:He; [left; reflexivity|].
    right. eexists. split; [|reflexivity]. apply isEmpty_false. exact He.
Qed.

(** X3: The message of a failed request is never empty. *)
Theorem request_error_message_nonempty (path : string) (options : JsonRequestOptions)
    (net : Network) (calls : list FetchCall) (response : Response) :
  net (fetchCallOf path options) = Returns response ->
  ok response = false ->
  exists message,
    fst (request path options net calls) = Throws (Error message) /\ message <> "".
Proof.
  intros Hnet Hok. unfold Database.request. rewrite Hnet, Hok. cbn [negb fst].
  eexists. split; [reflexivity|].
  unfold serializeError.
  set (body := match json response with Returns parsed => parsed | Throws _ => JNull end).
  assert (Hdefault : "Request failed with status " ++ showNat (status response) <> "")
    by discriminate.
  destruct (truthy body && (typeof body =? "object") && negb (isNullish body));
    [|exact Hdefault].
  destruct (member body "error") as [| | b | n | m | items | fields]; try exact Hdefault.
  destruct m as [|c rest]; [exact Hdefault | discriminate].
Qed.

Lemma andThen_calls {A B : Type} (p : Net A) (f : A -> Outcome B) (net : Network)
    (calls : list FetchCall) :
  snd (andThen p f net calls) = snd (p net calls).
Proof.
  unfold andThen. destruct (p net calls). reflexivity.
Qed.

Lemma request_calls (path : string) (options : JsonRequestOptions) (net : Network)
    (calls : list FetchCall) :
  snd (request path options net calls) = (calls ++ [fetchCallOf path options])%list.
Proof.
  unfold Database.request.
  destruct (net (fetchCallOf path options)) as [response | e]; [|reflexivity].
  destruct (negb (ok response)); reflexivity.
Qed.

(** X4: Whatever the network answers, every operation of the gateway calls
    [fetch] exactly once, with the credentials included, at the base URL
    followed by the path of the operation; a POST operation sends its
    payload as JSON text and no query, a GET operation sends no body. *)
Theorem perform_one_fetch (op : Gateway.Operation) (net : Network)
    (calls : list FetchCall) :
  exists call query,
    snd (perform op net calls) = (calls ++ [call])%list /\
    fetchCredentials call = "include" /\
    fetchUrl call = API_BASE_URL ++ Gateway.pathOf op ++ query /\
    match Gateway.payloadOf op with
    | Some payload =>
        fetchMethod call = Some "POST" /\ query = "" /\
        fetchBody call = Some (JSON_stringify payload)
    | None => fetchMethod call = Some "GET" /\ fetchBody call = None
    end.
Proof.
  destruct op; cbn [Gateway.perform Gateway.pathOf Gateway.payloadOf];
    unfold Gateway.login, Gateway.register, Gateway.updateUser, Gateway.createEvent,
      Gateway.updateEvent, Gateway.createTask, Gateway.updateTask, Gateway.deleteTask,
      Gateway.addConnection, Gateway.removeConnection, Gateway.logout, Gateway.getEvents,
      Gateway.getEvent, Gateway.getTask, Gateway.getEventTasks, Gateway.getConnections,
      Database.getFinishedTasks, Database.getUserTasks, post, get;
    rewrite ?andThen_calls, request_calls;
    eexists; eexists; (split; [reflexivity|]); (split; [reflexivity|]);
    cbn [fetchUrl fetchMethod fetchBody Database.fetchCallOf method body option_map];
    try (split; [rewrite append_empty; reflexivity
                | split; [reflexivity | split; reflexivity]]);
    (split; [reflexivity | split; reflexivity]).
Qed.

End Gateway.

Import Examples.

Lemma request_headers_witness :
  assoc "Content-Type"
    (fetchHeaders (Database.fetchCallOf base stringify "/logout"
                     {| method := Some "GET"; headers := Some [("Accept", "text/plain")];
                        body := None |}))
  = Some "application/json".
Proof.
  apply (proj1 (proj2 (request_headers base stringify "/logout"
                         {| method := Some "GET"; headers := Some [("Accept", "text/plain")];
                            body := None |}))).
  reflexivity.
Defined.

Lemma request_error_message_nonempty_witness :
  exists message,
    fst (Database.request base stringify "/login" loginOptions (always emptyError) [])
      = Throws (Error message) /\ message <> "".
Proof.
  exact (request_error_message_nonempty base stringify "/login" loginOptions
           (always emptyError) [] emptyError eq_refl eq_refl).
Defined.

End GatewayFacts.

(* ================================================================== *)
(** * Further properties: the base URL                                 *)
(* ================================================================== *)

Module ApiBaseFacts.
Import JS ApiBase Shapes TextFacts.

Section Resolve.

Variable URL_hostname : string -> Outcome string.

Local Abbreviation parseHostFromValue := (parseHostFromValue URL_hostname).
Local Abbreviation firstHost := (firstHost URL_hostname).
Local Abbreviation resolveApiBaseUrl := (resolveApiBaseUrl URL_hostname).

Lemma accepted_remote (host : string) :
  negb (isEmpty host) && negb (isLocalAlias host) = true -> remoteHost host.
Proof.
  intros Hok. apply andb_true_iff in Hok. destruct Hok as [Hfull Hremote].
  apply negb_true_iff in Hfull, Hremote. unfold remoteHost.
  split; [apply isEmpty_false; exact Hfull|].
  unfold isLocalAlias, LOCALHOST_ALIASES in Hremote. cbn [existsb] in Hremote.
  repeat (apply orb_false_iff in Hremote; destruct Hremote as [?H Hremote]).
  repeat split; intros ->; cbn in *; discriminate.
Qed.

Lemma parsed_host_remote (value : option string) (host : string) :
  parseHostFromValue value = Some host -> remoteHost host.
Proof.
  unfold ApiBase.parseHostFromValue. destruct value as [text|]; [|discriminate].
  destruct (isEmpty text); [discriminate|].
  destruct (URL_hostname _) as [parsed|e].
  - destruct (negb (isEmpty parsed) && negb (isLocalAlias parsed)) eqn:Hok; [|discriminate].
    intros Heq. injection Heq as <-. apply accepted_remote. exact Hok.
  - destruct (negb (isEmpty (beforeColon text)) && negb (isLocalAlias (beforeColon text)))
      eqn:Hok; [|discriminate].
    intros Heq. injection Heq as <-. apply accepted_remote. exact Hok.
Qed.

(** X5: [parseHostFromValue] never answers the empty host nor a member of
    [LOCALHOST_ALIASES], whatever it is given and whether the text parses
    as a URL or not. *)
Theorem parseHostFromValue_remote (value : option string) (host : string) :
  parseHostFromValue value = Some host -> remoteHost host.
Proof. apply parsed_host_remote. Qed.

Lemma firstHost_found (values : list (option string)) (host : string) :
  firstHost values = Some host ->
  exists candidate, In candidate values /\ parseHostFromValue candidate = Some host.
Proof.
  induction values as [|candidate rest IH]; [discriminate|].
  cbn [ApiBase.firstHost]. destruct (parseHostFromValue candidate) as [found|] eqn:Hparse.
  - destruct (isEmpty found).
    + intros Hrest. destruct (IH Hrest) as (c & Hin & Hc).
      exists c. split; [right; exact Hin | exact Hc].
    + intros Heq. injection Heq as <-. exists candidate.
      split; [left; reflexivity | exact Hparse].
  - intros Hrest. destruct (IH Hrest) as (c & Hin & Hc).
    exists c. split; [right; exact Hin | exact Hc].
Qed.

Lemma firstHost_none (values : list (option string)) :
  (forall candidate, In candidate values -> parseHostFromValue candidate = None) ->
  firstHost values = None.
Proof.
  induction values as [|candidate rest IH]; intros Hall; [reflexivity|].
  cbn [ApiBase.firstHost]. rewrite (Hall candidate (or_introl eq_refl)).
  apply IH. intros c Hc. apply Hall. right. exact Hc.
Qed.

(** X6: The base URL is the configured one whenever that is not empty;
    otherwise it is [http://<host>:3000], the host being one that a hint
    of the development server parses to, which is not empty and is none of
    the three texts of [LOCALHOST_ALIASES], or else the default
    [localhost], which is the host in particular when no hint yields one.
    The aliases are compared as texts: a host written [[::1]] or
    [Localhost] is not one of them. *)
Theorem resolveApiBaseUrl_shape (configuredUrl : option string) (hints : HostHints) :
  (forall url, configuredUrl = Some url -> url <> "" ->
               resolveApiBaseUrl configuredUrl hints = url) /\
  (configuredUrl = None \/ configuredUrl = Some "" ->
   exists host,
     resolveApiBaseUrl configuredUrl hints = "http://" ++ host ++ ":3000" /\
     (host = "localhost" \/
      remoteHost host /\
      exists candidate,
        In candidate (candidates hints) /\ parseHostFromValue candidate = Some host)) /\
  (configuredUrl = None \/ configuredUrl = Some "" ->
   (forall candidate, In candidate (candidates hints) ->
                      parseHostFromValue candidate = None) ->
   resolveApiBaseUrl configuredUrl hints = "http://localhost:3000").
Proof.
  split; [|split].
  - intros url -> Hfull. unfold ApiBase.resolveApiBaseUrl.
    apply isEmpty_false in Hfull. rewrite Hfull. reflexivity.
  - intros Hunset.
    assert (Hderived : resolveApiBaseUrl configuredUrl hints =
                       "http://" ++
                       match getDevelopmentHostFromConstants URL_hostname hints with
                       | Some host => host
                       | None => DEFAULT_API_HOST
                       end ++ ":3000")
      by (destruct Hunset as [-> | ->]; reflexivity).
    rewrite Hderived. unfold getDevelopmentHostFromConstants.
    destruct (firstHost (candidates hints)) as [host|] eqn:Hfirst.
    + exists host. split; [reflexivity|]. right.
      destruct (firstHost_found _ _ Hfirst) as (candidate & Hin & Hparse).
      split; [exact (parsed_host_remote candidate host Hparse)|].
      exists candidate. split; assumption.
    + exists "localhost". split; [reflexivity | left; reflexivity].
  - intros Hunset Hnone.
    assert (Hfirst : firstHost (candidates hints) = None) by (apply firstHost_none; exact Hnone).
    destruct Hunset as [-> | ->]; unfold ApiBase.resolveApiBaseUrl,
      getDevelopmentHostFromConstants; cbn [isEmpty String.eqb]; rewrite Hfirst; reflexivity.
Qed.

End Resolve.

Import MoreExamples.

Lemma parseHostFromValue_remote_witness : remoteHost "192.168.1.20".
Proof.
  exact (parseHostFromValue_remote noUrl (Some "192.168.1.20:8081") "192.168.1.20" eq_refl).
Defined.

Lemma resolveApiBaseUrl_shape_witness :
  ApiBase.resolveApiBaseUrl noUrl (Some "") noHints = "http://localhost:3000".
Proof.
  apply (proj2 (proj2 (resolveApiBaseUrl_shape noUrl (Some "") noHints))).
  - right. reflexivity.
  - intros candidate Hin. cbn in Hin.
    repeat (destruct Hin as [<- | Hin]; [reflexivity|]). destruct Hin.
Defined.

Example base_url_on_the_local_network :
  ApiBase.resolveApiBaseUrl noUrl None lanHints = "http://192.168.1.20:3000" /\
  ApiBase.resolveApiBaseUrl noUrl (Some "https://api.example.org") lanHints
    = "https://api.example.org".
Proof. split; reflexivity. Qed.

(** The aliases are texts: another spelling of the local machine passes. *)
Example base_url_of_another_spelling :
  ApiBase.resolveApiBaseUrl noUrl None capitalHints = "http://Localhost:3000".
Proof. reflexivity. Qed.

End ApiBaseFacts.

(* ================================================================== *)
(** * Further properties of the camera screen                          *)
(* ================================================================== *)

Module CameraFacts.
Import JS React Camera Text Shapes Answers TextFacts.

Lemma stripPrefix_split (p s rest : string) :
  stripPrefix p s = Some rest -> s = p ++ rest.
Proof.
  revert s. induction p as [|a p' IH]; intros s Hs; cbn [stripPrefix] in Hs.
  - injection Hs as <-. reflexivity.
  - destruct s as [|b s']; [discriminate|].
    destruct (Ascii.eqb a b) eqn:Hab; [|discriminate].
    apply Ascii.eqb_eq in Hab. subst b. cbn [append]. rewrite (IH s' Hs). reflexivity.
Qed.

Lemma stripPrefix_append (p rest : string) : stripPrefix p (p ++ rest) = Some rest.
Proof.
  induction p as [|a p' IH]; [reflexivity|].
  cbn [append stripPrefix]. rewrite Ascii.eqb_refl. exact IH.
Qed.

Lemma nameRun_split (s : string) :
  exists rest, s = nameRun s ++ rest /\ nameChars (nameRun s) = true /\ endsName rest = true.
Proof.
  induction s as [|c s' IH].
  - exists "". repeat split.
  - cbn [nameRun]. destruct (isNameChar c) eqn:Hc.
    + destruct IH as (rest & Hs & Hname & Hrest). exists rest. cbn [append nameChars].
      rewrite Hc, Hname. rewrite <- Hs. repeat split. exact Hrest.
    + exists (String c s'). cbn [append nameChars endsName]. rewrite Hc. repeat split.
Qed.

Lemma nameRun_append (name rest : string) :
  nameChars name = true -> endsName rest = true -> nameRun (name ++ rest) = name.
Proof.
  intros Hname Hrest. induction name as [|c name' IH].
  - destruct rest as [|c rest']; [reflexivity|]. cbn [append nameRun].
    cbn [endsName] in Hrest. apply negb_true_iff in Hrest. rewrite Hrest. reflexivity.
  - cbn [nameChars] in Hname. apply andb_true_iff in Hname. destruct Hname as [Hc Hname'].
    cbn [append nameRun]. rewrite Hc, (IH Hname'). reflexivity.
Qed.

Lemma matchProfile_sound (s name : string) :
  matchProfile s = Some name ->
  exists rest,
    s = "linkedin.com/in/" ++ name ++ rest /\
    name <> "" /\ nameChars name = true /\ endsName rest = true.
Proof.
  unfold matchProfile, matchName.
  destruct (stripPrefix "linkedin.com/in/" s) as [after|] eqn:Hstrip; [|discriminate].
  destruct (isEmpty (nameRun after)) eqn:Hempty; [discriminate|].
  intros Heq. injection Heq as <-.
  destruct (nameRun_split after) as (rest & Hafter & Hname & Hrest).
  exists rest. split; [|split; [apply isEmpty_false; exact Hempty | split; assumption]].
  rewrite (stripPrefix_split _ _ _ Hstrip). rewrite <- Hafter. reflexivity.
Qed.

Lemma optionally_sound (p : string) (k : string -> option string) (s found : string) :
  optionally p k s = Some found ->
  (exists rest, s = p ++ rest /\ k rest = Some found) \/ k s = Some found.
Proof.
  unfold optionally. destruct (stripPrefix p s) as [rest|] eqn:Hstrip.
  - destruct (k rest) as [x|] eqn:Hk.
    + intros Heq. injection Heq as <-. left. exists rest.
      split; [exact (stripPrefix_split _ _ _ Hstrip) | exact Hk].
    + intros Hs. right. exact Hs.
  - intros Hs. right. exact Hs.
Qed.

Lemma matchAuthority_sound (s name : string) :
  matchAuthority s = Some name ->
  exists (www : bool) (rest : string),
    s = "://" ++ (if www then "www." else "") ++ "linkedin.com/in/" ++ name ++ rest /\
    name <> "" /\ nameChars name = true /\ endsName rest = true.
Proof.
  unfold matchAuthority.
  destruct (stripPrefix "://" s) as [after|] eqn:Hstrip; [|discriminate].
  intros Hfound. rewrite (stripPrefix_split _ _ _ Hstrip).
  destruct (optionally_sound _ _ _ _ Hfound) as [(inner & Hafter & Hprofile) | Hprofile].
  - destruct (matchProfile_sound _ _ Hprofile) as (rest & Hinner & Hrest).
    exists true, rest. split; [|exact Hrest]. rewrite Hafter, Hinner. reflexivity.
  - destruct (matchProfile_sound _ _ Hprofile) as (rest & Hinner & Hrest).
    exists false, rest. split; [|exact Hrest]. rewrite Hinner. reflexivity.
Qed.

Lemma extractLinkedInUsername_named (url name : string) :
  extractLinkedInUsername url = Some name -> name <> "".
Proof.
  unfold extractLinkedInUsername.
  destruct (stripPrefix "http" url) as [after|]; [|discriminate].
  intros Hfound.
  destruct (optionally_sound _ _ _ _ Hfound) as [(inner & _ & Hauth) | Hauth];
    destruct (matchAuthority_sound _ _ Hauth) as (www & rest & _ & Hne & _); exact Hne.
Qed.

(** X7: What [extractLinkedInUsername] answers is a name found in the address:
    the address is [http://] or [https://], then [www.] or nothing, then
    [linkedin.com/in/], then the name, which is not empty and holds no
    slash and no question mark, and then nothing or a slash or a question
    mark and anything. *)
Theorem extractLinkedInUsername_sound (url name : string) :
  extractLinkedInUsername url = Some name ->
  exists secure www rest,
    url = profileUrl secure www name rest /\
    name <> "" /\ nameChars name = true /\ endsName rest = true.
Proof.
  unfold extractLinkedInUsername, profileUrl.
  destruct (stripPrefix "http" url) as [after|] eqn:Hstrip; [|discriminate].
  intros Hfound. rewrite (stripPrefix_split _ _ _ Hstrip).
  destruct (optionally_sound _ _ _ _ Hfound) as [(inner & Hafter & Hauth) | Hauth].
  - destruct (matchAuthority_sound _ _ Hauth) as (www & rest & Hinner & Hrest).
    exists true, www, rest. split; [|exact Hrest]. rewrite Hafter, Hinner. reflexivity.
  - destruct (matchAuthority_sound _ _ Hauth) as (www & rest & Hinner & Hrest).
    exists false, www, rest. split; [|exact Hrest]. rewrite Hinner. reflexivity.
Qed.

(** X8: Every profile address yields its name: with either scheme, with or
    without [www.], whatever follows the name after a slash or a question
    mark. *)
Theorem extractLinkedInUsername_complete (secure www : bool) (name rest : string) :
  name <> "" -> nameChars name = true -> endsName rest = true ->
  extractLinkedInUsername (profileUrl secure www name rest) = Some name.
Proof.
  intros Hfull Hname Hrest.
  assert (Hprofile : matchProfile ("linkedin.com/in/" ++ name ++ rest) = Some name).
  { unfold matchProfile. rewrite stripPrefix_append. unfold matchName.
    rewrite (nameRun_append name rest Hname Hrest).
    apply isEmpty_false in Hfull. rewrite Hfull. reflexivity. }
  assert (Hauthority :
    matchAuthority ("://" ++ (if www then "www." else "") ++
                    "linkedin.com/in/" ++ name ++ rest) = Some name).
  { unfold matchAuthority. rewrite stripPrefix_append. unfold optionally.
    destruct www.
    - rewrite stripPrefix_append, Hprofile. reflexivity.
    - change ("" ++ "linkedin.com/in/" ++ name ++ rest)
        with ("linkedin.com/in/" ++ name ++ rest).
      change (stripPrefix "www." ("linkedin.com/in/" ++ name ++ rest)) with (@None string).
      exact Hprofile. }
  unfold extractLinkedInUsername, profileUrl. rewrite stripPrefix_append. unfold optionally.
  destruct secure.
  - rewrite stripPrefix_append, Hauthority. reflexivity.
  - change ("" ++ "://" ++ (if www then "www." else "") ++ "linkedin.com/in/" ++ name ++ rest)
      with ("://" ++ (if www then "www." else "") ++ "linkedin.com/in/" ++ name ++ rest).
    change (stripPrefix "s" ("://" ++ (if www then "www." else "") ++
                              "linkedin.com/in/" ++ name ++ rest)) with (@None string).
    exact Hauthority.
Qed.

(** ** The handler of a scan *)

(** X9: [createTask] is called exactly when [addConnection] has answered with
    [success: true]; when it was refused or rejected, nothing more is
    called and the screen shows [Error: ] and the message. *)
Theorem createTask_only_after_connection (sc : Screen) (k : nat) (scan : Scan)
    (outcome : Outcome (Envelope.t (list (string * JsValue)))) :
  nth_error (scans sc) k = Some scan ->
  stage scan = AwaitingConnection ->
  let sc' := connectionSettled k outcome sc in
  (failed outcome ->
   calls sc' = calls sc /\
   Camera.statusMessage (state sc')
     = Some ("Error: " ++ failureMessage "Failed to add connection" outcome) /\
   timers sc' = S (timers sc)) /\
  (forall response,
     outcome = Returns response -> Envelope.success response = true ->
     calls sc' =
       (calls sc ++
        [CreateTask (scannedBy scan)
           ("Connect with " ++ linkedInUsername scan ++ " on LinkedIn: " ++ linkedInUrl scan)
           "Connect"])%list /\
     Camera.statusMessage (state sc') = Camera.statusMessage (state sc) /\
     timers sc' = timers sc).
Proof.
  intros Hscan Hstage sc'. subst sc'. unfold connectionSettled. rewrite Hscan, Hstage.
  split.
  - destruct outcome as [response|err]; cbn [failed].
    + intros Hrefused. rewrite Hrefused. cbn [negb]. repeat split.
    + intros _. repeat split.
  - intros response -> Hsuccess. rewrite Hsuccess. cbn [negb]. repeat split.
Qed.

Lemma count_setNth {A : Type} (f : A -> bool) (y : A) (l : list A) :
  forall k x,
    nth_error l k = Some x ->
    length (filter f (setNth k y l)) + (if f x then 1 else 0)
    = length (filter f l) + (if f y then 1 else 0).
Proof.
  induction l as [|a rest IH]; intros [|k] x Hx; cbn [nth_error] in Hx; try discriminate.
  - injection Hx as <-. cbn [setNth filter]. destruct (f a), (f y); cbn [length]; lia.
  - cbn [setNth filter]. specialize (IH k x Hx). destruct (f a); cbn [length]; lia.
Qed.

Lemma count_snoc {A : Type} (f : A -> bool) (l : list A) (x : A) :
  length (filter f (l ++ [x])) = length (filter f l) + (if f x then 1 else 0).
Proof.
  rewrite filter_app, length_app. cbn [filter]. destruct (f x); reflexivity.
Qed.

Lemma finishing_keeps_count (sc : Screen) (k : nat) (scan : Scan) (st : Stage) :
  nth_error (scans sc) k = Some scan ->
  unfinished scan = true ->
  length (filter unfinished (scans (setStage k scan st sc)))
    + (if unfinished {| scannedBy := scannedBy scan; linkedInUrl := linkedInUrl scan;
                        linkedInUsername := linkedInUsername scan; stage := st |}
       then 0 else 1)
  = length (filter unfinished (scans sc)).
Proof.
  intros Hscan Hopen. unfold setStage. cbn [withScans scans].
  set (next := {| scannedBy := scannedBy scan; linkedInUrl := linkedInUrl scan;
                  linkedInUsername := linkedInUsername scan; stage := st |}).
  pose proof (count_setNth unfinished next (scans sc) k scan Hscan) as Hcount.
  rewrite Hopen in Hcount.
  destruct (unfinished next); lia.
Qed.

Lemma step_locked (sc : Screen) (i : Input) :
  locked sc ->
  match i with
  | Scanned _ => scannedThen (rendered sc) = scanned (state sc)
  | _ => True
  end ->
  locked (step sc i).
Proof.
  unfold locked, inProgress. intros Hinv Hcurrent.
  destruct i as [u | | url | k outcome | k outcome | ]; cbn [step].
  - exact Hinv.
  - exact Hinv.
  - unfold handleBarcodeScanned. rewrite Hcurrent.
    destruct (scanned (state sc)) eqn:Hscanned; rewrite ?Hscanned in Hinv;
      rewrite ?Hscanned; [exact Hinv|].
    destruct (extractLinkedInUsername url) as [name|].
    + destruct (isEmpty name); [cbn; lia|].
      destruct (isEmpty (usernameThen (rendered sc))); [cbn; lia|].
      cbn [logCall withScans withState scans timers state setScanned scanned].
      rewrite count_snoc. cbn [unfinished stage]. lia.
    + cbn. lia.
  - unfold connectionSettled.
    destruct (nth_error (scans sc) k) as [scan|] eqn:Hscan; [|exact Hinv].
    destruct (stage scan) eqn:Hstage; try exact Hinv.
    assert (Hopen : unfinished scan = true) by (unfold unfinished; rewrite Hstage; reflexivity).
    pose proof (finishing_keeps_count sc k scan Finished Hscan Hopen) as Hdone.
    pose proof (finishing_keeps_count sc k scan AwaitingTask Hscan Hopen) as Hnext.
    cbn [unfinished stage] in Hdone, Hnext.
    destruct outcome as [response|err];
      [destruct (Envelope.success response)|]; cbn [negb]; unfold failWith;
      cbn [startTimer logCall withState scans timers state setStatusMessage scanned];
      change (state (setStage k scan Finished sc)) with (state sc);
      change (state (setStage k scan AwaitingTask sc)) with (state sc);
      change (timers (setStage k scan Finished sc)) with (timers sc);
      change (timers (setStage k scan AwaitingTask sc)) with (timers sc);
      destruct (scanned (state sc)); lia.
  - unfold taskSettled.
    destruct (nth_error (scans sc) k) as [scan|] eqn:Hscan; [|exact Hinv].
    destruct (stage scan) eqn:Hstage; try exact Hinv.
    assert (Hopen : unfinished scan = true) by (unfold unfinished; rewrite Hstage; reflexivity).
    pose proof (finishing_keeps_count sc k scan Finished Hscan Hopen) as Hdone.
    cbn [unfinished stage] in Hdone.
    destruct outcome as [response|err];
      [destruct (Envelope.success response)|]; cbn [negb]; unfold failWith;
      cbn [startTimer logCall withState scans timers state setStatusMessage scanned];
      change (state (setStage k scan Finished sc)) with (state sc);
      change (timers (setStage k scan Finished sc)) with (timers sc);
      destruct (scanned (state sc)); lia.
  - unfold timerFired. destruct (timers sc) as [|n] eqn:Htimers;
      [rewrite Htimers; exact Hinv|].
    cbn [scans timers state setStatusMessage setScanned scanned].
    destruct (scanned (state sc)); lia.
Qed.

Lemma run_locked (inputs : list Input) :
  forall sc, locked sc -> handlersCurrent sc inputs = true -> locked (run sc inputs).
Proof.
  induction inputs as [|i rest IH]; intros sc Hinv Hcurrent; [exact Hinv|].
  cbn [handlersCurrent] in Hcurrent. apply andb_true_iff in Hcurrent.
  destruct Hcurrent as [Hhead Hrest].
  cbn [run fold_left]. apply IH; [|exact Hrest]. apply step_locked; [exact Hinv|].
  destruct i; try exact I. apply Bool.eqb_prop. exact Hhead.
Qed.

(** X10: The [scanned] guard is the one of the render that made the
    handler.  As long as every bar code reaches a handler made since the
    [scanned] cell last changed, at most one scan is in progress, its
    handler unfinished or its timer pending, and while one is, the handler
    of a new render changes nothing and calls nothing at another bar code.
    Two bar codes that reach the handler of one render are both handled:
    with a user at hand and a profile address, [addConnection] is called
    twice. *)
Theorem one_scan_at_a_time :
  (forall u inputs,
     handlersCurrent (mount u) inputs = true ->
     let sc := run (mount u) inputs in
     inProgress sc <= 1 /\
     (inProgress sc = 1 -> forall url, handleBarcodeScanned url (render sc) = render sc)) /\
  (forall sc url name,
     scannedThen (rendered sc) = false ->
     usernameThen (rendered sc) <> "" ->
     extractLinkedInUsername url = Some name ->
     let note := "LinkedIn connection" ++ String (ascii_of_nat 10) "LinkedIn URL: " ++ url in
     let sc' := handleBarcodeScanned url (handleBarcodeScanned url sc) in
     calls sc' =
       (calls sc ++ [AddConnection (usernameThen (rendered sc)) name note;
                     AddConnection (usernameThen (rendered sc)) name note])%list /\
     inProgress sc' = inProgress sc + 2).
Proof.
  split.
  - intros u inputs Hcurrent sc.
    assert (Hinv : locked sc) by (apply run_locked; [reflexivity | exact Hcurrent]).
    unfold locked in Hinv. split.
    + rewrite Hinv. destruct (scanned (state sc)); lia.
    + intros Hone url. unfold handleBarcodeScanned, render. cbn [rendered scannedThen].
      destruct (scanned (state sc)); [reflexivity|]. rewrite Hone in Hinv. discriminate.
  - intros sc url name Hfresh Huser Hname note sc'. subst sc' note.
    apply isEmpty_false in Huser.
    assert (Hfull : isEmpty name = false)
      by (apply isEmpty_false; exact (extractLinkedInUsername_named url name Hname)).
    assert (Hstep : forall s,
              rendered s = rendered sc ->
              handleBarcodeScanned url s =
              logCall
                (AddConnection (usernameThen (rendered sc)) name
                   ("LinkedIn connection" ++ String (ascii_of_nat 10) "LinkedIn URL: " ++ url))
                (withScans
                   (scans s ++ [{| scannedBy := usernameThen (rendered sc); linkedInUrl := url;
                                   linkedInUsername := name;
                                   stage := AwaitingConnection |}])%list
                   (withState (setScanned true) s))).
    { intros s Hs. unfold handleBarcodeScanned.
      rewrite Hs, Hfresh, Hname, Hfull, Huser. reflexivity. }
    rewrite (Hstep sc eq_refl), Hstep by reflexivity.
    unfold inProgress. cbn [logCall withScans withState calls scans timers].
    split; [rewrite <- app_assoc; reflexivity|].
    rewrite !count_snoc. cbn [unfinished stage]. lia.
Qed.

End CameraFacts.

(* ================================================================== *)
(** * Further properties of the people screen                          *)
(* ================================================================== *)

Module PeopleRowFacts.
Import JS React PeopleView Text TextFacts.

Lemma positive_length (s : string) : (0 <? String.length s)%nat = true <-> s <> "".
Proof.
  destruct s as [|c rest]; split; intros H; try discriminate; try congruence; reflexivity.
Qed.

(** X11: The title of a row is never blank: it is the first of
    [connectionName], [name], [username], [id] and [_id] that is a string
    with something else than white space in it, and [Connection] when
    there is none. *)
Theorem getConnectionName_never_blank (connection : Connection) :
  trim (getConnectionName connection) <> "" /\
  (getConnectionName connection = "Connection" \/
   exists key,
     In key ["connectionName"; "name"; "username"; "id"; "_id"] /\
     member (JObj connection) key = JStr (getConnectionName connection)) /\
  (forall s,
     member (JObj connection) "connectionName" = JStr s -> trim s <> "" ->
     getConnectionName connection = s).
Proof.
  unfold getConnectionName.
  set (candidates := [member (JObj connection) "connectionName";
                      member (JObj connection) "name";
                      member (JObj connection) "username";
                      member (JObj connection) "id";
                      member (JObj connection) "_id"]).
  split; [|split].
  - destruct (find isNamed candidates) as [v|] eqn:Hfind; [|discriminate].
    destruct (find_some _ _ Hfind) as [_ Hnamed].
    destruct v; try discriminate. cbn [isNamed] in Hnamed.
    apply positive_length. exact Hnamed.
  - destruct (find isNamed candidates) as [v|] eqn:Hfind; [|left; reflexivity].
    destruct (find_some _ _ Hfind) as [Hin _].
    destruct v; try (left; reflexivity). right.
    subst candidates. cbn [In] in Hin.
    destruct Hin as [H | [H | [H | [H | [H | []]]]]];
      [exists "connectionName" | exists "name" | exists "username" | exists "id"
       | exists "_id"];
      (split; [cbn; tauto | exact H]).
  - intros s Hfield Hfull. subst candidates. cbn [find]. rewrite Hfield.
    cbn [isNamed]. apply positive_length in Hfull. rewrite Hfull. reflexivity.
Qed.

Lemma singleSpaced_weaken (b : bool) (s : string) :
  singleSpacedFrom b s = true -> singleSpacedFrom false s = true.
Proof.
  destruct s as [|c rest]; [reflexivity|]. cbn [singleSpacedFrom].
  destruct (isWhiteSpace c); [|intros H; exact H].
  destruct b; [|intros H; exact H].
  rewrite andb_false_r. discriminate.
Qed.

Lemma collapseFrom_singleSpaced (s : string) :
  forall inRun, singleSpacedFrom inRun (collapseFrom inRun s) = true.
Proof.
  induction s as [|c rest IH]; intros inRun; [reflexivity|].
  cbn [collapseFrom]. destruct (isWhiteSpace c) eqn:Hc.
  - destruct inRun; [apply IH|]. cbn [singleSpacedFrom].
    change (isWhiteSpace " ") with true. cbv iota.
    rewrite Ascii.eqb_refl. cbn [negb andb]. apply IH.
  - cbn [singleSpacedFrom]. rewrite Hc. apply IH.
Qed.

Lemma trimStart_singleSpaced (s : string) :
  forall b, singleSpacedFrom b s = true -> singleSpacedFrom false (trimStart s) = true.
Proof.
  induction s as [|c rest IH]; intros b Hs; [reflexivity|].
  cbn [singleSpacedFrom] in Hs. cbn [trimStart]. destruct (isWhiteSpace c) eqn:Hc.
  - apply andb_true_iff in Hs. destruct Hs as [_ Hrest]. exact (IH true Hrest).
  - cbn [singleSpacedFrom]. rewrite Hc. exact Hs.
Qed.

Lemma trimEnd_singleSpaced (s : string) :
  forall b, singleSpacedFrom b s = true -> singleSpacedFrom b (trimEnd s) = true.
Proof.
  induction s as [|c rest IH]; intros b Hs; [reflexivity|].
  cbn [singleSpacedFrom] in Hs. cbn [trimEnd]. destruct (isWhiteSpace c) eqn:Hc.
  - apply andb_true_iff in Hs. destruct Hs as [Hblank Hrest].
    specialize (IH true Hrest). destruct (trimEnd rest) as [|d kept]; [reflexivity|].
    cbn [singleSpacedFrom]. rewrite Hc, Hblank. exact IH.
  - specialize (IH false Hs). destruct (trimEnd rest) as [|d kept].
    + cbn [singleSpacedFrom]. rewrite Hc. reflexivity.
    + change (singleSpacedFrom b (String c (String d kept)))
        with (if isWhiteSpace c
              then Ascii.eqb c " " && negb b && singleSpacedFrom true (String d kept)
              else singleSpacedFrom false (String d kept)).
      rewrite Hc. exact IH.
Qed.

Lemma cleaned_one_line (text : string) :
  tidy (trim (collapse text)) /\ singleSpaced (trim (collapse text)) = true.
Proof.
  split; [apply trim_tidy|].
  unfold singleSpaced, trim, collapse.
  apply trimEnd_singleSpaced. apply (trimStart_singleSpaced _ false).
  apply collapseFrom_singleSpaced.
Qed.

Lemma placeholder_one_line :
  tidy "Tap + to add notes" /\ singleSpaced "Tap + to add notes" = true.
Proof.
  split; [|reflexivity]. split; intros c Hc; injection Hc as <-; reflexivity.
Qed.

(** X12: The subtitle of a row is never empty and fits one line: no white
    space at its ends, no line break or tab inside, never two blanks in a
    row. *)
Theorem getConnectionSubtitle_one_line (connection : Connection) :
  getConnectionSubtitle connection <> "" /\
  tidy (getConnectionSubtitle connection) /\
  singleSpaced (getConnectionSubtitle connection) = true.
Proof.
  unfold getConnectionSubtitle.
  set (raw := coalesce _ (JStr "")).
  set (cleaned := match raw with JStr text => trim (collapse text) | _ => "" end).
  destruct (0 <? String.length cleaned)%nat eqn:Hlen.
  - split; [apply positive_length; exact Hlen|].
    subst cleaned. destruct raw; try discriminate. apply cleaned_one_line.
  - split; [discriminate | apply placeholder_one_line].
Qed.

(** X13: The description is a substitute for a note that is missing or is no
    string, not for a blank one: as soon as [note] is a string the subtitle
    comes from it alone, and a blank note gives the invitation to add
    notes even beside a description. *)
Theorem subtitle_prefers_note (connection : Connection) (note : string) :
  member (JObj connection) "note" = JStr note ->
  getConnectionSubtitle connection =
    (if (0 <? String.length (trim (collapse note)))%nat
     then trim (collapse note) else "Tap + to add notes") /\
  (trim (collapse note) = "" -> getConnectionSubtitle connection = "Tap + to add notes").
Proof.
  intros Hnote.
  assert (Hsub : getConnectionSubtitle connection =
                 if (0 <? String.length (trim (collapse note)))%nat
                 then trim (collapse note) else "Tap + to add notes").
  { unfold getConnectionSubtitle. rewrite Hnote. reflexivity. }
  split; [exact Hsub|]. intros Hblank. rewrite Hsub, Hblank. reflexivity.
Qed.

End PeopleRowFacts.

(* ================================================================== *)
(** * Further properties of the forms                                  *)
(* ================================================================== *)

Module FormFacts.
Import JS React Text TextFacts Answers.

(** X14: The connection form of both revisions: with a user at hand, a name or
    a note that is blank after trimming is refused in the form and nothing
    is called; otherwise exactly one [addConnection] goes out, with the
    name and the note trimmed. *)
Theorem connection_form_validated :
  (forall sc,
     isEmpty (PeopleV1.username (PeopleV1.user sc)) = false ->
     let name := trim (PeopleV1.connectionName (PeopleV1.state sc)) in
     let note := trim (PeopleV1.connectionNote (PeopleV1.state sc)) in
     let sc' := PeopleV1.handleCreateConnection sc in
     (name = "" \/ note = "" ->
      PeopleV1.formError (PeopleV1.state sc') = Some "Name and note are required" /\
      PeopleV1.calls sc' = PeopleV1.calls sc /\
      PeopleV1.additions sc' = PeopleV1.additions sc /\
      PeopleV1.isSubmittingConnection (PeopleV1.state sc')
        = PeopleV1.isSubmittingConnection (PeopleV1.state sc)) /\
     (name <> "" -> note <> "" ->
      exists email phone,
        PeopleV1.calls sc' =
          (PeopleV1.calls sc ++
           [PeopleV1.AddConnection (PeopleV1.username (PeopleV1.user sc)) name note
              email phone])%list /\
        tidy name /\ tidy note /\
        PeopleV1.formError (PeopleV1.state sc') = None /\
        PeopleV1.isSubmittingConnection (PeopleV1.state sc') = true)) /\
  (forall sc,
     isEmpty (PeopleV2.username (PeopleV2.user sc)) = false ->
     let name := trim (PeopleV2.connectionName (PeopleV2.state sc)) in
     let note := trim (PeopleV2.connectionNote (PeopleV2.state sc)) in
     let sc' := PeopleV2.handleCreateConnection sc in
     (name = "" \/ note = "" ->
      PeopleV2.formError (PeopleV2.state sc') = Some "Name and note are required" /\
      PeopleV2.calls sc' = PeopleV2.calls sc /\
      PeopleV2.additions sc' = PeopleV2.additions sc /\
      PeopleV2.isSubmittingConnection (PeopleV2.state sc')
        = PeopleV2.isSubmittingConnection (PeopleV2.state sc)) /\
     (name <> "" -> note <> "" ->
      PeopleV2.calls sc' =
        (PeopleV2.calls sc ++
         [PeopleV2.AddConnection (PeopleV2.username (PeopleV2.user sc)) name note])%list /\
      tidy name /\ tidy note /\
      PeopleV2.formError (PeopleV2.state sc') = None /\
      PeopleV2.isSubmittingConnection (PeopleV2.state sc') = true)).
Proof.
  split.
  - intros sc Huser name note sc'. subst sc'. unfold PeopleV1.handleCreateConnection.
    rewrite Huser. fold name note. split.
    + intros Hblank.
      assert (Hb : isEmpty name || isEmpty note = true)
        by (destruct Hblank as [-> | ->]; [reflexivity | apply orb_true_r]).
      rewrite Hb. repeat split.
    + intros Hname Hnote. apply isEmpty_false in Hname, Hnote.
      rewrite Hname, Hnote. cbn [orb]. eexists. eexists.
      split; [reflexivity|]. repeat split; try apply trim_tidy.
  - intros sc Huser name note sc'. subst sc'. unfold PeopleV2.handleCreateConnection.
    rewrite Huser. fold name note. split.
    + intros Hblank.
      assert (Hb : isEmpty name || isEmpty note = true)
        by (destruct Hblank as [-> | ->]; [reflexivity | apply orb_true_r]).
      rewrite Hb. repeat split.
    + intros Hname Hnote. apply isEmpty_false in Hname, Hnote.
      rewrite Hname, Hnote. cbn [orb].
      split; [reflexivity|]. repeat split; try apply trim_tidy.
Qed.

(** X15: The task form of both revisions: with a user at hand and an [info]
    that is not blank, exactly one [createTask] goes out, carrying the
    info without the white space around it, and the form is marked as
    submitting with its error cleared. *)
Theorem task_form_sends_trimmed_info :
  (forall shown sc name,
     usernameOf (HomeV1.user sc) = Some name -> name <> "" ->
     let info := trim (HomeV1.taskInfo (HomeV1.state sc)) in
     info <> "" ->
     let sc' := HomeV1.handleCreateTask shown sc in
     HomeV1.calls sc' =
       (HomeV1.calls sc ++
        [HomeV1.CreateTask name info (HomeV1.taskTypeName (HomeV1.taskType (HomeV1.state sc)))
           (HomeV1.selectedEventId (HomeV1.state sc))])%list /\
     tidy info /\
     HomeV1.isSubmitting (HomeV1.state sc') = true /\
     HomeV1.formError (HomeV1.state sc') = None /\
     HomeV1.createdTasks (HomeV1.state sc') = HomeV1.createdTasks (HomeV1.state sc)) /\
  (forall sc name,
     usernameOf (HomeV2.user sc) = Some name -> name <> "" ->
     let info := trim (HomeV2.taskInfo (HomeV2.state sc)) in
     info <> "" ->
     let sc' := HomeV2.handleCreateTask sc in
     HomeV2.calls sc' =
       (HomeV2.calls sc ++
        [HomeV2.CreateTask name info
           (HomeV2.taskTypeName (HomeV2.taskType (HomeV2.state sc)))])%list /\
     tidy info /\
     HomeV2.isSubmitting (HomeV2.state sc') = true /\
     HomeV2.formError (HomeV2.state sc') = None /\
     HomeV2.tasks (HomeV2.state sc') = HomeV2.tasks (HomeV2.state sc)).
Proof.
  split.
  - intros shown sc name Huser Hname info Hinfo sc'. subst sc'.
    unfold HomeV1.handleCreateTask. rewrite Huser. cbn [noUsername].
    apply isEmpty_false in Hname, Hinfo. rewrite Hname. fold info. rewrite Hinfo.
    repeat split. apply trim_tidy. apply trim_tidy.
  - intros sc name Huser Hname info Hinfo sc'. subst sc'.
    unfold HomeV2.handleCreateTask. rewrite Huser. cbn [noUsername].
    apply isEmpty_false in Hname, Hinfo. rewrite Hname. fold info. rewrite Hinfo.
    repeat split. apply trim_tidy. apply trim_tidy.
Qed.

Lemma or_truthy (a b : JsValue) : truthy b = true -> truthy (or a b) = true.
Proof.
  intros Hb. unfold or. destruct (truthy a) eqn:Ha; assumption.
Qed.

(** X16: [getEventName] always has something to show: the name of the first
    shown event with that id when it has one, and [Unknown Event] when no
    shown event has that id or the first that has it is nameless. *)
Theorem getEventName_never_empty (shown : list DisplayEvent.t) (eventId : string) :
  truthy (HomeV1.getEventName shown eventId) = true /\
  (forall event,
     find (fun e => strictEqStr (DisplayEvent.id e) eventId) shown = Some event ->
     truthy (DisplayEvent.name event) = true ->
     HomeV1.getEventName shown eventId = DisplayEvent.name event) /\
  ((forall event, In event shown -> DisplayEvent.id event <> JStr eventId) ->
   HomeV1.getEventName shown eventId = JStr "Unknown Event").
Proof.
  unfold HomeV1.getEventName. split; [|split].
  - destruct (find _ shown) as [event|]; [|reflexivity].
    unfold or. destruct (truthy (DisplayEvent.name event)) eqn:Hname;
      [exact Hname | reflexivity].
  - intros event Hfind Hname. rewrite Hfind. unfold or. rewrite Hname. reflexivity.
  - intros Hnone.
    destruct (find (fun e => strictEqStr (DisplayEvent.id e) eventId) shown)
      as [event|] eqn:Hfind; [|reflexivity].
    destruct (find_some _ _ Hfind) as [Hin Hid]. exfalso. apply (Hnone event Hin).
    destruct (DisplayEvent.id event); try discriminate. cbn [strictEqStr] in Hid.
    apply String.eqb_eq in Hid. rewrite Hid. reflexivity.
Qed.

(** X17: A [createTask] that answers with success and a task puts exactly one
    new entry at the head of the created tasks of the first revision: its
    label is the info that was sent, its id is never empty, and the dialog
    closes without a message. *)
Theorem created_task_prepended (sc : HomeV1.Screen) (k : nat) (sub : HomeV1.Submission)
    (response : Envelope.t (list (string * JsValue))) (task : list (string * JsValue))
    (now : nat) :
  nth_error (HomeV1.submissions sc) k = Some sub ->
  HomeV1.answered sub = false ->
  Envelope.success response = true ->
  Envelope.payload response = Some task ->
  let sc' := HomeV1.createTaskSettled k (Returns response) now sc in
  exists entry,
    HomeV1.createdTasks (HomeV1.state sc') = entry :: HomeV1.createdTasks (HomeV1.state sc) /\
    HomeV1.label entry = HomeV1.trimmedInfo sub /\
    truthy (HomeV1.id entry) = true /\
    HomeV1.modalVisible (HomeV1.state sc') = false /\
    HomeV1.isSubmitting (HomeV1.state sc') = false /\
    HomeV1.formError (HomeV1.state sc') = HomeV1.formError (HomeV1.state sc) /\
    HomeV1.calls sc' = HomeV1.calls sc.
Proof.
  intros Hsub Hopen Hsuccess Htask sc'. subst sc'. unfold HomeV1.createTaskSettled.
  rewrite Hsub, Hopen, Hsuccess, Htask. eexists. split; [reflexivity|].
  cbn [HomeV1.label HomeV1.id]. repeat split.
  apply or_truthy. reflexivity.
Qed.

(** X18: The second revision after a successful [createTask]: the dialog
    closes and the tasks are loaded again for the user who submitted, the
    form staying marked as submitting until that load has settled,
    whatever it settles to. *)
Theorem created_task_reloads (sc : HomeV2.Screen) (k : nat) (sub : HomeV2.Submission)
    (response : Envelope.t (list (string * JsValue)))
    (loaded : Outcome (Envelope.t (list TaskRecord.t) * Envelope.t (list TaskRecord.t))) :
  nth_error (HomeV2.submissions sc) k = Some sub ->
  HomeV2.answered sub = false ->
  Envelope.success response = true ->
  let sc1 := HomeV2.createTaskSettled k (Returns response) sc in
  let sc2 := HomeV2.tasksSettled (length (HomeV2.loads sc)) loaded sc1 in
  HomeV2.modalVisible (HomeV2.state sc1) = false /\
  HomeV2.calls sc1 =
    (HomeV2.calls sc ++
     [HomeV2.GetUserTasks (HomeV2.submittedBy sub);
      HomeV2.GetFinishedTasks (HomeV2.submittedBy sub)])%list /\
  HomeV2.isSubmitting (HomeV2.state sc1) = HomeV2.isSubmitting (HomeV2.state sc) /\
  HomeV2.loadingTasks (HomeV2.state sc1) = true /\
  HomeV2.isSubmitting (HomeV2.state sc2) = false /\
  HomeV2.loadingTasks (HomeV2.state sc2) = false /\
  HomeV2.calls sc2 = HomeV2.calls sc1.
Proof.
  intros Hsub Hopen Hsuccess sc1 sc2. subst sc2 sc1. unfold HomeV2.createTaskSettled.
  rewrite Hsub, Hopen, Hsuccess.
  split; [reflexivity|]. split; [cbn; rewrite <- app_assoc; reflexivity|].
  split; [reflexivity|]. split; [reflexivity|].
  unfold HomeV2.tasksSettled, HomeV2.loadTasks.
  cbn [HomeV2.loads HomeV2.logCall HomeV2.withLoads HomeV2.withState HomeV2.withSubmissions].
  rewrite nth_error_app2 by apply Nat.le_refl. rewrite Nat.sub_diag.
  cbn [nth_error HomeV2.loadSettled HomeV2.awaitedBySubmit].
  destruct loaded as [[tasksResponse finishedResponse]|e]; [|repeat split].
  destruct (Envelope.success tasksResponse), (Envelope.payload tasksResponse),
           (Envelope.success finishedResponse), (Envelope.payload finishedResponse);
    repeat split.
Qed.

End FormFacts.

(* ================================================================== *)
(** * Further properties of the second home screen                     *)
(* ================================================================== *)

Module HomeViewFacts.
Import JS React HomeV2View Answers EventListFacts TextFacts.

Lemma In_firstn {A : Type} (n : nat) (l : list A) (x : A) : In x (firstn n l) -> In x l.
Proof.
  revert l. induction n as [|n IH]; intros [|y rest] Hin; cbn [firstn] in Hin;
    try destruct Hin.
  - left. assumption.
  - right. apply IH. assumption.
Qed.

(** X19: The task list shows at most six rows, every one of them a task of the
    screen that is not completed; it shows all of those when they are six
    or fewer; and every task is either pending or completed. *)
Theorem taskRows_bounded (tasks : list TaskRecord.t) :
  length (taskRows tasks) <= 6 /\
  (forall t, In t (taskRows tasks) ->
             In t tasks /\ TaskRecord.status t <> Some "completed") /\
  (length (pendingTasks tasks) <= 6 -> taskRows tasks = pendingTasks tasks) /\
  length (pendingTasks tasks)
    + length (filter (fun t => strictEqStr (ofOpt (TaskRecord.status t)) "completed") tasks)
    = length tasks.
Proof.
  unfold taskRows, pendingTasks. split; [apply firstn_le_length|]. split; [|split].
  - intros t Hin. apply In_firstn in Hin. apply filter_In in Hin.
    destruct Hin as [Hin Hpending]. split; [exact Hin|].
    unfold isPending in Hpending. intros Hdone. rewrite Hdone in Hpending. discriminate.
  - intros Hfew. apply firstn_all2. exact Hfew.
  - rewrite <- (filter_length isPending tasks). f_equal. f_equal.
    apply filter_ext. intros t. unfold isPending. rewrite negb_involutive. reflexivity.
Qed.

Lemma placeholder_differs (i j : nat) :
  i <> j -> JStr ("event-" ++ showNat i) <> JStr ("event-" ++ showNat j).
Proof.
  intros Hne Heq. injection Heq as Heq.
  apply showNat_injective in Heq. contradiction.
Qed.

(** X20: Fetched records that carry no identifier still get ids that tell them
    apart: in the list shown by the second revision, two such records at
    different positions never share an id. *)
Theorem placeholder_ids_distinct (fetched : list EventRecord.t) (embedded : list JsValue)
    (shown : list DisplayEvent.t) (i j : nat) (ei ej : EventRecord.t)
    (di dj : DisplayEvent.t) :
  HomeV2.events fetched embedded = Returns shown ->
  nth_error fetched i = Some ei -> nth_error fetched j = Some ej ->
  nonEmpty (EventRecord._id ei) = None -> nonEmpty (EventRecord.id ei) = None ->
  nonEmpty (EventRecord._id ej) = None -> nonEmpty (EventRecord.id ej) = None ->
  nth_error shown i = Some di -> nth_error shown j = Some dj ->
  i <> j ->
  DisplayEvent.id di <> DisplayEvent.id dj.
Proof.
  intros Hshown Hei Hej Hi1 Hi2 Hj1 Hj2 Hdi Hdj Hne.
  unfold HomeV2.events in Hshown.
  destruct fetched as [|e0 rest]; [destruct i; discriminate|].
  cbn [length Nat.ltb Nat.leb] in Hshown. injection Hshown as <-.
  rewrite nth_error_mapi, Hei in Hdi. rewrite nth_error_mapi, Hej in Hdj.
  cbn [option_map] in Hdi, Hdj. injection Hdi as <-. injection Hdj as <-.
  rewrite !fetchedEvent_v2_id. unfold idByPrecedence. rewrite Hi1, Hi2, Hj1, Hj2.
  apply placeholder_differs. exact Hne.
Qed.

End HomeViewFacts.

(* ================================================================== *)
(** * Further properties of the earliest home screen                   *)
(* ================================================================== *)

Module EntryFacts.
Import JS React EventListFacts TextFacts.

Lemma length_mapiFrom {A B : Type} (f : A -> nat -> B) (l : list A) :
  forall start, length (mapiFrom start f l) = length l.
Proof.
  induction l as [|x rest IH]; intros start; [reflexivity|].
  cbn [mapiFrom length]. rewrite IH. reflexivity.
Qed.

Section Screen.

Variable JSON_stringify : JsValue -> option string.

Local Abbreviation eventEntries := (HomeV0.eventEntries JSON_stringify).
Local Abbreviation taskEntries := (HomeV0Tasks.taskEntries JSON_stringify).

(** X24: The earliest home screen lists one entry for each element of
    [user.events]: an element that is a string is its own id and label,
    and two elements that are not strings never get the same id. *)
Theorem eventEntries_keys (user : option User) :
  length (eventEntries user) = length (arrayField user "events") /\
  (forall i s,
     nth_error (arrayField user "events") i = Some (JStr s) ->
     nth_error (eventEntries user) i = Some {| HomeV0.id := s; HomeV0.label := s |}) /\
  (forall i j vi vj a b,
     nth_error (arrayField user "events") i = Some vi ->
     nth_error (arrayField user "events") j = Some vj ->
     (forall s, vi <> JStr s) -> (forall s, vj <> JStr s) ->
     nth_error (eventEntries user) i = Some a ->
     nth_error (eventEntries user) j = Some b ->
     i <> j -> HomeV0.id a <> HomeV0.id b).
Proof.
  unfold HomeV0.eventEntries. split; [apply length_mapiFrom|]. split.
  - intros i s Hi. rewrite nth_error_mapi, Hi. reflexivity.
  - intros i j vi vj a b Hi Hj Hvi Hvj Ha Hb Hne.
    rewrite nth_error_mapi, Hi in Ha. rewrite nth_error_mapi, Hj in Hb.
    cbn [option_map] in Ha, Hb. injection Ha as <-. injection Hb as <-.
    cbn [HomeV0.id].
    destruct vi; try (exfalso; eapply Hvi; reflexivity);
      destruct vj; try (exfalso; eapply Hvj; reflexivity);
      intros Heq; injection Heq as Heq; apply showNat_injective in Heq; contradiction.
Qed.

(** X25: The same for [user.tasks]. *)
Theorem taskEntries_keys (user : option User) :
  length (taskEntries user) = length (arrayField user "tasks") /\
  (forall i s,
     nth_error (arrayField user "tasks") i = Some (JStr s) ->
     nth_error (taskEntries user) i = Some {| HomeV0.id := s; HomeV0.label := s |}) /\
  (forall i j vi vj a b,
     nth_error (arrayField user "tasks") i = Some vi ->
     nth_error (arrayField user "tasks") j = Some vj ->
     (forall s, vi <> JStr s) -> (forall s, vj <> JStr s) ->
     nth_error (taskEntries user) i = Some a ->
     nth_error (taskEntries user) j = Some b ->
     i <> j -> HomeV0.id a <> HomeV0.id b).
Proof.
  unfold HomeV0Tasks.taskEntries. split; [apply length_mapiFrom|]. split.
  - intros i s Hi. rewrite nth_error_mapi, Hi. reflexivity.
  - intros i j vi vj a b Hi Hj Hvi Hvj Ha Hb Hne.
    rewrite nth_error_mapi, Hi in Ha. rewrite nth_error_mapi, Hj in Hb.
    cbn [option_map] in Ha, Hb. injection Ha as <-. injection Hb as <-.
    cbn [HomeV0.id].
    destruct vi; try (exfalso; eapply Hvi; reflexivity);
      destruct vj; try (exfalso; eapply Hvj; reflexivity);
      intros Heq; injection Heq as Heq; apply showNat_injective in Heq; contradiction.
Qed.

End Screen.

End EntryFacts.

(* ================================================================== *)
(** * Further properties of the tab layout                             *)
(* ================================================================== *)

Module TabLayoutFacts.
Import JS React Shapes TextFacts CameraFacts PeopleRowFacts.

Section Layout.

Variable JsNumber : Type.
Variable Number_of : string -> JsNumber.
Variable Number_isNaN : JsNumber -> bool.

Local Abbreviation Layout := (TabLayout.Layout JsNumber).
Local Abbreviation Input := (TabLayout.Input).
Local Abbreviation step := (TabLayout.step JsNumber Number_of Number_isNaN).
Local Abbreviation run := (TabLayout.run JsNumber Number_of Number_isNaN).
Local Abbreviation mount := (TabLayout.mount JsNumber).
Local Abbreviation inFlight := (TabLayout.inFlight JsNumber).
Local Abbreviation handleLogin := (TabLayout.handleLogin JsNumber).
Local Abbreviation handleRegister := (TabLayout.handleRegister JsNumber Number_of Number_isNaN).
Local Abbreviation settled := (TabLayout.settled JsNumber).
Local Abbreviation state := (TabLayout.state JsNumber).
Local Abbreviation calls := (TabLayout.calls JsNumber).
Local Abbreviation requests := (TabLayout.requests JsNumber).
Local Abbreviation rendered := (TabLayout.rendered JsNumber).
Local Abbreviation render := (TabLayout.render JsNumber).
Local Abbreviation handlersCurrent :=
  (TabLayout.handlersCurrent JsNumber Number_of Number_isNaN).

(** The number of requests in flight follows the [loading] flag. *)
Lemma step_flight (l : Layout) (i : Input) :
  inFlight l = (if TabLayout.loading (state l) then 1 else 0) ->
  match i with
  | TabLayout.PressLogin | TabLayout.PressRegister =>
      TabLayout.loading (rendered l) = TabLayout.loading (state l)
  | _ => True
  end ->
  inFlight (step l i) = (if TabLayout.loading (state (step l i)) then 1 else 0).
Proof.
  unfold TabLayout.inFlight. intros Hinv Hcurrent.
  assert (Hstart : forall k c,
            TabLayout.loading (state l) = false ->
            length (filter (fun r => negb (TabLayout.answered r))
                      (requests (TabLayout.start JsNumber k c l)))
            = if TabLayout.loading (state (TabLayout.start JsNumber k c l)) then 1 else 0).
  { intros k c Hidle. rewrite Hidle in Hinv. unfold TabLayout.start.
    cbn [TabLayout.requests TabLayout.state TabLayout.setError TabLayout.setLoading
         TabLayout.loading].
    rewrite count_snoc. cbn [TabLayout.answered negb]. lia. }
  destruct i as [ | text | text | text | text | | | k outcome]; cbn [TabLayout.step];
    try exact Hinv.
  - unfold TabLayout.handleLogin, TabLayout.isLoginEnabled. rewrite Hcurrent.
    destruct (TabLayout.loading (state l)) eqn:Hloading.
    + rewrite !andb_false_r. cbn [negb]. rewrite ?Hloading. exact Hinv.
    + destruct (negb _); [rewrite ?Hloading; exact Hinv|]. apply Hstart. reflexivity.
  - unfold TabLayout.handleRegister, TabLayout.isRegisterEnabled, TabLayout.isLoginEnabled.
    rewrite Hcurrent.
    destruct (TabLayout.loading (state l)) eqn:Hloading.
    + rewrite !andb_false_r. cbn [negb andb]. rewrite ?Hloading. exact Hinv.
    + destruct (negb _); [rewrite ?Hloading; exact Hinv|].
      destruct (Number_isNaN _); [cbn; rewrite ?Hloading; exact Hinv|].
      apply Hstart. reflexivity.
  - unfold TabLayout.settled.
    destruct (nth_error (requests l) k) as [r|] eqn:Hr; [|exact Hinv].
    destruct (TabLayout.answered r) eqn:Hanswered; [exact Hinv|].
    pose proof (count_setNth (fun r => negb (TabLayout.answered r))
                  {| TabLayout.kind := TabLayout.kind r; TabLayout.answered := true |}
                  (requests l) k r Hr) as Hcount.
    cbv beta in Hcount. rewrite Hanswered in Hcount.
    cbn [TabLayout.answered negb] in Hcount.
    assert (Hshape : forall l2 : Layout,
              requests l2 = setNth k {| TabLayout.kind := TabLayout.kind r;
                                        TabLayout.answered := true |} (requests l) ->
              length (filter (fun r => negb (TabLayout.answered r))
                        (requests (TabLayout.withState JsNumber (TabLayout.setLoading false) l2)))
              = if TabLayout.loading
                     (state (TabLayout.withState JsNumber (TabLayout.setLoading false) l2))
                then 1 else 0).
    { intros l2 Hl2. cbn [TabLayout.withState TabLayout.requests TabLayout.state
                          TabLayout.setLoading TabLayout.loading].
      rewrite Hl2. destruct (TabLayout.loading (state l)); lia. }
    apply Hshape.
    destruct outcome as [response|err]; [|reflexivity].
    destruct (Envelope.success response); [|reflexivity].
    destruct (Envelope.payload response); [|reflexivity].
    destruct (TabLayout.kind r); reflexivity.
Qed.

Lemma run_flight (inputs : list Input) :
  forall l,
    inFlight l = (if TabLayout.loading (state l) then 1 else 0) ->
    handlersCurrent l inputs = true ->
    inFlight (run l inputs) = (if TabLayout.loading (state (run l inputs)) then 1 else 0).
Proof.
  induction inputs as [|i rest IH]; intros l Hinv Hcurrent; [exact Hinv|].
  cbn [TabLayout.handlersCurrent] in Hcurrent. apply andb_true_iff in Hcurrent.
  destruct Hcurrent as [Hhead Hrest].
  cbn [TabLayout.run fold_left]. apply IH; [|exact Hrest]. apply step_flight; [exact Hinv|].
  destruct i; try exact I; apply Bool.eqb_prop; exact Hhead.
Qed.

(** X26: The guard of the two handlers is the [loading] of the render that
    made them.  As long as every press runs a handler made since the
    [loading] cell last changed, the tab layout never has more than one
    request to sign in or to register in flight, and while one is, the
    handlers of a new render start nothing.  Two presses that run the
    handler of one render both go through: [login] is called twice with
    the same credentials. *)
Theorem one_request_at_a_time :
  (forall inputs,
     handlersCurrent mount inputs = true ->
     let l := run mount inputs in
     inFlight l <= 1 /\
     (inFlight l = 1 ->
      handleLogin (render l) = render l /\ handleRegister (render l) = render l)) /\
  (forall l,
     TabLayout.isLoginEnabled (rendered l) = true ->
     let l' := handleLogin (handleLogin l) in
     calls l' =
       (calls l ++
        [TabLayout.Login JsNumber (TabLayout.username (rendered l))
           (TabLayout.password (rendered l));
         TabLayout.Login JsNumber (TabLayout.username (rendered l))
           (TabLayout.password (rendered l))])%list /\
     inFlight l' = inFlight l + 2).
Proof.
  split.
  - intros inputs Hcurrent l.
    assert (Hinv : inFlight l = (if TabLayout.loading (state l) then 1 else 0))
      by (apply run_flight; [reflexivity | exact Hcurrent]).
    split.
    + rewrite Hinv. destruct (TabLayout.loading (state l)); lia.
    + intros Hone. rewrite Hone in Hinv.
      destruct (TabLayout.loading (state l)) eqn:Hloading; [|discriminate].
      unfold TabLayout.handleLogin, TabLayout.handleRegister, TabLayout.isRegisterEnabled,
        TabLayout.isLoginEnabled, TabLayout.render.
      cbn [TabLayout.rendered]. rewrite Hloading, !andb_false_r. split; reflexivity.
  - intros l Henabled l'. subst l'.
    assert (Hstep : forall l2 : Layout,
              rendered l2 = rendered l ->
              handleLogin l2 =
              TabLayout.start JsNumber TabLayout.SigningIn
                (TabLayout.Login JsNumber (TabLayout.username (rendered l))
                   (TabLayout.password (rendered l))) l2).
    { intros l2 Hl2. unfold TabLayout.handleLogin. rewrite Hl2, Henabled. reflexivity. }
    rewrite (Hstep l eq_refl), Hstep by reflexivity.
    unfold TabLayout.inFlight, TabLayout.start. cbn [TabLayout.calls TabLayout.requests].
    split; [rewrite <- app_assoc; reflexivity|].
    rewrite !count_snoc. cbn [TabLayout.answered negb]. lia.
Qed.

Lemma step_credentials (l : Layout) (i : Input) :
  Forall (credentialsGiven Number_isNaN) (calls l) ->
  Forall (credentialsGiven Number_isNaN) (calls (step l i)).
Proof.
  intros Hinv.
  destruct i as [ | text | text | text | text | | | k outcome]; cbn [TabLayout.step];
    try exact Hinv.
  - unfold TabLayout.handleLogin, TabLayout.isLoginEnabled.
    destruct (0 <? String.length (trim (TabLayout.username (rendered l))))%nat eqn:Hu;
      [|exact Hinv].
    destruct (0 <? String.length (trim (TabLayout.password (rendered l))))%nat eqn:Hp;
      [|exact Hinv].
    destruct (TabLayout.loading (rendered l)); [exact Hinv|]. cbn [andb negb].
    unfold TabLayout.start. cbn [TabLayout.calls]. apply Forall_app. split; [exact Hinv|].
    constructor; [|constructor]. cbn [credentialsGiven].
    split; apply positive_length; assumption.
  - unfold TabLayout.handleRegister, TabLayout.isRegisterEnabled, TabLayout.isLoginEnabled.
    destruct (0 <? String.length (trim (TabLayout.username (rendered l))))%nat eqn:Hu;
      [|exact Hinv].
    destruct (0 <? String.length (trim (TabLayout.password (rendered l))))%nat eqn:Hp;
      [|exact Hinv].
    destruct (TabLayout.loading (rendered l)); [exact Hinv|].
    destruct (0 <? String.length (trim (TabLayout.email (rendered l))))%nat eqn:He;
      [|exact Hinv].
    destruct (0 <? String.length (trim (TabLayout.phoneNumber (rendered l))))%nat eqn:Hn;
      [|exact Hinv].
    cbn [andb negb].
    destruct (Number_isNaN (Number_of (trim (TabLayout.phoneNumber (rendered l))))) eqn:Hnan;
      [exact Hinv|].
    unfold TabLayout.start. cbn [TabLayout.calls]. apply Forall_app. split; [exact Hinv|].
    constructor; [|constructor]. cbn [credentialsGiven].
    repeat split; try (apply positive_length; assumption). exact Hnan.
  - unfold TabLayout.settled.
    destruct (nth_error (requests l) k) as [r|]; [|exact Hinv].
    destruct (TabLayout.answered r); [exact Hinv|].
    destruct outcome as [response|err]; [|exact Hinv].
    destruct (Envelope.success response); [|exact Hinv].
    destruct (Envelope.payload response); [|exact Hinv].
    destruct (TabLayout.kind r); exact Hinv.
Qed.

(** X27: No request of the tab layout ever leaves with a blank user name or
    password; a registration moreover carries an email that is not blank
    and a phone number that parsed as a number. *)
Theorem credentials_never_blank (inputs : list Input) :
  Forall (credentialsGiven Number_isNaN) (calls (run mount inputs)).
Proof.
  assert (Hrun : forall l, Forall (credentialsGiven Number_isNaN) (calls l) ->
                           Forall (credentialsGiven Number_isNaN) (calls (run l inputs))).
  { induction inputs as [|i rest IH]; intros l Hinv; [exact Hinv|].
    cbn [TabLayout.run fold_left]. apply IH, step_credentials, Hinv. }
  apply Hrun. constructor.
Qed.

Lemma step_user (l : Layout) (i : Input) :
  TabLayout.user (state (step l i)) = TabLayout.user (state l) \/
  exists k response account,
    i = TabLayout.Settled k (Returns response) /\
    Envelope.success response = true /\ Envelope.payload response = Some account /\
    TabLayout.user (state (step l i)) = Some account.
Proof.
  destruct i as [ | text | text | text | text | | | k outcome]; cbn [TabLayout.step];
    try (left; reflexivity).
  - unfold TabLayout.handleLogin. destruct (negb _); left; reflexivity.
  - unfold TabLayout.handleRegister. destruct (negb _); [left; reflexivity|].
    destruct (Number_isNaN _); left; reflexivity.
  - unfold TabLayout.settled.
    destruct (nth_error (requests l) k) as [r|]; [|left; reflexivity].
    destruct (TabLayout.answered r); [left; reflexivity|].
    destruct outcome as [response|err]; [|left; reflexivity].
    destruct (Envelope.success response) eqn:Hs; [|left; reflexivity].
    destruct (Envelope.payload response) as [account|] eqn:Hp; [|left; reflexivity].
    right. exists k, response, account.
    destruct (TabLayout.kind r); repeat split; assumption.
Qed.

(** X28: A user is signed in only by an answer that reports success and
    carries the user: the user of the layout is always the one of such an
    answer among those that arrived. *)
Theorem signed_in_only_on_success (inputs : list Input) (account : User) :
  TabLayout.user (state (run mount inputs)) = Some account ->
  exists k response,
    In (TabLayout.Settled k (Returns response)) inputs /\
    Envelope.success response = true /\ Envelope.payload response = Some account.
Proof.
  assert (Hrun : forall l,
            TabLayout.user (state (run l inputs)) = Some account ->
            TabLayout.user (state l) = Some account \/
            exists k response,
              In (TabLayout.Settled k (Returns response)) inputs /\
              Envelope.success response = true /\ Envelope.payload response = Some account).
  { induction inputs as [|i rest IH]; intros l Hfinal; [left; exact Hfinal|].
    cbn [TabLayout.run fold_left] in Hfinal.
    destruct (IH (step l i) Hfinal) as [Hstep | (k & response & Hin & Hs & Hp)].
    - destruct (step_user l i) as [Hsame | (k & response & acc & Hi & Hs & Hp & Hu)].
      + left. rewrite <- Hsame. exact Hstep.
      + right. exists k, response. split; [left; exact Hi|]. split; [exact Hs|].
        rewrite Hp. rewrite Hu in Hstep. exact Hstep.
    - right. exists k, response. split; [right; exact Hin|]. split; assumption. }
  intros Hfinal. destruct (Hrun mount Hfinal) as [Hnone | Hsome]; [discriminate | exact Hsome].
Qed.

End Layout.

End TabLayoutFacts.

(* ================================================================== *)
(** * Further properties of the task-details dialog                    *)
(* ================================================================== *)

Module TaskDetailsFacts.
Import JS React TaskDetails Answers ListFacts.

(** X21: Completing needs a user and a task with an id: without one of them
    the dialog only shows why, and neither [updateTask] nor anything else
    is called. *)
Theorem complete_needs_user_and_id (sc : Screen) :
  noUsername (usernameOf (HomeV2.user (home sc))) = true \/
  truthy (selectedTaskId (details sc)) = false ->
  let sc' := handleCompleteSelectedTask sc in
  taskDetailsError (details sc')
    = Some (if noUsername (usernameOf (HomeV2.user (home sc)))
            then "User not available" else "Task id missing") /\
  updates sc' = updates sc /\
  completions sc' = completions sc /\
  home sc' = home sc /\
  isCompletingTask (details sc') = isCompletingTask (details sc) /\
  taskDetailsVisible (details sc') = taskDetailsVisible (details sc) /\
  selectedTask (details sc') = selectedTask (details sc).
Proof.
  intros Hmissing sc'. subst sc'. unfold handleCompleteSelectedTask.
  destruct (noUsername (usernameOf (HomeV2.user (home sc)))); [repeat split|].
  destruct Hmissing as [Hno | Hid]; [discriminate|].
  destruct (selectedTaskId (details sc)) as [| | b | n | taskId | items | fields];
    try (repeat split; fail).
  cbn [truthy] in Hid. apply negb_false_iff in Hid. unfold isEmpty. rewrite Hid.
  repeat split.
Qed.

(** X22: A refused or rejected [updateTask] leaves the dialog open on the same
    task with the message in it, and loads nothing again. *)
Theorem failed_completion_keeps_dialog (sc : Screen) (k : nat) (c : Completion)
    (outcome : Outcome (Envelope.t (list (string * JsValue)))) :
  nth_error (completions sc) k = Some c ->
  stage c = Updating ->
  failed outcome ->
  let sc' := updateSettled k outcome sc in
  taskDetailsError (details sc')
    = Some (failureMessage "Failed to complete task" outcome) /\
  isCompletingTask (details sc') = false /\
  taskDetailsVisible (details sc') = taskDetailsVisible (details sc) /\
  selectedTask (details sc') = selectedTask (details sc) /\
  home sc' = home sc /\
  updates sc' = updates sc.
Proof.
  intros Hc Hstage Hfailed sc'. subst sc'. unfold updateSettled. rewrite Hc, Hstage.
  destruct outcome as [response|err]; cbn [failed] in Hfailed.
  - rewrite Hfailed. repeat split.
  - repeat split.
Qed.

Lemma resume_found (load : nat) (l : list Completion) :
  forall k c,
    nth_error l k = Some c -> stage c = Reloading load ->
    exists resumed n, resume load l = (resumed, S n).
Proof.
  induction l as [|a rest IH]; intros [|k] c Hc Hstage; cbn [nth_error] in Hc;
    try discriminate.
  - injection Hc as ->. cbn [resume]. destruct (resume load rest) as [rest' n].
    rewrite Hstage, Nat.eqb_refl. eexists. eexists. reflexivity.
  - cbn [resume]. destruct (IH k c Hc Hstage) as (rest' & n & Hrest). rewrite Hrest.
    destruct (stage a) as [| awaited |]; try (eexists; eexists; reflexivity).
    destruct (awaited =? load)%nat; eexists; eexists; reflexivity.
Qed.

(** X23: An accepted [updateTask] loads the tasks again for the same user and
    keeps the dialog as it is in the meantime; when that load has settled,
    whatever it settled to, the dialog is closed, with no task selected
    and no message. *)
Theorem completion_closes_after_reload (sc : Screen) (k : nat) (c : Completion)
    (response : Envelope.t (list (string * JsValue)))
    (loaded : Outcome (Envelope.t (list TaskRecord.t) * Envelope.t (list TaskRecord.t))) :
  nth_error (completions sc) k = Some c ->
  stage c = Updating ->
  Envelope.success response = true ->
  let sc1 := updateSettled k (Returns response) sc in
  let sc2 := tasksSettled (length (HomeV2.loads (home sc))) loaded sc1 in
  HomeV2.calls (home sc1) =
    (HomeV2.calls (home sc) ++
     [HomeV2.GetUserTasks (completedBy c); HomeV2.GetFinishedTasks (completedBy c)])%list /\
  details sc1 = details sc /\
  details sc2 = closed /\
  HomeV2.loadingTasks (HomeV2.state (home sc2)) = false /\
  updates sc2 = updates sc.
Proof.
  intros Hc Hstage Hsuccess sc1 sc2.
  assert (Hsc1 : sc1 =
            withHome (HomeV2.loadTasks (completedBy c) false)
              (setStage k c (Reloading (length (HomeV2.loads (home sc)))) sc)).
  { subst sc1. unfold updateSettled. rewrite Hc, Hstage, Hsuccess. reflexivity. }
  split; [rewrite Hsc1; cbn; rewrite <- app_assoc; reflexivity|].
  split; [rewrite Hsc1; reflexivity|].
  subst sc2. rewrite Hsc1. unfold tasksSettled.
  cbn [withHome home HomeV2.loadTasks HomeV2.loads HomeV2.logCall HomeV2.withLoads
       HomeV2.withState setStage withCompletions].
  rewrite nth_error_app2 by apply Nat.le_refl. rewrite Nat.sub_diag.
  cbn [nth_error HomeV2.loadSettled completions details updates].
  destruct (resume_found (length (HomeV2.loads (home sc)))
              (setNth k {| completedBy := completedBy c;
                           stage := Reloading (length (HomeV2.loads (home sc))) |}
                      (completions sc)) k
              {| completedBy := completedBy c;
                 stage := Reloading (length (HomeV2.loads (home sc))) |})
    as (resumed & n & Hresume).
  - apply (nth_error_setNth_same _ c). exact Hc.
  - reflexivity.
  - change (completions
              (withHome (HomeV2.tasksSettled (length (HomeV2.loads (home sc))) loaded)
                 (withHome (HomeV2.loadTasks (completedBy c) false)
                    (setStage k c (Reloading (length (HomeV2.loads (home sc)))) sc))))
      with (setNth k {| completedBy := completedBy c;
                        stage := Reloading (length (HomeV2.loads (home sc))) |}
                   (completions sc)).
    rewrite Hresume. split; [reflexivity|]. split; [|reflexivity].
    cbn [withDetails withCompletions withHome home setStage].
    unfold HomeV2.tasksSettled, HomeV2.loadTasks.
    cbn [HomeV2.loads HomeV2.logCall HomeV2.withLoads HomeV2.withState].
    rewrite nth_error_app2 by apply Nat.le_refl. rewrite Nat.sub_diag.
    cbn [nth_error HomeV2.loadSettled HomeV2.awaitedBySubmit].
    destruct loaded as [[tasksResponse finishedResponse]|e]; [|reflexivity].
    destruct (Envelope.success tasksResponse), (Envelope.payload tasksResponse),
             (Envelope.success finishedResponse), (Envelope.payload finishedResponse);
      reflexivity.
Qed.

End TaskDetailsFacts.

(* ================================================================== *)
(** * The further properties at concrete inputs                        *)
(* ================================================================== *)

Module Instances.
Import JS React Text Shapes Answers Examples MoreExamples.

Lemma extractLinkedInUsername_sound_witness :
  exists secure www rest,
    profileCode = profileUrl secure www "carol" rest /\
    "carol" <> "" /\ nameChars "carol" = true /\ endsName rest = true.
Proof.
  exact (CameraFacts.extractLinkedInUsername_sound profileCode "carol" eq_refl).
Defined.

Lemma extractLinkedInUsername_complete_witness :
  Camera.extractLinkedInUsername (profileUrl false true "carol" "/details/") = Some "carol".
Proof.
  apply CameraFacts.extractLinkedInUsername_complete;
    [discriminate | reflexivity | reflexivity].
Defined.

Lemma createTask_only_after_connection_witness :
  Camera.calls (Camera.connectionSettled 0 (refusal "Already connected") scanning)
    = Camera.calls scanning /\
  Camera.statusMessage
    (Camera.state (Camera.connectionSettled 0 (refusal "Already connected") scanning))
    = Some ("Error: " ++ failureMessage "Failed to add connection"
                           (refusal (P := list (string * JsValue)) "Already connected")) /\
  Camera.timers (Camera.connectionSettled 0 (refusal "Already connected") scanning)
    = S (Camera.timers scanning).
Proof.
  exact (proj1 (CameraFacts.createTask_only_after_connection scanning 0 carolScan
                  (refusal "Already connected") eq_refl eq_refl) eq_refl).
Defined.

Lemma one_scan_at_a_time_witness :
  Camera.handleBarcodeScanned "https://www.linkedin.com/in/dave"
    (Camera.render (Camera.run (Camera.mount alice) [Camera.Scanned profileCode]))
  = Camera.render (Camera.run (Camera.mount alice) [Camera.Scanned profileCode]) /\
  Camera.inProgress
    (Camera.handleBarcodeScanned profileCode
       (Camera.handleBarcodeScanned profileCode (Camera.mount alice))) = 2.
Proof.
  split.
  - exact (proj2 (proj1 CameraFacts.one_scan_at_a_time alice [Camera.Scanned profileCode]
                    eq_refl) eq_refl "https://www.linkedin.com/in/dave").
  - apply (proj2 CameraFacts.one_scan_at_a_time (Camera.mount alice) profileCode "carol");
      [reflexivity | discriminate | reflexivity].
Defined.

Lemma getConnectionName_never_blank_witness :
  PeopleView.getConnectionName [("connectionName", JStr "Carol"); ("name", JStr "C.")]
    = "Carol".
Proof.
  apply (proj2 (proj2 (PeopleRowFacts.getConnectionName_never_blank
                         [("connectionName", JStr "Carol"); ("name", JStr "C.")])));
    [reflexivity | discriminate].
Defined.

Lemma subtitle_prefers_note_witness :
  PeopleView.getConnectionSubtitle dave = "Tap + to add notes".
Proof.
  exact (proj2 (PeopleRowFacts.subtitle_prefers_note dave "" eq_refl) eq_refl).
Defined.

Lemma connection_form_validated_witness :
  PeopleV2.calls (PeopleV2.handleCreateConnection filledV2) =
    (PeopleV2.calls filledV2 ++
     [PeopleV2.AddConnection "alice" "Carol" "met at the expo"])%list /\
  tidy "Carol" /\ tidy "met at the expo" /\
  PeopleV2.formError (PeopleV2.state (PeopleV2.handleCreateConnection filledV2)) = None /\
  PeopleV2.isSubmittingConnection
    (PeopleV2.state (PeopleV2.handleCreateConnection filledV2)) = true.
Proof.
  apply (proj2 (proj2 FormFacts.connection_form_validated filledV2 eq_refl));
    discriminate.
Defined.

Lemma task_form_sends_trimmed_info_witness :
  HomeV2.calls (HomeV2.handleCreateTask typedV2) =
    (HomeV2.calls typedV2 ++ [HomeV2.CreateTask "alice" "call Bob" "Connect"])%list /\
  tidy "call Bob" /\
  HomeV2.isSubmitting (HomeV2.state (HomeV2.handleCreateTask typedV2)) = true /\
  HomeV2.formError (HomeV2.state (HomeV2.handleCreateTask typedV2)) = None /\
  HomeV2.tasks (HomeV2.state (HomeV2.handleCreateTask typedV2))
    = HomeV2.tasks (HomeV2.state typedV2).
Proof.
  apply (proj2 FormFacts.task_form_sends_trimmed_info typedV2 "alice");
    [reflexivity | discriminate | discriminate].
Defined.

Lemma getEventName_never_empty_witness :
  HomeV1.getEventName shownPair "e9" = JStr "Unknown Event".
Proof.
  apply (proj2 (proj2 (FormFacts.getEventName_never_empty shownPair "e9"))).
  intros event Hin. cbn in Hin.
  destruct Hin as [<- | [<- | []]]; discriminate.
Defined.

Lemma created_task_prepended_witness :
  exists entry,
    HomeV1.createdTasks
      (HomeV1.state (HomeV1.createTaskSettled 0 (Returns createdTask) 1700 sentV1))
      = entry :: HomeV1.createdTasks (HomeV1.state sentV1) /\
    HomeV1.label entry = "call Bob" /\
    truthy (HomeV1.id entry) = true /\
    HomeV1.modalVisible
      (HomeV1.state (HomeV1.createTaskSettled 0 (Returns createdTask) 1700 sentV1))
      = false /\
    HomeV1.isSubmitting
      (HomeV1.state (HomeV1.createTaskSettled 0 (Returns createdTask) 1700 sentV1))
      = false /\
    HomeV1.formError
      (HomeV1.state (HomeV1.createTaskSettled 0 (Returns createdTask) 1700 sentV1))
      = HomeV1.formError (HomeV1.state sentV1) /\
    HomeV1.calls (HomeV1.createTaskSettled 0 (Returns createdTask) 1700 sentV1)
      = HomeV1.calls sentV1.
Proof.
  exact (FormFacts.created_task_prepended sentV1 0
           {| HomeV1.trimmedInfo := "call Bob"; HomeV1.submittedType := HomeV1.Connect;
              HomeV1.submittedEventId := None; HomeV1.shownEvents := [];
              HomeV1.answered := false |}
           createdTask [("_id", JStr "t42"); ("info", JStr "call Bob")] 1700
           eq_refl eq_refl eq_refl eq_refl).
Defined.

Lemma created_task_reloads_witness :
  HomeV2.isSubmitting
    (HomeV2.state
       (HomeV2.tasksSettled (length (HomeV2.loads sentV2))
          (Throws (Error "Network request failed"))
          (HomeV2.createTaskSettled 0 (Returns createdTask) sentV2))) = false.
Proof.
  exact (proj1 (proj2 (proj2 (proj2 (proj2
           (FormFacts.created_task_reloads sentV2 0
              {| HomeV2.submittedBy := "alice"; HomeV2.answered := false |}
              createdTask (Throws (Error "Network request failed"))
              eq_refl eq_refl eq_refl)))))).
Defined.

Lemma taskRows_bounded_witness :
  HomeV2View.taskRows [taskRecord "t1" "completed"; taskRecord "t2" "pending"]
    = HomeV2View.pendingTasks [taskRecord "t1" "completed"; taskRecord "t2" "pending"].
Proof.
  apply (proj1 (proj2 (proj2 (HomeViewFacts.taskRows_bounded
                                [taskRecord "t1" "completed"; taskRecord "t2" "pending"])))).
  cbn. lia.
Defined.

Lemma placeholder_ids_distinct_witness :
  DisplayEvent.id (HomeV2.fetchedEvent untitled 0)
    <> DisplayEvent.id (HomeV2.fetchedEvent (eventRecord None "Fair") 1).
Proof.
  apply (HomeViewFacts.placeholder_ids_distinct
           [untitled; eventRecord None "Fair"] [] _ 0 1
           untitled (eventRecord None "Fair") _ _
           eq_refl eq_refl eq_refl eq_refl eq_refl eq_refl eq_refl eq_refl eq_refl).
  discriminate.
Defined.

Lemma eventEntries_keys_witness :
  nth_error (HomeV0.eventEntries (fun _ => None) embedding) 1
    = Some {| HomeV0.id := "e7"; HomeV0.label := "e7" |}.
Proof.
  exact (proj1 (proj2 (EntryFacts.eventEntries_keys (fun _ => None) embedding))
           1 "e7" eq_refl).
Defined.

Lemma taskEntries_keys_witness :
  nth_error (HomeV0Tasks.taskEntries (fun _ => None) embedding) 1
    = Some {| HomeV0.id := "t1"; HomeV0.label := "t1" |}.
Proof.
  exact (proj1 (proj2 (EntryFacts.taskEntries_keys (fun _ => None) embedding))
           1 "t1" eq_refl).
Defined.

Lemma one_request_at_a_time_witness :
  TabLayout.handleLogin nat
    (TabLayout.render nat (TabLayout.run nat anyNumber neverNaN (TabLayout.mount nat) signingIn))
    = TabLayout.render nat (TabLayout.run nat anyNumber neverNaN (TabLayout.mount nat) signingIn) /\
  TabLayout.handleRegister nat anyNumber neverNaN
    (TabLayout.render nat (TabLayout.run nat anyNumber neverNaN (TabLayout.mount nat) signingIn))
    = TabLayout.render nat (TabLayout.run nat anyNumber neverNaN (TabLayout.mount nat) signingIn).
Proof.
  exact (proj2 (proj1 (TabLayoutFacts.one_request_at_a_time nat anyNumber neverNaN)
                  signingIn eq_refl) eq_refl).
Defined.

Lemma signed_in_only_on_success_witness :
  exists k response,
    In (TabLayout.Settled k (Returns response)) signedIn /\
    Envelope.success response = true /\
    Envelope.payload response = Some [("username", JStr "alice")].
Proof.
  exact (TabLayoutFacts.signed_in_only_on_success nat anyNumber neverNaN signedIn
           [("username", JStr "alice")] eq_refl).
Defined.

Lemma complete_needs_user_and_id_witness :
  TaskDetails.taskDetailsError
    (TaskDetails.details (TaskDetails.handleCompleteSelectedTask anonymous))
    = Some "Task id missing" /\
  TaskDetails.updates (TaskDetails.handleCompleteSelectedTask anonymous)
    = TaskDetails.updates anonymous.
Proof.
  destruct (TaskDetailsFacts.complete_needs_user_and_id anonymous (or_intror eq_refl))
    as (Herror & Hupdates & _).
  split; [exact Herror | exact Hupdates].
Defined.

Lemma failed_completion_keeps_dialog_witness :
  TaskDetails.taskDetailsVisible
    (TaskDetails.details
       (TaskDetails.updateSettled 0 (refusal "Task not found") completing)) = true /\
  TaskDetails.taskDetailsError
    (TaskDetails.details
       (TaskDetails.updateSettled 0 (refusal "Task not found") completing))
    = Some "Task not found".
Proof.
  destruct (TaskDetailsFacts.failed_completion_keeps_dialog completing 0
              {| TaskDetails.completedBy := "alice"; TaskDetails.stage := TaskDetails.Updating |}
              (refusal "Task not found") eq_refl eq_refl eq_refl)
    as (Herror & _ & Hvisible & _).
  split; [rewrite Hvisible; reflexivity | exact Herror].
Defined.

Lemma completion_closes_after_reload_witness :
  TaskDetails.details
    (TaskDetails.tasksSettled (length (HomeV2.loads (TaskDetails.home completing)))
       (Throws (Error "Network request failed"))
       (TaskDetails.updateSettled 0 (answer []) completing))
  = TaskDetails.closed.
Proof.
  exact (proj1 (proj2 (proj2
           (TaskDetailsFacts.completion_closes_after_reload completing 0
              {| TaskDetails.completedBy := "alice"; TaskDetails.stage := TaskDetails.Updating |}
              (envelope []) (Throws (Error "Network request failed"))
              eq_refl eq_refl eq_refl)))).
Defined.

End Instances.
